(** * L.A. Metro Rail pluggable maps: geometry sync, simplification,
      duplicate consolidation and station rollup

    A shallow embedding of [la_metro_rail/models.py] and
    [la_metro_rail/load.py].  Python objects are records, attribute access
    by computed name ([getattr]/[setattr]) goes through the field names as
    strings, exceptions are values of [exn], and code that mutates an object
    or the database is a function from the state to a result and a new
    state: the state reached when an exception is raised is kept, as it is
    in Python.

    The geometry library (CRS transform, vertex reduction, union aggregate)
    and Django's [slugify] are outside the repository: they are variables of
    the section.  Its calls can raise, and a geometry field refuses a
    geometry of another type than its own ([TypeError]): both are part of
    the model. *)

From Stdlib Require Import Ascii.
From stdpp Require Import gmap strings list fin_maps pretty sorting.

Open Scope Z_scope.
Set Default Proof Using "Type".

(** ** Exceptions and the state-and-exception monad *)

Inductive exn : Type :=
  | ValueError (msg : string)
  | TypeError (msg : string)
  | AttributeError (msg : string)
  | KeyError (key : string)
  | IndexError (msg : string)
  | DoesNotExist (model : string)
  | MultipleObjectsReturned (model : string)
  | IntegrityError (msg : string)
  | OGRException (msg : string)
  | GDALException (msg : string)
  | GEOSException (msg : string)
  | DatabaseError (msg : string).

Inductive result (A : Type) : Type :=
  | Ok (a : A)
  | Raise (e : exn).
Arguments Ok {A} a.
Arguments Raise {A} e.

(** Sequencing of two steps that can raise. *)
Definition and_then {A B} (r : result A) (k : A → result B) : result B :=
  match r with
  | Ok a => k a
  | Raise e => Raise e
  end.

(** A computation over a mutable state [S]: the state is returned also when
    the computation raises. *)
Definition M (S A : Type) : Type := S → result A * S.

Definition ret {S A} (a : A) : M S A := λ s, (Ok a, s).
Definition raise {S A} (e : exn) : M S A := λ s, (Raise e, s).
Definition bind {S A B} (m : M S A) (k : A → M S B) : M S B :=
  λ s, match m s with
       | (Ok a, s') => k a s'
       | (Raise e, s') => (Raise e, s')
       end.
Definition lift {S A} (r : result A) : M S A := λ s, (r, s).

Notation "x <~ m ;; k" := (bind m (λ x, k))
  (at level 100, m at next level, right associativity, only parsing).
Notation "m ;;; k" := (bind m (λ _, k))
  (at level 100, right associativity, only parsing).

(** [for x in l: body] *)
Fixpoint for_ {S A} (l : list A) (body : A → M S unit) : M S unit :=
  match l with
  | [] => ret ()
  | x :: l' => body x ;;; for_ l' body
  end.

(** ** Python built-ins used by the source *)

(** [str(n)] for an integer. *)
Definition str (n : Z) : string := pretty n.

(** [s.split(sep)] for a one-character separator. *)
Fixpoint split (sep : ascii) (s : string) : list string :=
  match s with
  | EmptyString => [EmptyString]
  | String c s' =>
      if Ascii.eqb c sep then EmptyString :: split sep s'
      else match split sep s' with
           | [] => [String c EmptyString]
           | w :: ws => String c w :: ws
           end
  end.

(** [l[i]] *)
Definition index {A} (l : list A) (i : nat) : result A :=
  match l !! i with
  | Some x => Ok x
  | None => Raise (IndexError "list index out of range")
  end.

Definition digit_of (c : ascii) : option Z :=
  let n := Z.of_nat (nat_of_ascii c) in
  if (48 <=? n) && (n <=? 57) then Some (n - 48) else None.

Fixpoint int_digits (s : string) (acc : Z) : option Z :=
  match s with
  | EmptyString => Some acc
  | String c s' =>
      match digit_of c with
      | Some d => int_digits s' (10 * acc + d)
      | None => None
      end
  end.

(** [int(s)] on a string of decimal digits with an optional sign (the
    surrounding white space that Python also accepts does not occur in a
    field name). *)
Definition int (s : string) : result Z :=
  let bad := Raise (ValueError "invalid literal for int()") in
  let digits (t : string) : option Z :=
    match t with EmptyString => None | _ => int_digits t 0 end in
  match s with
  | String "-"%char t => match digits t with Some n => Ok (- n) | None => bad end
  | String "+"%char t => match digits t with Some n => Ok n | None => bad end
  | _ => match digits s with Some n => Ok n | None => bad end
  end.

(** [s.startswith(p)] *)
Definition startswith (s p : string) : bool := String.prefix p s.

(** [x in l] *)
Definition py_in (x : Z) (l : list Z) : bool := bool_decide (x ∈ l).

(** [l.remove(x)]: drops the first occurrence. *)
Fixpoint list_remove (x : Z) (l : list Z) : result (list Z) :=
  match l with
  | [] => Raise (ValueError "list.remove(x): x not in list")
  | y :: l' =>
      if bool_decide (y = x) then Ok l'
      else match list_remove x l' with
           | Ok r => Ok (y :: r)
           | Raise e => Raise e
           end
  end.

(** [[f(i) for i in l]] where [f] may raise. *)
Fixpoint map_result {A B} (f : A → result B) (l : list A) : result (list B) :=
  match l with
  | [] => Ok []
  | x :: l' =>
      match f x with
      | Raise e => Raise e
      | Ok y => match map_result f l' with
                | Ok ys => Ok (y :: ys)
                | Raise e => Raise e
                end
      end
  end.

Section LAMetroRail.

(** ** The geometry library (external) *)

(** A vertex.  Its representation (a pair or triple of floating-point
    numbers) is not inspected by the repository. *)
Variable coord : Type.

(** The CRS-transform primitive on one vertex: [reproject s t c] is [c],
    given in the reference system [s], expressed in [t]. *)
Variable reproject : Z → Z → coord → coord.

(** A geometry without its reference system, as its WKT text describes
    it. *)
Inductive shape : Type :=
  | Point (p : option coord)
  | MultiPoint (ps : list coord)
  | LineString (l : list coord)
  | MultiLineString (ls : list (list coord)).

(** A CRS transform is a call into the library and can fail there:
    [transform_error s t w] is the exception the call raises for the shape
    [w], given in the reference system [s], and the target [t], if it raises
    one.  Nothing is assumed of it. *)
Variable transform_error : Z → Z → shape → option exn.

(** The vertex-reduction primitive, [simplify(tolerance, preserve_topology)].
    Nothing is assumed of it: it may raise, and it may return a shape of
    another kind. *)
Variable simplify_shape : Z → bool → shape → result shape.

(** A GEOS geometry: a shape tagged with its SRID. *)
Record geometry : Type := GEOSGeometry { wkt : shape; srid : Z }.

Definition shape_type (w : shape) : string :=
  match w with
  | Point _ => "Point"
  | MultiPoint _ => "MultiPoint"
  | LineString _ => "LineString"
  | MultiLineString _ => "MultiLineString"
  end.

Definition geom_type (g : geometry) : string := shape_type (wkt g).

(** [len(g)]: the dimension of a point (0 when empty), the number of
    vertices of a line, the number of parts of a collection. *)
Definition shape_len (w : shape) : nat :=
  match w with
  | Point None => 0%nat
  | Point (Some _) => 2%nat
  | MultiPoint ps => length ps
  | LineString l => length l
  | MultiLineString ls => length ls
  end.

Definition map_shape (f : coord → coord) (w : shape) : shape :=
  match w with
  | Point p => Point (option_map f p)
  | MultiPoint ps => MultiPoint (List.map f ps)
  | LineString l => LineString (List.map f l)
  | MultiLineString ls => MultiLineString (List.map (List.map f) ls)
  end.

(** [g.transform(target, clone=True)], and the value of [g] after the
    in-place [g.transform(target)]: the call raises, or every vertex is
    reprojected. *)
Definition transform (target : Z) (g : geometry) : result geometry :=
  match transform_error (srid g) target (wkt g) with
  | Some e => Raise e
  | None =>
      Ok {| wkt := map_shape (reproject (srid g) target) (wkt g);
            srid := target |}
  end.

(** [g.simplify(tolerance, preserve_topology)]: the result keeps the SRID. *)
Definition simplify (tolerance : Z) (preserve_topology : bool) (g : geometry)
  : result geometry :=
  match simplify_shape tolerance preserve_topology (wkt g) with
  | Ok w => Ok {| wkt := w; srid := srid g |}
  | Raise e => Raise e
  end.

(** The value of a geometry attribute: [None] or a geometry. *)
Definition geom_value : Type := option geometry.

(** Truth value of an attribute ([not source] is its negation): [None] is
    false, a geometry is false when its length is 0. *)
Definition truthy (v : geom_value) : bool :=
  match v with
  | None => false
  | Some g => negb (Nat.eqb (shape_len (wkt g)) 0)
  end.

(** A method call [v.name(...)] on an attribute value: [None] has no
    methods. *)
Definition method {A} (v : geom_value) (name : string)
    (f : geometry → result A) : result A :=
  match v with
  | None =>
      Raise (AttributeError
               ("'NoneType' object has no attribute '" +:+ name +:+ "'"))
  | Some g => f g
  end.

(** [v.transform(target, clone=True)] *)
Definition transform_clone (v : geom_value) (target : Z) : result geom_value :=
  method v "transform"
    (λ g, match transform target g with
          | Ok g' => Ok (Some g')
          | Raise e => Raise e
          end).

(** [OGRGeometry(OGRGeomType('MultiLineString'))]: an empty shell. *)
Definition OGR_MultiLineString_shell : shape := MultiLineString [].

(** [ml.add(w)]: a multi-part line takes line parts only. *)
Definition OGR_add (ml w : shape) : result shape :=
  match ml, w with
  | MultiLineString ls, LineString l => Ok (MultiLineString (ls ++ [l]))
  | _, _ => Raise (OGRException "Invalid geometry type")
  end.

(** *** Geometry fields

    A geometry attribute of a model goes through GeoDjango's
    [GeometryProxy].  The object's dictionary holds [None], a geometry
    object, or text (WKT, or what the database returned); here it holds
    [None] or the geometry that object or text describes.  A geometry
    object is stored only when its type is the type of the field, so a
    geometry of another type in the dictionary stands for text: the proxy
    builds the geometry from the text when the attribute is read, and
    refuses it then. *)

(** The test of the proxy: [None] passes, a geometry passes when its type
    is the type of the field. *)
Definition field_accepts (gtype : string) (v : geom_value) : bool :=
  match v with
  | None => true
  | Some g => String.eqb (geom_type g) gtype
  end.

(** The exception of the proxy.  Its message ends with the class of the
    value, which is left out here. *)
Definition GeometryProxy_error (model : string) : exn :=
  TypeError ("cannot set " +:+ model +:+
             " GeometryProxy with value of that type").

(** ** models.py: Line *)

Record Line : Type := mkLine {
  Line_id : Z;
  Line_name : string;
  Line_slug : option string;
  linestring_2229 : geom_value;
  linestring_4269 : geom_value;
  linestring_4326 : geom_value;
  linestring_900913 : geom_value;
  simple_linestring_2229 : geom_value;
  simple_linestring_4269 : geom_value;
  simple_linestring_4326 : geom_value;
  simple_linestring_900913 : geom_value;
}.

(** [Line._meta.fields], by name, in the order of declaration. *)
Definition Line_meta_fields : list string :=
  [ "id"; "name"; "slug";
    "linestring_2229"; "linestring_4269"; "linestring_4326";
    "linestring_900913";
    "simple_linestring_2229"; "simple_linestring_4269";
    "simple_linestring_4326"; "simple_linestring_900913" ].

(** The [srid=] argument of each geometry field. *)
Definition Line_field_srid (f : string) : option Z :=
  if String.eqb f "linestring_2229" then Some 2229
  else if String.eqb f "linestring_4269" then Some 4269
  else if String.eqb f "linestring_4326" then Some 4326
  else if String.eqb f "linestring_900913" then Some 900913
  else if String.eqb f "simple_linestring_2229" then Some 2229
  else if String.eqb f "simple_linestring_4269" then Some 4269
  else if String.eqb f "simple_linestring_4326" then Some 4326
  else if String.eqb f "simple_linestring_900913" then Some 900913
  else None.

(** [self.__dict__[f]] for the name of a geometry field (the source computes
    no other name). *)
Definition Line_dict (f : string) (self : Line) : option geom_value :=
  if String.eqb f "linestring_2229" then Some (linestring_2229 self)
  else if String.eqb f "linestring_4269" then Some (linestring_4269 self)
  else if String.eqb f "linestring_4326" then Some (linestring_4326 self)
  else if String.eqb f "linestring_900913" then Some (linestring_900913 self)
  else if String.eqb f "simple_linestring_2229" then Some (simple_linestring_2229 self)
  else if String.eqb f "simple_linestring_4269" then Some (simple_linestring_4269 self)
  else if String.eqb f "simple_linestring_4326" then Some (simple_linestring_4326 self)
  else if String.eqb f "simple_linestring_900913" then Some (simple_linestring_900913 self)
  else None.

(** [self.__dict__[f] = v] for the name of a geometry field. *)
Definition Line_dict_set (f : string) (v : geom_value) : M Line unit := λ self,
  let '(mkLine i n s a b c d sa sb sc sd) := self in
  if String.eqb f "linestring_2229" then (Ok (), mkLine i n s v b c d sa sb sc sd)
  else if String.eqb f "linestring_4269" then (Ok (), mkLine i n s a v c d sa sb sc sd)
  else if String.eqb f "linestring_4326" then (Ok (), mkLine i n s a b v d sa sb sc sd)
  else if String.eqb f "linestring_900913" then (Ok (), mkLine i n s a b c v sa sb sc sd)
  else if String.eqb f "simple_linestring_2229" then (Ok (), mkLine i n s a b c d v sb sc sd)
  else if String.eqb f "simple_linestring_4269" then (Ok (), mkLine i n s a b c d sa v sc sd)
  else if String.eqb f "simple_linestring_4326" then (Ok (), mkLine i n s a b c d sa sb v sd)
  else if String.eqb f "simple_linestring_900913" then (Ok (), mkLine i n s a b c d sa sb sc v)
  else (Raise (AttributeError "'Line' object has no such attribute"), self).

(** [getattr(self, f)]: every geometry field of [Line] is a
    [MultiLineStringField]; text of another type is refused when it is
    read. *)
Definition Line_getattr (f : string) : M Line geom_value := λ self,
  (match Line_dict f self with
   | None => Raise (AttributeError "'Line' object has no such attribute")
   | Some v =>
       if field_accepts "MultiLineString" v then Ok v
       else Raise (GeometryProxy_error "Line")
   end, self).

(** [setattr(self, f, v)] with [None] or a geometry object [v]: an object of
    another type than the field's is refused, and nothing is stored. *)
Definition Line_setattr (f : string) (v : geom_value) : M Line unit :=
  if field_accepts "MultiLineString" v then Line_dict_set f v
  else raise (GeometryProxy_error "Line").

(** [setattr(self, f, w)] with WKT text [w]: text is stored as it is; it
    describes a geometry in the field's own SRID. *)
Definition Line_setattr_wkt (f : string) (w : shape) : M Line unit :=
  match Line_field_srid f with
  | Some s => Line_dict_set f (Some {| wkt := w; srid := s |})
  | None => raise (AttributeError "'Line' object has no such attribute")
  end.

(** [Line.get_srid_list] *)
Definition Line_get_srid_list : result (list Z) :=
  let fields :=
    List.filter (λ i, startswith i "linestring_") Line_meta_fields in
  map_result (λ i, match index (split "_" i) 1 with
                   | Ok p => int p
                   | Raise e => Raise e
                   end) fields.

(** [Line.set_linestrings] *)
Definition Line_set_linestrings (canonical_srid : Z) : M Line bool :=
  srid_list <~ lift Line_get_srid_list ;;
  if negb (py_in canonical_srid srid_list)
  then raise (ValueError "canonical_srid must exist on the model.")
  else
    let canonical_field := "linestring_" +:+ str canonical_srid in
    canonical_data <~ Line_getattr canonical_field ;;
    srid_list <~ lift (list_remove canonical_srid srid_list) ;;
    for_ srid_list (λ srid,
      copy <~ lift (transform_clone canonical_data srid) ;;
      let this_field := "linestring_" +:+ str srid in
      Line_setattr this_field copy) ;;;
    ret true.

(** The body of the loop of [Line.set_simple_linestrings], for one SRID.
    [deepcopy(source)] is a geometry equal to [source]; the in-place
    [simple.transform(srid)] rebinds [simple]. *)
Definition Line_set_simple_linestrings_body (tolerance srid : Z)
  : M Line unit :=
  let source_field_name := "linestring_" +:+ str srid in
  source <~ Line_getattr source_field_name ;;
  let target_field_name := "simple_" +:+ source_field_name in
  if negb (truthy source) then Line_setattr target_field_name None
  else
    copy <~ lift (if negb (srid =? 900913)
                  then transform_clone source 900913
                  else Ok source) ;;
    simple <~ lift (method copy "simplify" (simplify tolerance true)) ;;
    target <~ lift (if String.eqb (geom_type simple) "LineString" then
                      let ml := OGR_MultiLineString_shell in
                      match transform srid simple with
                      | Raise e => Raise e
                      | Ok simple =>
                          match OGR_add ml (wkt simple) with
                          | Ok ml => Ok ml
                          | Raise e => Raise e
                          end
                      end
                    else
                      match transform srid simple with
                      | Raise e => Raise e
                      | Ok simple => Ok (wkt simple)
                      end) ;;
    Line_setattr_wkt target_field_name target.

(** [Line.set_simple_linestrings] *)
Definition Line_set_simple_linestrings (tolerance : Z) : M Line bool :=
  srid_list <~ lift Line_get_srid_list ;;
  for_ srid_list (Line_set_simple_linestrings_body tolerance) ;;;
  ret true.

(** ** models.py: Stop *)

Record Stop : Type := mkStop {
  Stop_id : Z;
  Stop_name : option string;
  Stop_slug : option string;
  Stop_stop_id : option Z;
  Stop_station : option Z;
  point_4269 : geom_value;
  point_4326 : geom_value;
  point_900913 : geom_value;
}.

(** [Stop._meta.fields], by name, in the order of declaration. *)
Definition Stop_meta_fields : list string :=
  [ "id"; "name"; "slug"; "stop_id"; "station";
    "point_4269"; "point_4326"; "point_900913" ].

(** [self.__dict__[f]] for the name of a geometry field. *)
Definition Stop_dict (f : string) (self : Stop) : option geom_value :=
  if String.eqb f "point_4269" then Some (point_4269 self)
  else if String.eqb f "point_4326" then Some (point_4326 self)
  else if String.eqb f "point_900913" then Some (point_900913 self)
  else None.

(** [self.__dict__[f] = v] for the name of a geometry field. *)
Definition Stop_dict_set (f : string) (v : geom_value) : M Stop unit := λ self,
  let '(mkStop i n s sid st a b c) := self in
  if String.eqb f "point_4269" then (Ok (), mkStop i n s sid st v b c)
  else if String.eqb f "point_4326" then (Ok (), mkStop i n s sid st a v c)
  else if String.eqb f "point_900913" then (Ok (), mkStop i n s sid st a b v)
  else (Raise (AttributeError "'Stop' object has no such attribute"), self).

(** [getattr(self, f)]: every geometry field of [Stop] is a [PointField]. *)
Definition Stop_getattr (f : string) : M Stop geom_value := λ self,
  (match Stop_dict f self with
   | None => Raise (AttributeError "'Stop' object has no such attribute")
   | Some v =>
       if field_accepts "Point" v then Ok v
       else Raise (GeometryProxy_error "Stop")
   end, self).

(** [setattr(self, f, v)] with [None] or a geometry object [v]. *)
Definition Stop_setattr (f : string) (v : geom_value) : M Stop unit :=
  if field_accepts "Point" v then Stop_dict_set f v
  else raise (GeometryProxy_error "Stop").

(** [Stop.get_srid_list] *)
Definition Stop_get_srid_list : result (list Z) :=
  let fields := List.filter (λ i, startswith i "point_") Stop_meta_fields in
  map_result (λ i, match index (split "_" i) 1 with
                   | Ok p => int p
                   | Raise e => Raise e
                   end) fields.

(** [Stop.set_point] *)
Definition Stop_set_point (canonical_srid : Z) : M Stop bool :=
  srid_list <~ lift Stop_get_srid_list ;;
  if negb (py_in canonical_srid srid_list)
  then raise (ValueError "canonical_srid must exist on the model.")
  else
    let canonical_field := "point_" +:+ str canonical_srid in
    canonical_data <~ Stop_getattr canonical_field ;;
    srid_list <~ lift (list_remove canonical_srid srid_list) ;;
    for_ srid_list (λ srid,
      copy <~ lift (transform_clone canonical_data srid) ;;
      let this_field := "point_" +:+ str srid in
      Stop_setattr this_field copy) ;;;
    ret true.

(** ** models.py: Station *)

Record Station : Type := mkStation {
  Station_id : Z;
  Station_name : string;
  Station_slug : option string;
}.

(** ** The database *)

(** One list of rows per table, in the order of insertion; the two
    many-to-many relations ([Stop.lines], [Station.lines]) as sets of pairs
    (owner id, line id); the next value of the two primary-key sequences the
    modelled code draws from. *)
Record DB : Type := mkDB {
  db_lines : list Line;
  db_stops : list Stop;
  db_stations : list Station;
  db_stop_lines : gset (Z * Z);
  db_station_lines : gset (Z * Z);
  db_next_line_id : Z;
  db_next_station_id : Z;
}.

(** The union aggregate of the geometry store, [GeoQuerySet.unionagg], over
    the first geometry field of the selected rows.  It may fail. *)
Variable unionagg : list geom_value → result geom_value.

(** [django.template.defaultfilters.slugify] *)
Variable slugify : string → string.

(** [Meta.ordering]: by [name] for lines, by [stop_id] for stops (a missing
    [stop_id] sorts last). *)
Definition name_le (a b : string) : Prop := Is_true (String.leb a b).
Definition Line_le (a b : Line) : Prop := name_le (Line_name a) (Line_name b).
Definition stop_id_le (a b : Stop) : Prop :=
  match Stop_stop_id a, Stop_stop_id b with
  | Some x, Some y => x ≤ y
  | _, None => True
  | None, Some _ => False
  end.

#[local] Instance name_le_dec a b : Decision (name_le a b).
Proof. unfold name_le. apply _. Defined.
#[local] Instance Line_le_dec a b : Decision (Line_le a b).
Proof. unfold Line_le. apply _. Defined.
#[local] Instance stop_id_le_dec a b : Decision (stop_id_le a b).
Proof. unfold stop_id_le. destruct (Stop_stop_id a), (Stop_stop_id b); apply _. Defined.

(** [Line.objects.filter(name=n)] *)
Definition Line_objects_filter (n : string) : M DB (list Line) := λ db,
  (Ok (filter (λ l, Line_name l = n) (db_lines db)), db).

(** [Line.objects.filter(name=n).exclude(id=i)] *)
Definition Line_objects_filter_exclude (n : string) (i : Z)
  : M DB (list Line) := λ db,
  (Ok (filter (λ l, Line_name l = n ∧ Line_id l ≠ i) (db_lines db)), db).

(** [Line.objects.get(name=n)], where [n] may be [None] (no row has a
    null name). *)
Definition Line_objects_get (n : option string) : M DB Line :=
  rows <~ (λ db, (Ok (filter (λ l, Some (Line_name l) = n) (db_lines db)), db)) ;;
  match rows with
  | [] => raise (DoesNotExist "Line")
  | [l] => ret l
  | _ => raise (MultipleObjectsReturned "Line")
  end.

(** [Line.objects.create(name=n, linestring_2229=g)]: the object is built
    first, every keyword argument set as an attribute, so a geometry object
    that is not a multi-part line is refused before anything is stored;
    otherwise a new row is inserted with the next key and every other field
    unset. *)
Definition Line_objects_create (n : string) (g : geom_value) : M DB Line :=
  λ db,
  if field_accepts "MultiLineString" g then
    let obj := mkLine (db_next_line_id db) n None g None None None
                      None None None None in
    (Ok obj,
     mkDB (db_lines db ++ [obj]) (db_stops db) (db_stations db)
          (db_stop_lines db) (db_station_lines db)
          (db_next_line_id db + 1) (db_next_station_id db))
  else (Raise (GeometryProxy_error "Line"), db).

(** [i.delete()] for a line: the row goes, and with it the rows of the two
    relations that refer to it. *)
Definition Line_delete (i : Line) : M DB unit := λ db,
  (Ok (),
   mkDB (filter (λ l, Line_id l ≠ Line_id i) (db_lines db))
        (db_stops db) (db_stations db)
        (filter (λ p, p.2 ≠ Line_id i) (db_stop_lines db))
        (filter (λ p, p.2 ≠ Line_id i) (db_station_lines db))
        (db_next_line_id db) (db_next_station_id db)).

(** [Line.objects.values('name').annotate(count=Count('name'))
      .filter(count__gt=1)]: one entry (name, count) per name held by more
    than one row, in the order of the names. *)
Definition dupe_query : M DB (list (string * nat)) := λ db,
  let names := merge_sort name_le (Line_name <$> db_lines db) in
  let groups :=
    (λ n, (n, length (filter (λ m, m = n) names))) <$> remove_dups names in
  (Ok (filter (λ d, (1 < d.2)%nat) groups), db).

(** ** load.py: fix_line_dupes *)

(** The body of the loop, for one entry of [dupe_list]. *)
Definition fix_line_dupes_body (dupe : string * nat) : M DB unit :=
  let this_list := Line_objects_filter dupe.1 in
  this_multilinestring <~
    (rows <~ this_list ;; lift (unionagg (linestring_2229 <$> rows))) ;;
  first <~ (rows <~ this_list ;; lift (index rows 0)) ;;
  this_obj <~ Line_objects_create (Line_name first) this_multilinestring ;;
  dels <~ Line_objects_filter_exclude dupe.1 (Line_id this_obj) ;;
  for_ dels Line_delete.

(** [fix_line_dupes] *)
Definition fix_line_dupes : M DB unit :=
  dupe_list <~ dupe_query ;;
  for_ dupe_list fix_line_dupes_body.

(** ** load.py: stations *)

(** [d[k]] on a dictionary with string keys. *)
Definition getitem {V} (d : gmap string V) (k : string) : result V :=
  match d !! k with
  | Some v => Ok v
  | None => Raise (KeyError k)
  end.

(** [dict(pairs)]: a later pair replaces an earlier one with the same
    key. *)
Definition dict {V} (pairs : list (string * V)) : gmap string V :=
  foldl (λ d kv, <[kv.1 := kv.2]> d) ∅ pairs.

(** [str(v)] for an integer attribute that may be [None]. *)
Definition str_opt (v : option Z) : string :=
  match v with Some n => str n | None => "None" end.

(** The text a template filter sees for an argument that may be [None]. *)
Definition force_unicode (v : option string) : string :=
  match v with Some s => s | None => "None" end.

(** Truth value of [d.get(k, None)]: a missing or empty entry is false. *)
Definition truthy_str (v : option string) : bool :=
  match v with
  | None => false
  | Some s => match s with EmptyString => false | String _ _ => true end
  end.

(** [Stop.objects.all()] *)
Definition Stop_objects_all : M DB (list Stop) := λ db,
  (Ok (merge_sort stop_id_le (db_stops db)), db).

(** [stop.lines.add(line)] *)
Definition Stop_lines_add (stop : Stop) (line : Line) : M DB unit := λ db,
  (Ok (),
   mkDB (db_lines db) (db_stops db) (db_stations db)
        ({[ (Stop_id stop, Line_id line) ]} ∪ db_stop_lines db)
        (db_station_lines db)
        (db_next_line_id db) (db_next_station_id db)).

(** [stop.lines.all()] *)
Definition Stop_lines_all (stop : Stop) : M DB (list Line) := λ db,
  (Ok (merge_sort Line_le
         (filter (λ l, (Stop_id stop, Line_id l) ∈ db_stop_lines db)
                 (db_lines db))), db).

(** [station.lines.add(line)] *)
Definition Station_lines_add (station : Station) (line : Line)
  : M DB unit := λ db,
  (Ok (),
   mkDB (db_lines db) (db_stops db) (db_stations db)
        (db_stop_lines db)
        ({[ (Station_id station, Line_id line) ]} ∪ db_station_lines db)
        (db_next_line_id db) (db_next_station_id db)).

(** [Station.objects.get_or_create(name=n, slug=s)].  A station without a
    name cannot be stored. *)
Definition Station_objects_get_or_create (n : option string) (s : string)
  : M DB (Station * bool) := λ db,
  match n with
  | None =>
      (Raise (IntegrityError "null value in column name violates not-null constraint"), db)
  | Some n =>
      match filter (λ st, Station_name st = n ∧ Station_slug st = Some s)
                   (db_stations db) with
      | [] =>
          let obj := mkStation (db_next_station_id db) n (Some s) in
          (Ok (obj, true),
           mkDB (db_lines db) (db_stops db) (db_stations db ++ [obj])
                (db_stop_lines db) (db_station_lines db)
                (db_next_line_id db) (db_next_station_id db + 1))
      | [st] => (Ok (st, false), db)
      | _ => (Raise (MultipleObjectsReturned "Station"), db)
      end
  end.

(** [stop.save()]: the row with the stop's primary key is overwritten (or
    inserted when there is none).  A stop without a name cannot be
    stored. *)
Definition Stop_save (stop : Stop) : M DB unit := λ db,
  match Stop_name stop with
  | None => (Raise (IntegrityError "null value in column name violates not-null constraint"), db)
  | Some _ =>
      let rows :=
        if bool_decide (Stop_id stop ∈ Stop_id <$> db_stops db)
        then (λ r, if bool_decide (Stop_id r = Stop_id stop) then stop else r)
               <$> db_stops db
        else db_stops db ++ [stop] in
      (Ok (),
       mkDB (db_lines db) rows (db_stations db)
            (db_stop_lines db) (db_station_lines db)
            (db_next_line_id db) (db_next_station_id db))
  end.

(** [station.save()] *)
Definition Station_save (station : Station) : M DB unit := λ db,
  let rows :=
    if bool_decide (Station_id station ∈ Station_id <$> db_stations db)
    then (λ r, if bool_decide (Station_id r = Station_id station)
               then station else r) <$> db_stations db
    else db_stations db ++ [station] in
  (Ok (),
   mkDB (db_lines db) (db_stops db) rows
        (db_stop_lines db) (db_station_lines db)
        (db_next_line_id db) (db_next_station_id db)).

Definition set_Stop_name (v : option string) (stop : Stop) : Stop :=
  let '(mkStop i _ s sid st a b c) := stop in mkStop i v s sid st a b c.
Definition set_Stop_slug (v : option string) (stop : Stop) : Stop :=
  let '(mkStop i n _ sid st a b c) := stop in mkStop i n v sid st a b c.
Definition set_Stop_station (v : option Z) (stop : Stop) : Stop :=
  let '(mkStop i n s sid _ a b c) := stop in mkStop i n s sid v a b c.

(** [stop_lookup = dict((i['stop_id'], i) for i in crosswalk)] *)
Definition make_stop_lookup (crosswalk : list (gmap string string))
  : result (gmap string (gmap string string)) :=
  match map_result (λ i, match getitem i "stop_id" with
                         | Ok k => Ok (k, i)
                         | Raise e => Raise e
                         end) crosswalk with
  | Ok pairs => Ok (dict pairs)
  | Raise e => Raise e
  end.

(** The body of the loop, for one stop. *)
Definition stations_body (stop_lookup : gmap string (gmap string string))
    (stop : Stop) : M DB unit :=
  this_crosswalk <~ lift (getitem stop_lookup (str_opt (Stop_stop_id stop))) ;;
  let stop := set_Stop_name (this_crosswalk !! "clean_station_name") stop in
  let stop :=
    set_Stop_slug
      (Some (slugify (force_unicode (Stop_name stop)) +:+ "-" +:+
             str_opt (Stop_stop_id stop))) stop in
  (if truthy_str (this_crosswalk !! "Line1") then
     line <~ Line_objects_get (this_crosswalk !! "Line1") ;;
     Stop_lines_add stop line
   else ret ()) ;;;
  (if truthy_str (this_crosswalk !! "Line2") then
     line <~ Line_objects_get (this_crosswalk !! "Line2") ;;
     Stop_lines_add stop line
   else ret ()) ;;;
  sc <~ Station_objects_get_or_create
          (this_crosswalk !! "clean_station_name")
          (slugify (force_unicode (this_crosswalk !! "clean_station_name"))) ;;
  let station := sc.1 in
  let stop := set_Stop_station (Some (Station_id station)) stop in
  Stop_save stop ;;;
  lines <~ Stop_lines_all stop ;;
  for_ lines (λ line, Station_lines_add station line) ;;;
  Station_save station.

(** [stations()], given the rows of the crosswalk file. *)
Definition stations (crosswalk : list (gmap string string)) : M DB unit :=
  stop_lookup <~ lift (make_stop_lookup crosswalk) ;;
  stops <~ Stop_objects_all ;;
  for_ stops (stations_body stop_lookup).

(** ** load.py: line_extras *)

(** A method call [obj.m(...)] on an object held in a local variable of
    code that works on the database: the method sees the object only, and
    an exception it raises leaves the database as it is. *)
Definition call {O A} (m : M O A) (obj : O) : M DB (A * O) := λ db,
  match m obj with
  | (Ok a, obj') => (Ok (a, obj'), db)
  | (Raise e, _) => (Raise e, db)
  end.

(** [Line.objects.all()] *)
Definition Line_objects_all : M DB (list Line) := λ db,
  (Ok (merge_sort Line_le (db_lines db)), db).

(** The geometry fields of [Line], in the order of declaration. *)
Definition Line_geometry_fields : list string :=
  List.filter (λ f, match Line_field_srid f with
                    | Some _ => true
                    | None => false
                    end) Line_meta_fields.

(** The statement [save] sends for a line: the row with the line's primary
    key is overwritten (or inserted when there is none). *)
Definition Line_update (obj : Line) : M DB unit := λ db,
  let rows :=
    if bool_decide (Line_id obj ∈ Line_id <$> db_lines db)
    then (λ r, if bool_decide (Line_id r = Line_id obj) then obj else r)
           <$> db_lines db
    else db_lines db ++ [obj] in
  (Ok (),
   mkDB rows (db_stops db) (db_stations db)
        (db_stop_lines db) (db_station_lines db)
        (db_next_line_id db) (db_next_station_id db)).

(** [obj.save()] for a line: the value of every field is read from the
    object, a geometry field through its proxy, so text that does not
    describe a multi-part line is refused here and nothing is written;
    then the statement is sent. *)
Definition Line_save (obj : Line) : M DB unit :=
  call (for_ Line_geometry_fields (λ f, Line_getattr f ;;; ret ())) obj ;;;
  Line_update obj.

Definition set_Line_slug (v : option string) (obj : Line) : Line :=
  let '(mkLine i n _ a b c d sa sb sc sd) := obj in
  mkLine i n v a b c d sa sb sc sd.

(** The body of the loop, for one line; the two methods are called with
    their default arguments, [canonical_srid=2229] and [tolerance=500]. *)
Definition line_extras_body (obj : Line) : M DB unit :=
  let obj := set_Line_slug (Some (slugify (Line_name obj))) obj in
  r <~ call (Line_set_linestrings 2229) obj ;;
  let obj := r.2 in
  r <~ call (Line_set_simple_linestrings 500) obj ;;
  let obj := r.2 in
  Line_save obj.

(** [line_extras] *)
Definition line_extras : M DB unit :=
  objs <~ Line_objects_all ;;
  for_ objs line_extras_body.

(** ** models.py: get_stop_count *)

(** [Line.get_stop_count]: [self.stop_set.count()], the number of stops
    whose line set holds the line. *)
Definition Line_get_stop_count (self : Line) : M DB nat := λ db,
  (Ok (length (filter (λ r, (Stop_id r, Line_id self) ∈ db_stop_lines db)
                      (db_stops db))), db).

(** [Station.get_stop_count]: the number of stops that refer to the
    station. *)
Definition Station_get_stop_count (self : Station) : M DB nat := λ db,
  (Ok (length (filter (λ r, Stop_station r = Some (Station_id self))
                      (db_stops db))), db).

(** ** load.py: all *)

(** The two shapefile imports, [lines()] and [stops()]: [LayerMapping]
    reads a file and inserts rows; nothing is assumed of them. *)
Variable load_lines : M DB unit.
Variable load_stops : M DB unit.

Definition Station_le (a b : Station) : Prop :=
  name_le (Station_name a) (Station_name b).
#[local] Instance Station_le_dec a b : Decision (Station_le a b).
Proof. unfold Station_le. apply _. Defined.

(** [Station.objects.all()] *)
Definition Station_objects_all : M DB (list Station) := λ db,
  (Ok (merge_sort Station_le (db_stations db)), db).

(** [i.delete()] for a station: the row goes, and with it what refers to
    it: its line set, the stops of the station and their line sets. *)
Definition Station_delete (i : Station) : M DB unit := λ db,
  let gone :=
    Stop_id <$> filter (λ r, Stop_station r = Some (Station_id i))
                       (db_stops db) in
  (Ok (),
   mkDB (db_lines db)
        (filter (λ r, Stop_station r ≠ Some (Station_id i)) (db_stops db))
        (filter (λ st, Station_id st ≠ Station_id i) (db_stations db))
        (filter (λ p, p.1 ∉ gone) (db_stop_lines db))
        (filter (λ p, p.1 ≠ Station_id i) (db_station_lines db))
        (db_next_line_id db) (db_next_station_id db)).

(** [i.delete()] for a stop: the row goes, and its line set. *)
Definition Stop_delete (i : Stop) : M DB unit := λ db,
  (Ok (),
   mkDB (db_lines db)
        (filter (λ r, Stop_id r ≠ Stop_id i) (db_stops db))
        (db_stations db)
        (filter (λ p, p.1 ≠ Stop_id i) (db_stop_lines db))
        (db_station_lines db)
        (db_next_line_id db) (db_next_station_id db)).

(** The rest of [all], after the three tables have been emptied. *)
Definition load_pipeline (crosswalk : list (gmap string string))
  : M DB unit :=
  load_lines ;;;
  fix_line_dupes ;;;
  line_extras ;;;
  load_stops ;;;
  stations crosswalk.

(** [all()], given the rows of the crosswalk file. *)
Definition all (crosswalk : list (gmap string string)) : M DB unit :=
  (objs <~ Station_objects_all ;; for_ objs Station_delete) ;;;
  (objs <~ Stop_objects_all ;; for_ objs Stop_delete) ;;;
  (objs <~ Line_objects_all ;; for_ objs Line_delete) ;;;
  load_pipeline crosswalk.

(** ** Observations used in the statements *)

(** The attribute [linestring_<s>], [simple_linestring_<s>] of a line and
    [point_<s>] of a stop, read the way the source reads it. *)
Definition Line_linestring (s : Z) (self : Line) : result geom_value :=
  (Line_getattr ("linestring_" +:+ str s) self).1.
Definition Line_simple_linestring (s : Z) (self : Line) : result geom_value :=
  (Line_getattr ("simple_" +:+ ("linestring_" +:+ str s)) self).1.
Definition Stop_point (s : Z) (self : Stop) : result geom_value :=
  (Stop_getattr ("point_" +:+ str s) self).1.

(** The body of the loop of [Line.set_linestrings] and of [Stop.set_point],
    for one SRID, given the canonical data read before the loop. *)
Definition Line_set_linestrings_body (canonical_data : geom_value)
    (srid : Z) : M Line unit :=
  copy <~ lift (transform_clone canonical_data srid) ;;
  let this_field := "linestring_" +:+ str srid in
  Line_setattr this_field copy.
Definition Stop_set_point_body (canonical_data : geom_value)
    (srid : Z) : M Stop unit :=
  copy <~ lift (transform_clone canonical_data srid) ;;
  let this_field := "point_" +:+ str srid in
  Stop_setattr this_field copy.

(** What one turn of the loop of [Line.set_simple_linestrings] stores in
    [simple_linestring_<s>] for a given value of [linestring_<s>], in closed
    form; the turn raises when one of the three library calls does. *)
Definition simplified_value (tolerance s : Z) (source : geom_value)
  : result geom_value :=
  match source with
  | None => Ok None
  | Some g =>
      if truthy source then
        and_then (if s =? 900913 then Ok g else transform 900913 g) (λ copy,
        and_then (simplify tolerance true copy) (λ simple,
        and_then (transform s simple) (λ back,
        Ok (Some {| wkt := match wkt back with
                           | LineString l => MultiLineString [l]
                           | w => w
                           end;
                    srid := s |}))))
      else Ok None
  end.

(** What the turn of the SRID [s] in the loop of
    [Line.set_simple_linestrings] computes from the object: the value it
    stores in [simple_linestring_<s>], or the exception it raises. *)
Definition simplified_turn (tolerance s : Z) (self : Line)
  : result geom_value :=
  and_then (Line_linestring s self) (simplified_value tolerance s).

(** The rows of the line table that carry the name [n], how many they are,
    and their canonical geometries (the input of the union aggregate). *)
Definition named (n : string) (db : DB) : list Line :=
  filter (λ l, Line_name l = n) (db_lines db).
Definition group_size (n : string) (db : DB) : nat := length (named n db).
Definition canonical_geoms (n : string) (db : DB) : list geom_value :=
  linestring_2229 <$> named n db.

(** The row [Line.objects.create(name=n, linestring_2229=g)] inserts. *)
Definition created_line (i : Z) (n : string) (g : geom_value) : Line :=
  mkLine i n None g None None None None None None None.

(** The group of name [n] of [db] has been consolidated in [db']: one row
    carries the name, it is a row [create] made after [db] (its key is not
    one of [db]) and its canonical geometry is the union of the canonical
    geometries the rows of that name had in [db]. *)
Definition consolidated (db db' : DB) (n : string) : Prop :=
  ∃ r u, named n db' = [r] ∧
         unionagg (canonical_geoms n db) = Ok u ∧
         r = created_line (Line_id r) n u ∧
         db_next_line_id db ≤ Line_id r.

(** Primary keys of the line table: unique, and below the next value of the
    sequence. *)
Definition lines_wf (db : DB) : Prop :=
  NoDup (Line_id <$> db_lines db) ∧
  ∀ l, l ∈ db_lines db → Line_id l < db_next_line_id db.

(** The union of the rows of name [n] can be stored: the aggregate
    returns, and what it returns is [None] or a multi-part line. *)
Definition union_storable (n : string) (db : DB) : Prop :=
  ∃ u, unionagg (canonical_geoms n db) = Ok u ∧
       field_accepts "MultiLineString" u = true.

(** Primary keys of the station table: unique, and below the next value of
    the sequence; no two stations share name and slug. *)
Definition Station_key (st : Station) : string * option string :=
  (Station_name st, Station_slug st).
Definition stations_wf (db : DB) : Prop :=
  NoDup (Station_id <$> db_stations db) ∧
  (∀ st, st ∈ db_stations db → Station_id st < db_next_station_id db) ∧
  NoDup (Station_key <$> db_stations db).

(** The stop has a usable crosswalk entry: an entry under its [stop_id]
    that carries a clean station name and whose line names, where given,
    each name exactly one line of the table. *)
Definition resolvable (stop_lookup : gmap string (gmap string string))
    (lines : list Line) (stop : Stop) : Prop :=
  ∃ cw nm,
    stop_lookup !! str_opt (Stop_stop_id stop) = Some cw ∧
    cw !! "clean_station_name" = Some nm ∧
    ∀ k, k ∈ ["Line1"; "Line2"] → truthy_str (cw !! k) = true →
         ∃ l, filter (λ l, Some (Line_name l) = cw !! k) lines = [l].

(** The two conditional [stop.lines.add(Line.objects.get(...))] of
    [stations], as one function of the crosswalk value. *)
Definition add_named_line (v : option string) (stop : Stop) : M DB unit :=
  if truthy_str v then
    line <~ Line_objects_get v ;;
    Stop_lines_add stop line
  else ret ().

(** The state of the rollup after the stops [done] have been processed,
    starting from [db0]: lines and stop keys are those of [db0]; the
    relations refer to existing lines; every processed stop points to an
    existing station; the line set of a station is the union of the line
    sets of the processed stops that point to it; the rows and line sets of
    the stops not yet processed are those of [db0]; and every station that
    is not one of [db0] carries the clean name of a processed stop. *)
Definition rollup_inv (stop_lookup : gmap string (gmap string string))
    (db0 : DB) (done : list Stop) (db : DB) : Prop :=
  db_lines db = db_lines db0 ∧
  Stop_id <$> db_stops db = Stop_id <$> db_stops db0 ∧
  stations_wf db ∧
  (∀ p, p ∈ db_stop_lines db → p.2 ∈ Line_id <$> db_lines db) ∧
  (∀ r, r ∈ db_stops db → Stop_id r ∈ Stop_id <$> done →
     ∃ k, Stop_station r = Some k ∧ k ∈ Station_id <$> db_stations db) ∧
  (∀ p, p ∈ db_station_lines db ↔
     ∃ r, r ∈ db_stops db ∧ Stop_id r ∈ Stop_id <$> done ∧
          Stop_station r = Some p.1 ∧
          (Stop_id r, p.2) ∈ db_stop_lines db) ∧
  (∀ r, r ∈ db_stops db0 → Stop_id r ∉ Stop_id <$> done → r ∈ db_stops db) ∧
  (∀ p, p ∈ db_stop_lines db →
     p ∈ db_stop_lines db0 ∨ p.1 ∈ Stop_id <$> done) ∧
  (∀ x, x ∈ db_stations db →
     x ∈ db_stations db0 ∨
     ∃ s cw, s ∈ done ∧
             stop_lookup !! str_opt (Stop_stop_id s) = Some cw ∧
             cw !! "clean_station_name" = Some (Station_name x)).

(** The expression [int(i.split('_')[1])] that [get_srid_list] applies to
    the name of a field. *)
Definition srid_of_field (i : string) : result Z :=
  match index (split "_" i) 1 with
  | Ok p => int p
  | Raise e => Raise e
  end.

(** Every row of the two relations refers to a line of the table. *)
Definition line_refs_ok (db : DB) : Prop :=
  (∀ p, p ∈ db_stop_lines db → p.2 ∈ Line_id <$> db_lines db) ∧
  (∀ p, p ∈ db_station_lines db → p.2 ∈ Line_id <$> db_lines db).

(** [db'] comes from [db] by work on the line table: stops and stations
    are the same, the relations have lost rows at most, and they still
    refer to lines of the table if they did. *)
Definition lines_only (db db' : DB) : Prop :=
  db_stops db' = db_stops db ∧
  db_stations db' = db_stations db ∧
  db_next_station_id db' = db_next_station_id db ∧
  db_stop_lines db' ⊆ db_stop_lines db ∧
  db_station_lines db' ⊆ db_station_lines db ∧
  (line_refs_ok db → line_refs_ok db').

(** The row [line_extras] saves for a line, in closed form: the slug of the
    name, the canonical geometry in the four reference systems and the
    simplification of each.  The steps are in the order of the calls of the
    source, so the exception is the one the source raises: the canonical
    field is read, transformed three times, each full-resolution field is
    simplified, and [save] reads the fields back. *)
Definition with_extras (l : Line) : result Line :=
  match linestring_2229 l with
  | None =>
      Raise (AttributeError "'NoneType' object has no attribute 'transform'")
  | Some g =>
      if field_accepts "MultiLineString" (Some g) then
        and_then (transform 4269 g) (λ a,
        and_then (transform 4326 g) (λ b,
        and_then (transform 900913 g) (λ c,
        and_then (simplified_value 500 2229 (Some g)) (λ sa,
        and_then (simplified_value 500 4269 (Some a)) (λ sb,
        and_then (simplified_value 500 4326 (Some b)) (λ sc,
        and_then (simplified_value 500 900913 (Some c)) (λ sd,
        if forallb (field_accepts "MultiLineString") [sa; sb; sc; sd] then
          Ok (mkLine (Line_id l) (Line_name l) (Some (slugify (Line_name l)))
                (Some g) (Some a) (Some b) (Some c) sa sb sc sd)
        else Raise (GeometryProxy_error "Line"))))))))
      else Raise (GeometryProxy_error "Line")
  end.

(** The row of the line [l] once [line_extras] has passed it. *)
Definition completed (l : Line) : Line :=
  match with_extras l with
  | Ok r => r
  | Raise _ => l
  end.

(** The database after [line_extras] has saved the lines [done]. *)
Definition extras_after (done : list Line) (db : DB) : DB :=
  mkDB ((λ r, if bool_decide (Line_id r ∈ Line_id <$> done)
              then completed r else r) <$> db_lines db)
       (db_stops db) (db_stations db)
       (db_stop_lines db) (db_station_lines db)
       (db_next_line_id db) (db_next_station_id db).

(** The row [stations] saves for the stop [r0], given its crosswalk entry
    [cw] and the key [k] of its station. *)
Definition rolled_stop (cw : gmap string string) (k : Z) (r0 : Stop) : Stop :=
  let name := cw !! "clean_station_name" in
  mkStop (Stop_id r0) name
    (Some (slugify (force_unicode name) +:+ "-" +:+
           str_opt (Stop_stop_id r0)))
    (Stop_stop_id r0) (Some k)
    (point_4269 r0) (point_4326 r0) (point_900913 r0).

(** The entry [cw] names the line [ln], under [Line1] or [Line2]. *)
Definition names_line (cw : gmap string string) (ln : Line) : Prop :=
  ∃ k, k ∈ ["Line1"; "Line2"] ∧ truthy_str (cw !! k) = true ∧
       Some (Line_name ln) = cw !! k.

(** What the rows hold after the stops [done] have been processed, starting
    from [db0]: the row of a processed stop is the row of [db0] rolled up
    into a station of the table that carries the clean name and its slug;
    the line sets of the stops are those of [db0] and the lines the entries
    of the processed stops name; every station that is not one of [db0] is
    referred to by a processed stop. *)
Definition rollup_rows (stop_lookup : gmap string (gmap string string))
    (db0 : DB) (done : list Stop) (db : DB) : Prop :=
  (∀ r, r ∈ db_stops db → Stop_id r ∈ Stop_id <$> done →
     ∃ r0 cw st,
       r0 ∈ done ∧ stop_lookup !! str_opt (Stop_stop_id r0) = Some cw ∧
       st ∈ db_stations db ∧
       cw !! "clean_station_name" = Some (Station_name st) ∧
       Station_slug st = Some (slugify (Station_name st)) ∧
       r = rolled_stop cw (Station_id st) r0) ∧
  (∀ p, p ∈ db_stop_lines db ↔
     p ∈ db_stop_lines db0 ∨
     ∃ s cw ln,
       s ∈ done ∧ stop_lookup !! str_opt (Stop_stop_id s) = Some cw ∧
       ln ∈ db_lines db0 ∧ names_line cw ln ∧
       p = (Stop_id s, Line_id ln)) ∧
  (∀ x, x ∈ db_stations db →
     x ∈ db_stations db0 ∨
     ∃ r, r ∈ db_stops db ∧ Stop_id r ∈ Stop_id <$> done ∧
          Stop_station r = Some (Station_id x)).

(** *** Evaluation of the field-name computations *)

Lemma Line_get_srid_list_eq :
  Line_get_srid_list = Ok [2229; 4269; 4326; 900913].
Proof. vm_compute. reflexivity. Qed.

Lemma Stop_get_srid_list_eq :
  Stop_get_srid_list = Ok [4269; 4326; 900913].
Proof. vm_compute. reflexivity. Qed.



(** * Properties *)

(** ** The geometry library and the fields *)

(** What a transform that returns keeps: the kind of the shape, the number
    of its parts or vertices, and the target as SRID. *)
Lemma transform_Ok (t : Z) (g g' : geometry) :
  transform t g = Ok g' →
  geom_type g' = geom_type g ∧ srid g' = t ∧
  truthy (Some g') = truthy (Some g).
Proof.
  unfold transform. destruct (transform_error _ _ _); [ done | ].
  intros [= <-]. destruct g as [[[p|]|ps|l|ls] s]; cbn;
    rewrite ?length_map; done.
Qed.

Lemma transform_accepts (gtype : string) (t : Z) (g g' : geometry) :
  transform t g = Ok g' →
  field_accepts gtype (Some g') = field_accepts gtype (Some g).
Proof.
  intros H. apply transform_Ok in H as (Ht & _ & _).
  unfold field_accepts. by rewrite Ht.
Qed.

(** The same call gives the same result. *)
Lemma transform_again (t : Z) (g g1 g2 : geometry) :
  transform t g = Ok g1 → transform t g = Ok g2 → g1 = g2.
Proof. intros H1 H2. rewrite H1 in H2. by injection H2. Qed.

Lemma Line_getattr_Ok (f : string) (self : Line) (v : geom_value) :
  (Line_getattr f self).1 = Ok v →
  Line_dict f self = Some v ∧ field_accepts "MultiLineString" v = true ∧
  Line_getattr f self = (Ok v, self).
Proof.
  unfold Line_getattr. cbn. destruct (Line_dict f self) as [w|]; [ | done ].
  destruct (field_accepts "MultiLineString" w) eqn:Hw; [ | done ].
  intros [= <-]. done.
Qed.

Lemma Stop_getattr_Ok (f : string) (self : Stop) (v : geom_value) :
  (Stop_getattr f self).1 = Ok v →
  Stop_dict f self = Some v ∧ field_accepts "Point" v = true ∧
  Stop_getattr f self = (Ok v, self).
Proof.
  unfold Stop_getattr. cbn. destruct (Stop_dict f self) as [w|]; [ | done ].
  destruct (field_accepts "Point" w) eqn:Hw; [ | done ].
  intros [= <-]. done.
Qed.

(** ** Geometry synchronisation *)

Ltac in_srids H :=
  repeat (apply elem_of_cons in H as [-> | H]);
  [ .. | by apply elem_of_nil in H ].

(** Evaluation of a method on an object whose fields are variables: the
    field names are computed, the library calls are rewritten with what is
    known of them. *)
Ltac known_calls :=
  repeat match goal with
         | H : transform _ _ = _ |- _ => rewrite !H
         | H : field_accepts _ _ = _ |- _ => rewrite !H
         end.
Ltac run_method :=
  cbv - [transform field_accepts];
  repeat (progress (known_calls; cbv beta iota zeta)).

Lemma Line_set_linestrings_sync (self : Line) (c : Z) (g : geometry) srids :
  Line_get_srid_list = Ok srids → c ∈ srids →
  Line_linestring c self = Ok (Some g) →
  (∀ s, s ∈ srids → s ≠ c → ∃ g', transform s g = Ok g') →
  ∃ self', Line_set_linestrings c self = (Ok true, self') ∧
    (∀ s g', s ∈ srids → s ≠ c → transform s g = Ok g' →
       Line_linestring s self' = Ok (Some g')) ∧
    Line_linestring c self' = Ok (Some g) ∧
    (∀ s, s ∈ srids →
       Line_simple_linestring s self' = Line_simple_linestring s self) ∧
    Line_set_linestrings c self' = (Ok true, self').
Proof.
  rewrite Line_get_srid_list_eq. intros [= <-] Hc Hg Htr.
  apply Line_getattr_Ok in Hg as (Hd & Hacc & _).
  assert (Hto : ∀ s, s ∈ [2229; 4269; 4326; 900913] → s ≠ c →
            ∃ g', transform s g = Ok g' ∧
                  field_accepts "MultiLineString" (Some g') = true).
  { intros s Hs Hne. destruct (Htr s Hs Hne) as [g' Hg'].
    exists g'. split; [ done | ]. by rewrite (transform_accepts _ _ _ _ Hg'). }
  clear Htr.
  destruct self as [i n sl a b d e sa sb sc sd].
  in_srids Hc.
  all: vm_compute in Hd; injection Hd as ->.
  - destruct (Hto 4269) as (g1 & H1 & A1); [ by repeat constructor | done | ].
    destruct (Hto 4326) as (g2 & H2 & A2); [ by repeat constructor | done | ].
    destruct (Hto 900913) as (g3 & H3 & A3); [ by repeat constructor | done | ].
    clear Hto.
    eexists; split; [ run_method; reflexivity | ].
    split; [ intros s g' Hs Hne Hg'; in_srids Hs; try (by destruct Hne);
             rewrite Hg' in *; simplify_eq; run_method; reflexivity | ].
    split; [ run_method; reflexivity | ].
    split; [ intros s Hs; in_srids Hs; cbv - [field_accepts]; reflexivity | ].
    run_method; reflexivity.
  - destruct (Hto 2229) as (g1 & H1 & A1); [ by repeat constructor | done | ].
    destruct (Hto 4326) as (g2 & H2 & A2); [ by repeat constructor | done | ].
    destruct (Hto 900913) as (g3 & H3 & A3); [ by repeat constructor | done | ].
    clear Hto.
    eexists; split; [ run_method; reflexivity | ].
    split; [ intros s g' Hs Hne Hg'; in_srids Hs; try (by destruct Hne);
             rewrite Hg' in *; simplify_eq; run_method; reflexivity | ].
    split; [ run_method; reflexivity | ].
    split; [ intros s Hs; in_srids Hs; cbv - [field_accepts]; reflexivity | ].
    run_method; reflexivity.
  - destruct (Hto 2229) as (g1 & H1 & A1); [ by repeat constructor | done | ].
    destruct (Hto 4269) as (g2 & H2 & A2); [ by repeat constructor | done | ].
    destruct (Hto 900913) as (g3 & H3 & A3); [ by repeat constructor | done | ].
    clear Hto.
    eexists; split; [ run_method; reflexivity | ].
    split; [ intros s g' Hs Hne Hg'; in_srids Hs; try (by destruct Hne);
             rewrite Hg' in *; simplify_eq; run_method; reflexivity | ].
    split; [ run_method; reflexivity | ].
    split; [ intros s Hs; in_srids Hs; cbv - [field_accepts]; reflexivity | ].
    run_method; reflexivity.
  - destruct (Hto 2229) as (g1 & H1 & A1); [ by repeat constructor | done | ].
    destruct (Hto 4269) as (g2 & H2 & A2); [ by repeat constructor | done | ].
    destruct (Hto 4326) as (g3 & H3 & A3); [ by repeat constructor | done | ].
    clear Hto.
    eexists; split; [ run_method; reflexivity | ].
    split; [ intros s g' Hs Hne Hg'; in_srids Hs; try (by destruct Hne);
             rewrite Hg' in *; simplify_eq; run_method; reflexivity | ].
    split; [ run_method; reflexivity | ].
    split; [ intros s Hs; in_srids Hs; cbv - [field_accepts]; reflexivity | ].
    run_method; reflexivity.
Qed.

Lemma Stop_set_point_sync (self : Stop) (c : Z) (g : geometry) srids :
  Stop_get_srid_list = Ok srids → c ∈ srids →
  Stop_point c self = Ok (Some g) →
  (∀ s, s ∈ srids → s ≠ c → ∃ g', transform s g = Ok g') →
  ∃ self', Stop_set_point c self = (Ok true, self') ∧
    (∀ s g', s ∈ srids → s ≠ c → transform s g = Ok g' →
       Stop_point s self' = Ok (Some g')) ∧
    Stop_point c self' = Ok (Some g) ∧
    Stop_set_point c self' = (Ok true, self').
Proof.
  rewrite Stop_get_srid_list_eq. intros [= <-] Hc Hg Htr.
  apply Stop_getattr_Ok in Hg as (Hd & Hacc & _).
  assert (Hto : ∀ s, s ∈ [4269; 4326; 900913] → s ≠ c →
            ∃ g', transform s g = Ok g' ∧
                  field_accepts "Point" (Some g') = true).
  { intros s Hs Hne. destruct (Htr s Hs Hne) as [g' Hg'].
    exists g'. split; [ done | ]. by rewrite (transform_accepts _ _ _ _ Hg'). }
  clear Htr.
  destruct self as [i n sl sid st a b d].
  in_srids Hc.
  all: vm_compute in Hd; injection Hd as ->.
  - destruct (Hto 4326) as (g1 & H1 & A1); [ by repeat constructor | done | ].
    destruct (Hto 900913) as (g2 & H2 & A2); [ by repeat constructor | done | ].
    clear Hto.
    eexists; split; [ run_method; reflexivity | ].
    split; [ intros s g' Hs Hne Hg'; in_srids Hs; try (by destruct Hne);
             rewrite Hg' in *; simplify_eq; run_method; reflexivity | ].
    split; [ run_method; reflexivity | ].
    run_method; reflexivity.
  - destruct (Hto 4269) as (g1 & H1 & A1); [ by repeat constructor | done | ].
    destruct (Hto 900913) as (g2 & H2 & A2); [ by repeat constructor | done | ].
    clear Hto.
    eexists; split; [ run_method; reflexivity | ].
    split; [ intros s g' Hs Hne Hg'; in_srids Hs; try (by destruct Hne);
             rewrite Hg' in *; simplify_eq; run_method; reflexivity | ].
    split; [ run_method; reflexivity | ].
    run_method; reflexivity.
  - destruct (Hto 4269) as (g1 & H1 & A1); [ by repeat constructor | done | ].
    destruct (Hto 4326) as (g2 & H2 & A2); [ by repeat constructor | done | ].
    clear Hto.
    eexists; split; [ run_method; reflexivity | ].
    split; [ intros s g' Hs Hne Hg'; in_srids Hs; try (by destruct Hne);
             rewrite Hg' in *; simplify_eq; run_method; reflexivity | ].
    split; [ run_method; reflexivity | ].
    run_method; reflexivity.
Qed.

(** C3.  For a line and for a stop whose canonical field holds a geometry
    [g], whose canonical SRID is one of the model's SRIDs, and for which the
    library transforms [g] into each of the other SRIDs without raising, the
    sync method returns [True]; afterwards every other full-resolution field
    holds [g] transformed into that field's SRID and the canonical field
    still holds [g] (for a line, the simplified fields are not touched
    either). *)
Theorem sync_reprojects_canonical :
  (∀ (self : Line) (c : Z) (g : geometry) srids,
     Line_get_srid_list = Ok srids → c ∈ srids →
     Line_linestring c self = Ok (Some g) →
     (∀ s, s ∈ srids → s ≠ c → ∃ g', transform s g = Ok g') →
     ∃ self', Line_set_linestrings c self = (Ok true, self') ∧
       (∀ s, s ∈ srids → s ≠ c →
          ∃ g', transform s g = Ok g' ∧
                Line_linestring s self' = Ok (Some g')) ∧
       Line_linestring c self' = Ok (Some g) ∧
       (∀ s, s ∈ srids →
          Line_simple_linestring s self' = Line_simple_linestring s self)) ∧
  (∀ (self : Stop) (c : Z) (g : geometry) srids,
     Stop_get_srid_list = Ok srids → c ∈ srids →
     Stop_point c self = Ok (Some g) →
     (∀ s, s ∈ srids → s ≠ c → ∃ g', transform s g = Ok g') →
     ∃ self', Stop_set_point c self = (Ok true, self') ∧
       (∀ s, s ∈ srids → s ≠ c →
          ∃ g', transform s g = Ok g' ∧
                Stop_point s self' = Ok (Some g')) ∧
       Stop_point c self' = Ok (Some g)).
Proof.
  split.
  - intros self c g srids Hl Hc Hg Htr.
    destruct (Line_set_linestrings_sync self c g srids Hl Hc Hg Htr)
      as (self' & Hrun & Hother & Hcan & Hsimple & _).
    exists self'. split; [ done | ]. split; [ | done ].
    intros s Hs Hne. destruct (Htr s Hs Hne) as [g' Hg']. eauto.
  - intros self c g srids Hl Hc Hg Htr.
    destruct (Stop_set_point_sync self c g srids Hl Hc Hg Htr)
      as (self' & Hrun & Hother & Hcan & _).
    exists self'. split; [ done | ]. split; [ | done ].
    intros s Hs Hne. destruct (Htr s Hs Hne) as [g' Hg']. eauto.
Qed.

(** C8.  Called with a canonical SRID that is not one of the model's SRIDs,
    the sync method raises [ValueError] and leaves the object as it
    was. *)
Theorem sync_rejects_unknown_srid :
  (∀ (self : Line) (c : Z) srids,
     Line_get_srid_list = Ok srids → c ∉ srids →
     Line_set_linestrings c self =
       (Raise (ValueError "canonical_srid must exist on the model."), self)) ∧
  (∀ (self : Stop) (c : Z) srids,
     Stop_get_srid_list = Ok srids → c ∉ srids →
     Stop_set_point c self =
       (Raise (ValueError "canonical_srid must exist on the model."), self)).
Proof.
  split; intros self c srids Hl Hc.
  - unfold Line_set_linestrings, bind, lift. rewrite Hl.
    unfold py_in. rewrite bool_decide_eq_false_2 by done. reflexivity.
  - unfold Stop_set_point, bind, lift. rewrite Hl.
    unfold py_in. rewrite bool_decide_eq_false_2 by done. reflexivity.
Qed.

(** C9.  Sync is idempotent: with a geometry in the canonical field that
    the library transforms into each of the other SRIDs without raising, a
    second run on the object the first run produced returns [True] again and
    produces that very object, so all derived fields are identical. *)
Theorem sync_idempotent :
  (∀ (self : Line) (c : Z) (g : geometry) srids,
     Line_get_srid_list = Ok srids → c ∈ srids →
     Line_linestring c self = Ok (Some g) →
     (∀ s, s ∈ srids → s ≠ c → ∃ g', transform s g = Ok g') →
     ∃ self', Line_set_linestrings c self = (Ok true, self') ∧
              Line_set_linestrings c self' = (Ok true, self')) ∧
  (∀ (self : Stop) (c : Z) (g : geometry) srids,
     Stop_get_srid_list = Ok srids → c ∈ srids →
     Stop_point c self = Ok (Some g) →
     (∀ s, s ∈ srids → s ≠ c → ∃ g', transform s g = Ok g') →
     ∃ self', Stop_set_point c self = (Ok true, self') ∧
              Stop_set_point c self' = (Ok true, self')).
Proof.
  split.
  - intros self c g srids Hl Hc Hg Htr.
    destruct (Line_set_linestrings_sync self c g srids Hl Hc Hg Htr)
      as (self' & Hrun & _ & _ & _ & Hagain).
    exists self'. auto.
  - intros self c g srids Hl Hc Hg Htr.
    destruct (Stop_set_point_sync self c g srids Hl Hc Hg Htr)
      as (self' & Hrun & _ & _ & Hagain).
    exists self'. auto.
Qed.

(** C10, amended.  Sync has no guard of its own.  When the canonical field
    holds [None], the first [transform] call raises [AttributeError] and no
    field has been written by then.  When it holds a geometry of length
    zero, the geometry is handed to the library like any other: if the
    library transforms it, the method returns [True] and every other field
    holds a geometry of length zero. *)
Theorem sync_without_canonical_geometry :
  (∀ (self : Line) (c : Z) srids,
     Line_get_srid_list = Ok srids → c ∈ srids →
     (Line_linestring c self = Ok None →
      Line_set_linestrings c self =
        (Raise (AttributeError
                  "'NoneType' object has no attribute 'transform'"), self)) ∧
     (∀ g, Line_linestring c self = Ok (Some g) →
        truthy (Some g) = false →
        (∀ s, s ∈ srids → s ≠ c → ∃ g', transform s g = Ok g') →
        ∃ self', Line_set_linestrings c self = (Ok true, self') ∧
          ∀ s, s ∈ srids → s ≠ c →
            ∃ g', Line_linestring s self' = Ok (Some g') ∧
                  truthy (Some g') = false)) ∧
  (∀ (self : Stop) (c : Z) srids,
     Stop_get_srid_list = Ok srids → c ∈ srids →
     (Stop_point c self = Ok None →
      Stop_set_point c self =
        (Raise (AttributeError
                  "'NoneType' object has no attribute 'transform'"), self)) ∧
     (∀ g, Stop_point c self = Ok (Some g) →
        truthy (Some g) = false →
        (∀ s, s ∈ srids → s ≠ c → ∃ g', transform s g = Ok g') →
        ∃ self', Stop_set_point c self = (Ok true, self') ∧
          ∀ s, s ∈ srids → s ≠ c →
            ∃ g', Stop_point s self' = Ok (Some g') ∧
                  truthy (Some g') = false)).
Proof.
  split.
  - intros self c srids Hl Hc. split.
    + revert Hl Hc. rewrite Line_get_srid_list_eq. intros [= <-] Hc Hg.
      apply Line_getattr_Ok in Hg as (Hd & _ & _).
      destruct self as [i n sl a b d e sa sb sc sd].
      in_srids Hc.
      all: vm_compute in Hd; injection Hd as ->; reflexivity.
    + intros g Hg Hempty Htr.
      destruct (Line_set_linestrings_sync self c g srids Hl Hc Hg Htr)
        as (self' & Hrun & Hother & _).
      exists self'. split; [ done | ]. intros s Hs Hne.
      destruct (Htr s Hs Hne) as [g' Hg']. exists g'.
      split; [ by apply Hother | ].
      apply transform_Ok in Hg' as (_ & _ & ->). done.
  - intros self c srids Hl Hc. split.
    + revert Hl Hc. rewrite Stop_get_srid_list_eq. intros [= <-] Hc Hg.
      apply Stop_getattr_Ok in Hg as (Hd & _ & _).
      destruct self as [i n sl sid st a b d].
      in_srids Hc.
      all: vm_compute in Hd; injection Hd as ->; reflexivity.
    + intros g Hg Hempty Htr.
      destruct (Stop_set_point_sync self c g srids Hl Hc Hg Htr)
        as (self' & Hrun & Hother & _).
      exists self'. split; [ done | ]. intros s Hs Hne.
      destruct (Htr s Hs Hne) as [g' Hg']. exists g'.
      split; [ by apply Hother | ].
      apply transform_Ok in Hg' as (_ & _ & ->). done.
Qed.

(** ** Simplification *)

(** One turn of the loop stores [simplified_value] in the target field, or
    raises what the read or a library call raises and stores nothing. *)
Lemma Line_set_simple_linestrings_body_run tolerance s self v :
  Line_dict ("linestring_" +:+ str s) self = Some v →
  Line_field_srid ("simple_" +:+ ("linestring_" +:+ str s)) = Some s →
  Line_set_simple_linestrings_body tolerance s self =
    match simplified_turn tolerance s self with
    | Ok r => Line_dict_set ("simple_" +:+ ("linestring_" +:+ str s)) r self
    | Raise e => (Raise e, self)
    end.
Proof.
  intros Hd Hsrid.
  unfold Line_set_simple_linestrings_body, simplified_turn, Line_linestring,
    bind, Line_getattr.
  rewrite Hd. cbn [fst and_then].
  destruct (field_accepts "MultiLineString" v); [ | reflexivity ].
  cbn [and_then]. unfold simplified_value.
  destruct v as [g|]; [ | reflexivity ].
  destruct (truthy (Some g)); [ | reflexivity ].
  cbn [negb]. unfold lift, Line_setattr_wkt. rewrite Hsrid.
  assert (Hshape : ∀ simple back : geometry,
            transform s simple = Ok back →
            shape_type (wkt back) = shape_type (wkt simple))
    by (intros simple back Hback; by apply transform_Ok in Hback as (? & _)).
  destruct (s =? 900913); cbn [negb transform_clone method and_then].
  - destruct (simplify tolerance true g) as [simple|e]; [ | reflexivity ].
    cbn [and_then].
    destruct (transform s simple) as [back|e] eqn:Hback;
      [ | by destruct (String.eqb (geom_type simple) "LineString") ].
    apply Hshape in Hback. cbn [and_then]. unfold geom_type.
    destruct (wkt back) as [p|ps|l|ls], (wkt simple) as [p'|ps'|l'|ls'];
      try discriminate Hback; reflexivity.
  - destruct (transform 900913 g) as [copy|e]; [ | reflexivity ].
    cbn [and_then method].
    destruct (simplify tolerance true copy) as [simple|e]; [ | reflexivity ].
    cbn [and_then].
    destruct (transform s simple) as [back|e] eqn:Hback;
      [ | by destruct (String.eqb (geom_type simple) "LineString") ].
    apply Hshape in Hback. cbn [and_then]. unfold geom_type.
    destruct (wkt back) as [p|ps|l|ls], (wkt simple) as [p'|ps'|l'|ls'];
      try discriminate Hback; reflexivity.
Qed.

Lemma Line_set_simple_linestrings_body_turn tolerance s self :
  s ∈ [2229; 4269; 4326; 900913] →
  Line_set_simple_linestrings_body tolerance s self =
    match simplified_turn tolerance s self with
    | Ok r => Line_dict_set ("simple_" +:+ ("linestring_" +:+ str s)) r self
    | Raise e => (Raise e, self)
    end.
Proof.
  intros Hs. destruct self as [i n sl a b c d sa sb sc sd].
  in_srids Hs.
  - by apply (Line_set_simple_linestrings_body_run _ 2229 _ a).
  - by apply (Line_set_simple_linestrings_body_run _ 4269 _ b).
  - by apply (Line_set_simple_linestrings_body_run _ 4326 _ c).
  - by apply (Line_set_simple_linestrings_body_run _ 900913 _ d).
Qed.

(** The whole method in closed form: the four turns in the order of the
    SRIDs, each storing its value; the first turn that raises ends the run,
    and what the turns before it stored stays. *)
Lemma Line_set_simple_linestrings_eq tolerance i n sl a b c d sa sb sc sd :
  let self := mkLine i n sl a b c d sa sb sc sd in
  Line_set_simple_linestrings tolerance self =
    match simplified_turn tolerance 2229 self with
    | Raise e => (Raise e, self)
    | Ok ra =>
        match simplified_turn tolerance 4269 self with
        | Raise e => (Raise e, mkLine i n sl a b c d ra sb sc sd)
        | Ok rb =>
            match simplified_turn tolerance 4326 self with
            | Raise e => (Raise e, mkLine i n sl a b c d ra rb sc sd)
            | Ok rc =>
                match simplified_turn tolerance 900913 self with
                | Raise e => (Raise e, mkLine i n sl a b c d ra rb rc sd)
                | Ok rd => (Ok true, mkLine i n sl a b c d ra rb rc rd)
                end
            end
        end
    end.
Proof.
  intros self. subst self.
  unfold Line_set_simple_linestrings, bind, lift.
  rewrite Line_get_srid_list_eq. cbn [for_]. unfold bind.
  rewrite (Line_set_simple_linestrings_body_turn _ 2229)
    by (by repeat constructor).
  destruct (simplified_turn tolerance 2229 _) as [ra|e]; [ | reflexivity ].
  change (Line_dict_set _ ra _)
    with (Ok (), mkLine i n sl a b c d ra sb sc sd).
  cbv iota beta.
  rewrite (Line_set_simple_linestrings_body_turn _ 4269)
    by (by repeat constructor).
  change (simplified_turn tolerance 4269 (mkLine i n sl a b c d ra sb sc sd))
    with (simplified_turn tolerance 4269 (mkLine i n sl a b c d sa sb sc sd)).
  destruct (simplified_turn tolerance 4269 _) as [rb|e]; [ | reflexivity ].
  change (Line_dict_set _ rb _)
    with (Ok (), mkLine i n sl a b c d ra rb sc sd).
  cbv iota beta.
  rewrite (Line_set_simple_linestrings_body_turn _ 4326)
    by (by repeat constructor).
  change (simplified_turn tolerance 4326 (mkLine i n sl a b c d ra rb sc sd))
    with (simplified_turn tolerance 4326 (mkLine i n sl a b c d sa sb sc sd)).
  destruct (simplified_turn tolerance 4326 _) as [rc|e]; [ | reflexivity ].
  change (Line_dict_set _ rc _)
    with (Ok (), mkLine i n sl a b c d ra rb rc sd).
  cbv iota beta.
  rewrite (Line_set_simple_linestrings_body_turn _ 900913)
    by (by repeat constructor).
  change (simplified_turn tolerance 900913 (mkLine i n sl a b c d ra rb rc sd))
    with (simplified_turn tolerance 900913 (mkLine i n sl a b c d sa sb sc sd)).
  destruct (simplified_turn tolerance 900913 _) as [rd|e]; reflexivity.
Qed.

(** Whether a turn raises, and what, is read off [simplified_turn]. *)
Lemma Line_set_simple_linestrings_body_fst tolerance s self :
  s ∈ [2229; 4269; 4326; 900913] →
  (Line_set_simple_linestrings_body tolerance s self).1 =
    match simplified_turn tolerance s self with
    | Ok _ => Ok ()
    | Raise e => Raise e
    end.
Proof.
  intros Hs. rewrite Line_set_simple_linestrings_body_turn by done.
  destruct (simplified_turn tolerance s self) as [r|e]; [ | reflexivity ].
  destruct self as [i n sl a b c d sa sb sc sd].
  in_srids Hs; reflexivity.
Qed.

Lemma Line_simple_linestring_dict s self v :
  Line_dict ("simple_" +:+ ("linestring_" +:+ str s)) self = Some v →
  Line_simple_linestring s self =
    if field_accepts "MultiLineString" v then Ok v
    else Raise (GeometryProxy_error "Line").
Proof.
  intros Hd. unfold Line_simple_linestring, Line_getattr. by rewrite Hd.
Qed.

(** Storing into a simplified field: the field holds the value, the
    full-resolution fields are what they were. *)
Lemma Line_dict_set_simple s v self :
  s ∈ [2229; 4269; 4326; 900913] →
  let out := Line_dict_set ("simple_" +:+ ("linestring_" +:+ str s)) v self in
  out.1 = Ok () ∧
  Line_dict ("simple_" +:+ ("linestring_" +:+ str s)) out.2 = Some v ∧
  ∀ s', s' ∈ [2229; 4269; 4326; 900913] →
    Line_linestring s' out.2 = Line_linestring s' self.
Proof.
  intros Hs. destruct self as [i n sl a b c d sa sb sc sd].
  in_srids Hs.
  all: split; [ reflexivity | split; [ reflexivity | ] ].
  all: intros s' Hs'; in_srids Hs'; reflexivity.
Qed.

(** A run in which every turn computes a value returns [True]; each
    simplified field holds the value of its turn and nothing else has
    changed. *)
Lemma Line_set_simple_linestrings_returns tolerance self :
  (∀ s, s ∈ [2229; 4269; 4326; 900913] →
     ∃ r, simplified_turn tolerance s self = Ok r) →
  ∃ self', Line_set_simple_linestrings tolerance self = (Ok true, self') ∧
    (∀ s r, s ∈ [2229; 4269; 4326; 900913] →
       simplified_turn tolerance s self = Ok r →
       Line_dict ("simple_" +:+ ("linestring_" +:+ str s)) self' = Some r) ∧
    (∀ s, s ∈ [2229; 4269; 4326; 900913] →
       Line_linestring s self' = Line_linestring s self) ∧
    Line_id self' = Line_id self ∧ Line_name self' = Line_name self ∧
    Line_slug self' = Line_slug self.
Proof.
  intros Hall.
  destruct (Hall 2229) as [ra Ha]; [ by repeat constructor | ].
  destruct (Hall 4269) as [rb Hb]; [ by repeat constructor | ].
  destruct (Hall 4326) as [rc Hc]; [ by repeat constructor | ].
  destruct (Hall 900913) as [rd Hd]; [ by repeat constructor | ].
  clear Hall. destruct self as [i n sl a b c d sa sb sc sd].
  eexists. split.
  { rewrite Line_set_simple_linestrings_eq. cbv zeta.
    rewrite Ha, Hb, Hc, Hd. reflexivity. }
  split; [ | split; [ | done ] ].
  - intros s r Hs Hr. in_srids Hs.
    + rewrite Ha in Hr. by injection Hr as <-.
    + rewrite Hb in Hr. by injection Hr as <-.
    + rewrite Hc in Hr. by injection Hr as <-.
    + rewrite Hd in Hr. by injection Hr as <-.
  - intros s Hs. in_srids Hs; reflexivity.
Qed.

(** A run that raises: the exception is the one a turn raises on the
    object. *)
Lemma Line_set_simple_linestrings_raises tolerance self e :
  (Line_set_simple_linestrings tolerance self).1 = Raise e →
  ∃ s, s ∈ [2229; 4269; 4326; 900913] ∧
       simplified_turn tolerance s self = Raise e.
Proof.
  destruct self as [i n sl a b c d sa sb sc sd].
  rewrite Line_set_simple_linestrings_eq. cbv zeta.
  destruct (simplified_turn tolerance 2229 _) as [ra|ea] eqn:Ha;
    [ | intros [= <-]; exists 2229; split; [ by repeat constructor | done ] ].
  destruct (simplified_turn tolerance 4269 _) as [rb|eb] eqn:Hb;
    [ | intros [= <-]; exists 4269; split; [ by repeat constructor | done ] ].
  destruct (simplified_turn tolerance 4326 _) as [rc|ec] eqn:Hc;
    [ | intros [= <-]; exists 4326; split; [ by repeat constructor | done ] ].
  destruct (simplified_turn tolerance 900913 _) as [rd|ed] eqn:Hd;
    [ done | intros [= <-]; exists 900913; split;
             [ by repeat constructor | done ] ].
Qed.

(** Whatever the outcome, the run leaves the full-resolution fields, the
    key, the name and the slug as they were. *)
Lemma Line_set_simple_linestrings_frame tolerance self :
  let self' := (Line_set_simple_linestrings tolerance self).2 in
  linestring_2229 self' = linestring_2229 self ∧
  linestring_4269 self' = linestring_4269 self ∧
  linestring_4326 self' = linestring_4326 self ∧
  linestring_900913 self' = linestring_900913 self ∧
  Line_id self' = Line_id self ∧ Line_name self' = Line_name self ∧
  Line_slug self' = Line_slug self.
Proof.
  destruct self as [i n sl a b c d sa sb sc sd].
  rewrite Line_set_simple_linestrings_eq. cbv zeta.
  destruct (simplified_turn tolerance 2229 _) as [ra|ea]; [ | done ].
  destruct (simplified_turn tolerance 4269 _) as [rb|eb]; [ | done ].
  destruct (simplified_turn tolerance 4326 _) as [rc|ec]; [ | done ].
  destruct (simplified_turn tolerance 900913 _) as [rd|ed]; done.
Qed.

Lemma simplified_turn_value tolerance s self v :
  Line_linestring s self = Ok v →
  simplified_turn tolerance s self = simplified_value tolerance s v.
Proof. intros Hv. unfold simplified_turn. by rewrite Hv. Qed.

Lemma simplified_value_falsy tolerance s v :
  truthy v = false → simplified_value tolerance s v = Ok None.
Proof.
  intros Hv. unfold simplified_value. destruct v as [g|]; [ | done ].
  by rewrite Hv.
Qed.

(** C1.  When the full-resolution field of a known SRID holds a non-empty
    geometry, the library calls of the turn return (the transform of the
    working copy, the vertex reduction, the transform back) and the
    vertex-reduction primitive returns a single-part line, the turn stores
    that line, transformed back into the field's SRID, wrapped as the only
    part of a multi-part line: the geometry type of the simplified field is
    [MultiLineString], the type of the field.  When the turns of the other
    SRIDs do not raise either, the method returns [True] with that value in
    the field. *)
Theorem simplify_rewraps_collapsed_line (tolerance : Z) (self : Line)
    (s : Z) (source copy simple back : geometry) srids :
  Line_get_srid_list = Ok srids → s ∈ srids →
  Line_linestring s self = Ok (Some source) →
  truthy (Some source) = true →
  (if s =? 900913 then Ok source else transform 900913 source) = Ok copy →
  simplify tolerance true copy = Ok simple →
  geom_type simple = "LineString" →
  transform s simple = Ok back →
  ∃ l g',
    wkt back = LineString l ∧
    g' = {| wkt := MultiLineString [l]; srid := s |} ∧
    geom_type g' = "MultiLineString" ∧
    (∃ self1,
       Line_set_simple_linestrings_body tolerance s self = (Ok (), self1) ∧
       Line_simple_linestring s self1 = Ok (Some g')) ∧
    ((∀ s', s' ∈ srids → s' ≠ s →
        (Line_set_simple_linestrings_body tolerance s' self).1 = Ok ()) →
     ∃ self',
       Line_set_simple_linestrings tolerance self = (Ok true, self') ∧
       Line_simple_linestring s self' = Ok (Some g')).
Proof.
  rewrite Line_get_srid_list_eq.
  intros [= <-] Hs Hsrc Htruthy Hcopy Hsimple Htype Hback.
  assert (Hl : ∃ l, wkt back = LineString l).
  { apply transform_Ok in Hback as (Hty & _). rewrite Htype in Hty.
    unfold geom_type in Hty. destruct (wkt back); try discriminate Hty.
    eauto. }
  destruct Hl as [l Hl].
  exists l, {| wkt := MultiLineString [l]; srid := s |}.
  split; [ done | ]. split; [ done | ]. split; [ done | ].
  assert (Hturn : simplified_turn tolerance s self =
                  Ok (Some {| wkt := MultiLineString [l]; srid := s |})).
  { rewrite (simplified_turn_value _ _ _ _ Hsrc). unfold simplified_value.
    rewrite Htruthy, Hcopy. cbn [and_then]. rewrite Hsimple. cbn [and_then].
    rewrite Hback. cbn [and_then]. by rewrite Hl. }
  split.
  - rewrite Line_set_simple_linestrings_body_turn, Hturn by done.
    destruct (Line_dict_set_simple s
                (Some {| wkt := MultiLineString [l]; srid := s |}) self Hs)
      as (Hok & Hd & _).
    revert Hok Hd. destruct (Line_dict_set _ _ self) as [r1 self1].
    cbn [fst snd]. intros -> Hd. exists self1.
    split; [ done | ]. by rewrite (Line_simple_linestring_dict _ _ _ Hd).
  - intros Hothers.
    destruct (Line_set_simple_linestrings_returns tolerance self)
      as (self' & Hrun & Hfields & _).
    { intros s' Hs'. destruct (decide (s' = s)) as [-> | Hne]; [ eauto | ].
      specialize (Hothers s' Hs' Hne).
      rewrite Line_set_simple_linestrings_body_fst in Hothers by done.
      destruct (simplified_turn tolerance s' self); [ eauto | done ]. }
    exists self'. split; [ done | ].
    by rewrite (Line_simple_linestring_dict _ _ _ (Hfields s _ Hs Hturn)).
Qed.

(** C7.  When the full-resolution field of a known SRID is [None] or an
    empty geometry, the turn of that SRID does not raise: it leaves [None]
    in the simplified field and changes no full-resolution field.  The loop
    goes on: when the turns of the other SRIDs do not raise, the method
    returns [True], the simplified field of that SRID holds [None], the
    simplified field of every known SRID holds what its turn computes from
    the object, and no full-resolution field has changed.  And when the
    method does raise, the exception is the one the turn of another SRID
    raises. *)
Theorem simplify_empty_input (tolerance : Z) (self : Line) (s : Z)
    (v : geom_value) srids :
  Line_get_srid_list = Ok srids → s ∈ srids →
  Line_linestring s self = Ok v → truthy v = false →
  (∃ self1,
     Line_set_simple_linestrings_body tolerance s self = (Ok (), self1) ∧
     Line_simple_linestring s self1 = Ok None ∧
     ∀ s', s' ∈ srids → Line_linestring s' self1 = Line_linestring s' self) ∧
  ((∀ s', s' ∈ srids → s' ≠ s →
      (Line_set_simple_linestrings_body tolerance s' self).1 = Ok ()) →
   ∃ self', Line_set_simple_linestrings tolerance self = (Ok true, self') ∧
     Line_simple_linestring s self' = Ok None ∧
     (∀ s', s' ∈ srids →
        Line_simple_linestring s' self' =
          Line_simple_linestring s'
            (Line_set_simple_linestrings_body tolerance s' self).2) ∧
     (∀ s', s' ∈ srids →
        Line_linestring s' self' = Line_linestring s' self)) ∧
  (∀ e, (Line_set_simple_linestrings tolerance self).1 = Raise e →
     ∃ s', s' ∈ srids ∧ s' ≠ s ∧
           (Line_set_simple_linestrings_body tolerance s' self).1 = Raise e).
Proof.
  rewrite Line_get_srid_list_eq. intros [= <-] Hs Hv Hfalsy.
  assert (Hturn : simplified_turn tolerance s self = Ok None)
    by (by rewrite (simplified_turn_value _ _ _ _ Hv),
             simplified_value_falsy).
  split; [ | split ].
  - rewrite Line_set_simple_linestrings_body_turn, Hturn by done.
    destruct (Line_dict_set_simple s None self Hs) as (Hok & Hd & Hfull).
    revert Hok Hd Hfull. destruct (Line_dict_set _ _ self) as [r1 self1].
    cbn [fst snd]. intros -> Hd Hfull. exists self1.
    split; [ done | ]. split; [ | done ].
    by rewrite (Line_simple_linestring_dict _ _ _ Hd).
  - intros Hothers.
    destruct (Line_set_simple_linestrings_returns tolerance self)
      as (self' & Hrun & Hfields & Hfull & _).
    { intros s' Hs'. destruct (decide (s' = s)) as [-> | Hne]; [ eauto | ].
      specialize (Hothers s' Hs' Hne).
      rewrite Line_set_simple_linestrings_body_fst in Hothers by done.
      destruct (simplified_turn tolerance s' self); [ eauto | done ]. }
    exists self'. split; [ done | ].
    split; [ by rewrite (Line_simple_linestring_dict _ _ _
                           (Hfields s _ Hs Hturn)) | ].
    split; [ | done ].
    intros s' Hs'.
    assert (Hr : ∃ r, simplified_turn tolerance s' self = Ok r).
    { destruct (decide (s' = s)) as [-> | Hne]; [ eauto | ].
      specialize (Hothers s' Hs' Hne).
      rewrite Line_set_simple_linestrings_body_fst in Hothers by done.
      destruct (simplified_turn tolerance s' self); [ eauto | done ]. }
    destruct Hr as [r Hr].
    rewrite (Line_simple_linestring_dict _ _ _ (Hfields s' _ Hs' Hr)).
    rewrite Line_set_simple_linestrings_body_turn, Hr by done.
    destruct (Line_dict_set_simple s' r self Hs') as (_ & Hd & _).
    by rewrite (Line_simple_linestring_dict _ _ _ Hd).
  - intros e He.
    apply Line_set_simple_linestrings_raises in He as (s' & Hs' & He).
    exists s'. split; [ done | ]. split.
    + intros ->. rewrite Hturn in He. discriminate He.
    + by rewrite Line_set_simple_linestrings_body_fst, He.
Qed.
(** ** Duplicate consolidation *)

Lemma for_app {S A} (l1 l2 : list A) (f : A → M S unit) (s : S) :
  for_ (l1 ++ l2) f s =
    match for_ l1 f s with
    | (Ok _, s') => for_ l2 f s'
    | (Raise e, s') => (Raise e, s')
    end.
Proof.
  revert s. induction l1 as [|x l1 IH]; intros s; [ done | ].
  cbn [app for_]. unfold bind.
  destruct (f x s) as [[[]|e] s1]; [ apply IH | done ].
Qed.

Lemma filter_ext_in {A} (P Q : A → Prop)
    `{∀ x, Decision (P x)} `{∀ x, Decision (Q x)} (l : list A) :
  (∀ x, x ∈ l → P x ↔ Q x) → filter P l = filter Q l.
Proof.
  induction l as [|x l IH]; intros HPQ; [ done | ].
  rewrite !filter_cons.
  rewrite IH by (intros y Hy; apply HPQ; by right).
  pose proof (HPQ x (list_elem_of_here _ _)) as Hx.
  destruct (decide (P x)) as [HP|HP], (decide (Q x)) as [HQ|HQ];
    [ done | by apply Hx in HP | by apply Hx in HQ | done ].
Qed.

Lemma filter_all {A} (P : A → Prop) `{∀ x, Decision (P x)} (l : list A) :
  (∀ x, x ∈ l → P x) → filter P l = l.
Proof.
  induction l as [|x l IH]; intros HP; [ done | ].
  rewrite filter_cons_True by (apply HP; by left).
  f_equal. apply IH. intros y Hy. apply HP. by right.
Qed.

Lemma filter_none {A} (P : A → Prop) `{∀ x, Decision (P x)} (l : list A) :
  (∀ x, x ∈ l → ¬ P x) → filter P l = [].
Proof.
  induction l as [|x l IH]; intros HP; [ done | ].
  rewrite filter_cons_False by (apply HP; by left).
  apply IH. intros y Hy. apply HP. by right.
Qed.

Lemma NoDup_fmap_eq {A B} (f : A → B) (l : list A) x y :
  NoDup (f <$> l) → x ∈ l → y ∈ l → f x = f y → x = y.
Proof.
  induction l as [|z l IH]; intros Hnd Hx Hy Hf; [ by apply elem_of_nil in Hx | ].
  rewrite fmap_cons in Hnd. apply NoDup_cons in Hnd as [Hz Hnd].
  apply elem_of_cons in Hx as [->|Hx], Hy as [->|Hy]; try done.
  - destruct Hz. rewrite Hf. by apply list_elem_of_fmap_2.
  - destruct Hz. rewrite <- Hf. by apply list_elem_of_fmap_2.
  - by apply IH.
Qed.

Lemma for_Line_delete (dels : list Line) (db : DB) :
  ∃ db', for_ dels Line_delete db = (Ok (), db') ∧
    db_lines db' =
      filter (λ l, Line_id l ∉ Line_id <$> dels) (db_lines db) ∧
    db_next_line_id db' = db_next_line_id db.
Proof.
  revert db. induction dels as [|d dels IH]; intros db.
  - exists db. split; [ done | ]. split; [ | done ].
    symmetry. apply filter_all. intros x _. apply not_elem_of_nil.
  - cbn [for_]. unfold bind. cbn [Line_delete].
    destruct (IH (Line_delete d db).2) as (db' & Hrun & Hlines & Hnext).
    exists db'. split; [ exact Hrun | ]. split; [ | exact Hnext ].
    rewrite Hlines. cbn [Line_delete snd db_lines].
    rewrite list_filter_filter. apply list_filter_iff. intros x.
    rewrite fmap_cons, not_elem_of_cons. split; [ by intros [? ?] | by intros [? ?] ].
Qed.

Lemma named_elem (n : string) (db : DB) (l : Line) :
  l ∈ named n db ↔ Line_name l = n ∧ l ∈ db_lines db.
Proof. unfold named. by rewrite list_elem_of_filter. Qed.

(** One turn of the loop of [fix_line_dupes] when the union succeeds and
    the field takes it: the rows of that name are replaced by one new
    row. *)
Lemma fix_line_dupes_body_ok (d : string * nat) (db : DB) (u : geom_value) :
  lines_wf db → named d.1 db ≠ [] →
  unionagg (canonical_geoms d.1 db) = Ok u →
  field_accepts "MultiLineString" u = true →
  ∃ db', fix_line_dupes_body d db = (Ok (), db') ∧
    db_lines db' =
      filter (λ l, Line_name l ≠ d.1) (db_lines db) ++
      [created_line (db_next_line_id db) d.1 u] ∧
    db_next_line_id db' = db_next_line_id db + 1.
Proof.
  intros [Hnd Hlt] Hne Hu Hacc.
  unfold fix_line_dupes_body, bind, Line_objects_filter, lift.
  fold (named d.1 db). fold (canonical_geoms d.1 db). rewrite Hu.
  destruct (named d.1 db) as [|first rest] eqn:Hrows; [ done | ].
  assert (Hfirst : Line_name first = d.1).
  { assert (Hin : first ∈ named d.1 db) by (rewrite Hrows; by left).
    by apply named_elem in Hin as [? _]. }
  cbn [index lookup list_lookup]. rewrite Hfirst.
  unfold Line_objects_create. rewrite Hacc.
  cbn [Line_objects_filter_exclude db_lines fst snd Line_id].
  fold (created_line (db_next_line_id db) d.1 u).
  set (new := created_line (db_next_line_id db) d.1 u).
  set (db1 := mkDB (db_lines db ++ [new]) _ _ _ _ _ _).
  set (dels := filter _ (db_lines db ++ [new])).
  destruct (for_Line_delete dels db1) as (db' & Hrun & Hlines & Hnext).
  exists db'. split; [ exact Hrun | ]. split; [ | by rewrite Hnext ].
  rewrite Hlines. subst db1. cbn [db_lines]. rewrite filter_app.
  assert (Hdels : ∀ y, y ∈ dels ↔
            Line_name y = d.1 ∧ y ∈ db_lines db).
  { intros y. subst dels. rewrite list_elem_of_filter, elem_of_app,
      list_elem_of_singleton. split.
    - intros [[Hn Hi] [Hy | ->]]; [ done | by destruct Hi ].
    - intros [Hn Hy]. split; [ | by left ]. split; [ done | ].
      apply Hlt in Hy. lia. }
  f_equal.
  - apply filter_ext_in. intros x Hx. split.
    + intros Hid Hn. apply Hid. apply list_elem_of_fmap_2. by apply Hdels.
    + intros Hn Hid. apply list_elem_of_fmap in Hid as (y & Hxy & Hy).
      apply Hdels in Hy as [Hyn Hy].
      assert (x = y) by by apply (NoDup_fmap_eq Line_id (db_lines db)).
      by subst y.
  - apply filter_all. intros x Hx. apply list_elem_of_singleton in Hx as ->.
    intros Hid. apply list_elem_of_fmap in Hid as (y & Hxy & Hy).
    apply Hdels in Hy as [_ Hy]. apply Hlt in Hy.
    subst new. cbn in Hxy. lia.
Qed.

(** One turn of the loop when the union fails: the exception leaves the
    loop, nothing has been written. *)
Lemma fix_line_dupes_body_raise (d : string * nat) (db : DB) (e : exn) :
  unionagg (canonical_geoms d.1 db) = Raise e →
  fix_line_dupes_body d db = (Raise e, db).
Proof.
  intros Hu. unfold fix_line_dupes_body, bind, Line_objects_filter, lift.
  fold (named d.1 db). fold (canonical_geoms d.1 db). by rewrite Hu.
Qed.

(** One turn of the loop when the union is not a multi-part line: [create]
    refuses it, the exception leaves the loop, nothing has been written. *)
Lemma fix_line_dupes_body_refused (d : string * nat) (db : DB)
    (u : geom_value) :
  named d.1 db ≠ [] →
  unionagg (canonical_geoms d.1 db) = Ok u →
  field_accepts "MultiLineString" u = false →
  fix_line_dupes_body d db = (Raise (GeometryProxy_error "Line"), db).
Proof.
  intros Hne Hu Hacc.
  unfold fix_line_dupes_body, bind, Line_objects_filter, lift.
  fold (named d.1 db). fold (canonical_geoms d.1 db). rewrite Hu.
  destruct (named d.1 db) as [|first rest] eqn:Hrows; [ done | ].
  cbn [index lookup list_lookup]. unfold Line_objects_create.
  by rewrite Hacc.
Qed.

Lemma named_after_body (d : string * nat) (db db' : DB) (u : geom_value) :
  db_lines db' =
    filter (λ l, Line_name l ≠ d.1) (db_lines db) ++
    [created_line (db_next_line_id db) d.1 u] →
  named d.1 db' = [created_line (db_next_line_id db) d.1 u] ∧
  ∀ n, n ≠ d.1 → named n db' = named n db.
Proof.
  intros Hlines. unfold named. rewrite Hlines. split.
  - rewrite filter_app, list_filter_filter.
    rewrite filter_none by (by intros x _ [? ?]).
    by rewrite filter_cons_True, filter_nil.
  - intros n Hn. rewrite filter_app, list_filter_filter.
    rewrite filter_cons_False, filter_nil by (cbn; by intros <-).
    rewrite app_nil_r. apply list_filter_iff. intros x.
    split; [ by intros [? _] | ]. intros Hx. split; [ done | by rewrite Hx ].
Qed.

Lemma lines_wf_after_body (d : string * nat) (db db' : DB) (u : geom_value) :
  lines_wf db →
  db_lines db' =
    filter (λ l, Line_name l ≠ d.1) (db_lines db) ++
    [created_line (db_next_line_id db) d.1 u] →
  db_next_line_id db' = db_next_line_id db + 1 →
  lines_wf db'.
Proof.
  intros [Hnd Hlt] Hlines Hnext. unfold lines_wf.
  rewrite Hlines, Hnext, fmap_app. split.
  - apply NoDup_app. split; [ | split ].
    + apply (sublist_NoDup _ (Line_id <$> db_lines db)); [ exact Hnd | apply fmap_sublist, sublist_filter ].
    + intros i Hi Hnew. apply list_elem_of_singleton in Hnew.
      apply list_elem_of_fmap in Hi as (x & -> & Hx).
      apply list_elem_of_filter in Hx as [_ Hx]. apply Hlt in Hx.
      cbn in Hnew. lia.
    + apply NoDup_singleton.
  - intros l Hl. apply elem_of_app in Hl as [Hl | Hl].
    + apply list_elem_of_filter in Hl as [_ Hl]. apply Hlt in Hl. lia.
    + apply list_elem_of_singleton in Hl as ->. cbn. lia.
Qed.

(** The loop of [fix_line_dupes] over entries with distinct names whose
    unions all succeed and can be stored. *)
Lemma fix_line_dupes_loop (ds : list (string * nat)) (db : DB) :
  lines_wf db → NoDup ds.*1 →
  (∀ d, d ∈ ds → named d.1 db ≠ [] ∧ union_storable d.1 db) →
  ∃ db', for_ ds fix_line_dupes_body db = (Ok (), db') ∧
    lines_wf db' ∧
    db_next_line_id db ≤ db_next_line_id db' ∧
    (∀ n, n ∉ ds.*1 → named n db' = named n db) ∧
    (∀ d, d ∈ ds → consolidated db db' d.1).
Proof.
  revert db. induction ds as [|d ds IH]; intros db Hwf Hnd Hall.
  - exists db. split; [ done | ]. split; [ done | ]. split; [ lia | ].
    split; [ done | ]. intros d Hd. by apply elem_of_nil in Hd.
  - rewrite fmap_cons in Hnd. apply NoDup_cons in Hnd as [Hd Hnd].
    destruct (Hall d (list_elem_of_here _ _)) as [Hne (u & Hu & Hacc)].
    destruct (fix_line_dupes_body_ok d db u Hwf Hne Hu Hacc)
      as (db1 & Hrun1 & Hlines1 & Hnext1).
    destruct (named_after_body d db db1 u Hlines1) as [Hsame Hother].
    pose proof (lines_wf_after_body d db db1 u Hwf Hlines1 Hnext1) as Hwf1.
    assert (Hds : ∀ d', d' ∈ ds → d'.1 ≠ d.1).
    { intros d' Hd' Heq. apply Hd. rewrite <- Heq.
      by apply list_elem_of_fmap_2. }
    destruct (IH db1 Hwf1 Hnd) as (db' & Hrun & Hwf' & Hnext & Hkeep & Hcons).
    { intros d' Hd'. unfold union_storable, canonical_geoms.
      rewrite (Hother _ (Hds d' Hd')). apply Hall. by right. }
    exists db'. split; [ | split; [ done | split; [ lia | split ] ] ].
    + cbn [for_]. unfold bind. by rewrite Hrun1.
    + intros n Hn. rewrite fmap_cons in Hn.
      apply not_elem_of_cons in Hn as [Hn1 Hn2].
      rewrite (Hkeep n Hn2). by apply Hother.
    + intros d' Hd'. apply elem_of_cons in Hd' as [-> | Hd'].
      * exists (created_line (db_next_line_id db) d.1 u), u.
        rewrite (Hkeep _ Hd). cbn. split; [ done | ]. split; [ done | ].
        split; [ done | lia ].
      * destruct (Hcons d' Hd') as (r & u' & Hr & Hu' & Hcr & Hid).
        exists r, u'. split; [ done | ].
        unfold canonical_geoms in Hu' |- *.
        rewrite (Hother _ (Hds d' Hd')) in Hu'.
        split; [ done | ]. split; [ done | lia ].
Qed.

Lemma NoDup_fmap_filter {A B} (f : A → B) (P : A → Prop)
    `{∀ x, Decision (P x)} (l : list A) :
  NoDup (f <$> l) → NoDup (f <$> filter P l).
Proof.
  intros Hnd.
  apply (sublist_NoDup _ (f <$> l)); [ exact Hnd | apply fmap_sublist, sublist_filter ].
Qed.

Lemma length_filter_fmap {A B} (f : A → B) (b : B) `{EqDecision B}
    (l : list A) :
  length (filter (λ m, m = b) (f <$> l)) = length (filter (λ x, f x = b) l).
Proof.
  induction l as [|x l IH]; [ done | ].
  rewrite fmap_cons, !filter_cons.
  destruct (decide (f x = b)); cbn; by rewrite IH.
Qed.

(** The query that lists the duplicated names: each name held by more than
    one row, once. *)
Lemma dupe_query_spec (db : DB) :
  ∃ ds, dupe_query db = (Ok ds, db) ∧ NoDup ds.*1 ∧
    ∀ n, n ∈ ds.*1 ↔ (1 < group_size n db)%nat.
Proof.
  unfold dupe_query.
  set (names := merge_sort name_le (Line_name <$> db_lines db)).
  set (cnt := λ n : string, length (filter (λ m, m = n) names)).
  assert (Hcnt : ∀ n, cnt n = group_size n db).
  { intros n. unfold cnt, names, group_size, named.
    rewrite merge_sort_Permutation. apply length_filter_fmap. }
  eexists. split; [ reflexivity | ]. split.
  - apply NoDup_fmap_filter. rewrite <- list_fmap_compose.
    rewrite (list_fmap_ext _ id (remove_dups names)) by done.
    rewrite list_fmap_id. apply NoDup_remove_dups.
  - intros n. rewrite list_elem_of_fmap. split.
    + intros (d & -> & Hd). apply list_elem_of_filter in Hd as [Hd1 Hd].
      apply list_elem_of_fmap in Hd as (m & -> & _).
      cbn in *. by rewrite <- Hcnt.
    + intros Hn. exists (n, cnt n). split; [ done | ].
      apply list_elem_of_filter. split; [ cbn; by rewrite Hcnt | ].
      apply list_elem_of_fmap. exists n. split; [ done | ].
      apply elem_of_remove_dups. rewrite <- Hcnt in Hn. unfold cnt in Hn.
      destruct (filter (λ m, m = n) names) as [|m ms] eqn:Hf;
        [ cbn in Hn; lia | ].
      assert (Hm : m ∈ filter (λ m, m = n) names) by (rewrite Hf; by left).
      by apply list_elem_of_filter in Hm as [-> ?].
Qed.

Lemma group_size_pos (n : string) (db : DB) :
  (0 < group_size n db)%nat → named n db ≠ [].
Proof. unfold group_size. destruct (named n db); cbn; [ lia | done ]. Qed.


(** A run of [fix_line_dupes] that stops at the entry [d]: the turn of [d]
    raises [e] on every table in which the rows of that name are those of
    [db], and the entries before it are consolidated. *)
Lemma fix_line_dupes_stops (db : DB)
    (pre post : list (string * nat)) (d : string * nat) (e : exn) :
  lines_wf db →
  (dupe_query db).1 = Ok (pre ++ d :: post) →
  (∀ d', d' ∈ pre → union_storable d'.1 db) →
  (∀ db', named d.1 db' = named d.1 db →
     fix_line_dupes_body d db' = (Raise e, db')) →
  ∃ db', fix_line_dupes db = (Raise e, db') ∧
    named d.1 db' = named d.1 db ∧
    (∀ d', d' ∈ pre → consolidated db db' d'.1) ∧
    (∀ d', d' ∈ post → named d'.1 db' = named d'.1 db) ∧
    (∀ n, (group_size n db ≤ 1)%nat → named n db' = named n db).
Proof.
  intros Hwf Hq Hpre Hfail.
  destruct (dupe_query_spec db) as (ds & Hq' & Hnd & Hds).
  rewrite Hq' in Hq. cbn in Hq. injection Hq as ->.
  rewrite fmap_app, fmap_cons in Hnd.
  apply NoDup_app in Hnd as (Hndpre & Hdisj & Hndpost).
  apply NoDup_cons in Hndpost as [Hdpost _].
  destruct (fix_line_dupes_loop pre db Hwf Hndpre)
    as (db' & Hrun & Hwf' & Hnext & Hkeep & Hcons).
  { intros d' Hd'. split; [ | by apply Hpre ].
    apply group_size_pos.
    assert ((1 < group_size d'.1 db)%nat); [ | lia ].
    apply Hds. rewrite fmap_app, elem_of_app. left.
    by apply list_elem_of_fmap_2. }
  assert (Hd : d.1 ∉ pre.*1).
  { intros Hin. apply (Hdisj _ Hin). by left. }
  exists db'. split; [ | split; [ by apply Hkeep | split; [ done | split ] ] ].
  - unfold fix_line_dupes, bind. rewrite Hq'. rewrite for_app, Hrun.
    cbn [for_]. unfold bind.
    rewrite (Hfail db'); [ done | ]. by apply Hkeep.
  - intros d' Hd'. apply Hkeep. intros Hin. apply (Hdisj _ Hin).
    right. by apply list_elem_of_fmap_2.
  - intros n Hn. apply Hkeep. intros Hin.
    assert ((1 < group_size n db)%nat); [ | lia ].
    apply Hds. rewrite fmap_app, elem_of_app. by left.
Qed.

(** C6, amended.  [fix_line_dupes] has no handler around the union: when
    the union aggregate fails for a group, the exception leaves the
    function.  The rows of the failing group are all still there and no row
    has been created for it; the groups that were processed before it, whose
    unions succeeded and could be stored, are consolidated; every other
    name, the duplicated names that come after it included, has the rows it
    had. *)
Theorem consolidate_aborts_on_failed_union (db : DB)
    (pre post : list (string * nat)) (d : string * nat) (e : exn) :
  lines_wf db →
  (dupe_query db).1 = Ok (pre ++ d :: post) →
  (∀ d', d' ∈ pre → union_storable d'.1 db) →
  unionagg (canonical_geoms d.1 db) = Raise e →
  ∃ db', fix_line_dupes db = (Raise e, db') ∧
    named d.1 db' = named d.1 db ∧
    (∀ d', d' ∈ pre → consolidated db db' d'.1) ∧
    (∀ d', d' ∈ post → named d'.1 db' = named d'.1 db) ∧
    (∀ n, (group_size n db ≤ 1)%nat → named n db' = named n db).
Proof.
  intros Hwf Hq Hpre Hfail.
  apply (fix_line_dupes_stops db pre post d e Hwf Hq Hpre).
  intros db' Hsame. apply fix_line_dupes_body_raise.
  unfold canonical_geoms. by rewrite Hsame.
Qed.

(** ** Station rollup *)

Lemma add_named_line_ok (v : option string) (stop : Stop) (db : DB) :
  (truthy_str v = true →
   ∃ l, filter (λ l, Some (Line_name l) = v) (db_lines db) = [l]) →
  ∃ db1, add_named_line v stop db = (Ok (), db1) ∧
    db_lines db1 = db_lines db ∧ db_stops db1 = db_stops db ∧
    db_stations db1 = db_stations db ∧
    db_station_lines db1 = db_station_lines db ∧
    db_next_station_id db1 = db_next_station_id db ∧
    db_stop_lines db ⊆ db_stop_lines db1 ∧
    (∀ p, p ∈ db_stop_lines db1 →
       p ∈ db_stop_lines db ∨
       (p.1 = Stop_id stop ∧ p.2 ∈ Line_id <$> db_lines db)).
Proof.
  intros Hres. unfold add_named_line.
  destruct (truthy_str v).
  - destruct Hres as [l Hl]; [ done | ].
    unfold bind, Line_objects_get, bind. rewrite Hl.
    eexists. split; [ reflexivity | ]. cbn.
    repeat (split; [ done | ]). split; [ apply union_subseteq_r | ].
    intros p Hp. apply elem_of_union in Hp as [Hp | Hp]; [ | by left ].
    apply elem_of_singleton in Hp as ->. right. split; [ done | ].
    cbn. apply list_elem_of_fmap_2.
    assert (Hin : l ∈ filter (λ l, Some (Line_name l) = v) (db_lines db))
      by (rewrite Hl; by left).
    by apply list_elem_of_filter in Hin as [_ ?].
  - exists db. split; [ done | ]. repeat (split; [ done | ]).
    intros p Hp. by left.
Qed.

Lemma filter_key_unique {A B} `{EqDecision B} (f : A → B) (k : B)
    (l : list A) :
  NoDup (f <$> l) →
  filter (λ x, f x = k) l = [] ∨ ∃ x, filter (λ x, f x = k) l = [x].
Proof.
  induction l as [|y l IH]; intros Hnd; [ by left | ].
  rewrite fmap_cons in Hnd. apply NoDup_cons in Hnd as [Hy Hnd].
  rewrite filter_cons. destruct (decide (f y = k)) as [Hk | Hk].
  - right. exists y. f_equal. apply filter_none. intros x Hx Hfx.
    apply Hy. rewrite Hk, <- Hfx. by apply list_elem_of_fmap_2.
  - by apply IH.
Qed.

Lemma Station_objects_get_or_create_ok (n s : string) (db : DB) :
  stations_wf db →
  ∃ st created db1,
    Station_objects_get_or_create (Some n) s db = (Ok (st, created), db1) ∧
    db_lines db1 = db_lines db ∧ db_stops db1 = db_stops db ∧
    db_stop_lines db1 = db_stop_lines db ∧
    db_station_lines db1 = db_station_lines db ∧
    stations_wf db1 ∧ st ∈ db_stations db1 ∧ Station_name st = n ∧
    (∀ x, x ∈ db_stations db → x ∈ db_stations db1) ∧
    (∀ x, x ∈ db_stations db1 → x ∈ db_stations db ∨ x = st).
Proof.
  intros (Hids & Hlt & Hkeys). unfold Station_objects_get_or_create.
  rewrite (list_filter_iff _ (λ st, Station_key st = (n, Some s))).
  2:{ intros st. unfold Station_key. split; [ by intros [-> ->] | ].
      by intros [= -> ->]. }
  destruct (filter_key_unique Station_key (n, Some s) (db_stations db) Hkeys)
    as [Hnone | [st Hone]].
  - rewrite Hnone. do 3 eexists. split; [ reflexivity | ]. cbn.
    repeat (split; [ done | ]).
    split; [ | split; [ apply elem_of_app; right; by left
                      | split; [ done | split ] ] ].
    + unfold stations_wf. cbn. rewrite !fmap_app. cbn.
      split; [ | split ].
      * apply NoDup_app. split; [ done | ]. split; [ | apply NoDup_singleton ].
        intros i Hi Hnew. apply list_elem_of_singleton in Hnew as ->.
        apply list_elem_of_fmap in Hi as (x & Hx & Hin).
        apply Hlt in Hin. lia.
      * intros x Hx. apply elem_of_app in Hx as [Hx | Hx].
        -- apply Hlt in Hx. lia.
        -- apply list_elem_of_singleton in Hx as ->. cbn. lia.
      * apply NoDup_app. split; [ done | ]. split; [ | apply NoDup_singleton ].
        intros k Hk Hnew. apply list_elem_of_singleton in Hnew as ->.
        apply list_elem_of_fmap in Hk as (x & Hx & Hin).
        eapply (filter_nil_not_elem_of _ _ x); [ exact Hnone | done | done ].
    + intros x Hx. apply elem_of_app. by left.
    + intros x Hx. apply elem_of_app in Hx as [Hx | Hx]; [ by left | ].
      apply list_elem_of_singleton in Hx. by right.
  - rewrite Hone.
    assert (Hst : st ∈ filter (λ x, Station_key x = (n, Some s))
                    (db_stations db)) by (rewrite Hone; by left).
    apply list_elem_of_filter in Hst as [Hkey Hst].
    do 3 eexists. split; [ reflexivity | ].
    repeat (split; [ done | ]).
    split; [ by injection Hkey | ]. split; [ done | ]. intros x Hx. by left.
Qed.

Lemma fmap_replace_self {A B} `{EqDecision B} (f : A → B) (x : A)
    (l : list A) :
  NoDup (f <$> l) → x ∈ l →
  (λ r, if bool_decide (f r = f x) then x else r) <$> l = l.
Proof.
  intros Hnd Hx. rewrite <- (list_fmap_id l) at 2.
  apply list_fmap_ext. intros i r Hr. case_bool_decide as Heq; [ | done ].
  symmetry. apply (NoDup_fmap_eq f l); [ done | | done | done ].
  apply list_elem_of_lookup. eauto.
Qed.

Lemma Station_save_ok (st : Station) (db : DB) :
  NoDup (Station_id <$> db_stations db) → st ∈ db_stations db →
  Station_save st db = (Ok (), db).
Proof.
  intros Hnd Hst. unfold Station_save.
  rewrite bool_decide_eq_true_2 by (by apply list_elem_of_fmap_2).
  rewrite fmap_replace_self by done. by destruct db.
Qed.

Lemma for_Station_lines_add (st : Station) (ls : list Line) (db : DB) :
  ∃ db1, for_ ls (λ line, Station_lines_add st line) db = (Ok (), db1) ∧
    db_lines db1 = db_lines db ∧ db_stops db1 = db_stops db ∧
    db_stations db1 = db_stations db ∧
    db_stop_lines db1 = db_stop_lines db ∧
    db_next_station_id db1 = db_next_station_id db ∧
    (∀ p, p ∈ db_station_lines db1 ↔
       p ∈ db_station_lines db ∨
       ∃ l, l ∈ ls ∧ p = (Station_id st, Line_id l)).
Proof.
  revert db. induction ls as [|l ls IH]; intros db.
  - exists db. split; [ done | ]. repeat (split; [ done | ]).
    intros p. split; [ by left | ]. intros [? | (l & Hl & _)]; [ done | ].
    by apply elem_of_nil in Hl.
  - cbn [for_]. unfold bind. cbn [Station_lines_add].
    destruct (IH (Station_lines_add st l db).2)
      as (db1 & Hrun & H1 & H2 & H3 & H4 & H5 & Hsl).
    exists db1. split; [ exact Hrun | ]. cbn in *.
    repeat (split; [ done | ]). intros p. rewrite Hsl.
    rewrite elem_of_union, elem_of_singleton. split.
    + intros [[-> | Hp] | (l' & Hl' & ->)].
      * right. exists l. split; [ by left | done ].
      * by left.
      * right. exists l'. split; [ by right | done ].
    + intros [Hp | (l' & Hl' & ->)]; [ by left; right | ].
      apply elem_of_cons in Hl' as [-> | Hl']; [ by left; left | ].
      right. by exists l'.
Qed.

Lemma stations_body_unfold (stop_lookup : gmap string (gmap string string))
    (stop : Stop) (db : DB) :
  stations_body stop_lookup stop db =
    match getitem stop_lookup (str_opt (Stop_stop_id stop)) with
    | Raise e => (Raise e, db)
    | Ok cw =>
        let name := cw !! "clean_station_name" in
        let stop1 := set_Stop_name name stop in
        let stop2 :=
          set_Stop_slug
            (Some (slugify (force_unicode (Stop_name stop1)) +:+ "-" +:+
                   str_opt (Stop_stop_id stop1))) stop1 in
        match add_named_line (cw !! "Line1") stop2 db with
        | (Raise e, db1) => (Raise e, db1)
        | (Ok _, db1) =>
        match add_named_line (cw !! "Line2") stop2 db1 with
        | (Raise e, db2) => (Raise e, db2)
        | (Ok _, db2) =>
        match Station_objects_get_or_create name
                (slugify (force_unicode name)) db2 with
        | (Raise e, db3) => (Raise e, db3)
        | (Ok sc, db3) =>
            let stop3 := set_Stop_station (Some (Station_id sc.1)) stop2 in
            match Stop_save stop3 db3 with
            | (Raise e, db4) => (Raise e, db4)
            | (Ok _, db4) =>
            match for_ (merge_sort Line_le
                          (filter (λ l, (Stop_id stop3, Line_id l)
                                          ∈ db_stop_lines db4)
                                  (db_lines db4)))
                       (λ line, Station_lines_add sc.1 line) db4 with
            | (Raise e, db5) => (Raise e, db5)
            | (Ok _, db5) => Station_save sc.1 db5
            end end end end end
    end.
Proof.
  unfold stations_body, bind, lift, add_named_line, bind.
  destruct (getitem _ _) as [cw|e]; [ | done ]. cbv zeta.
  repeat match goal with
         | |- context [match ?x with (r, s') => _ end] =>
             lazymatch x with
             | (_, _) => fail
             | _ => destruct x as [[?|?] ?]; try done
             end
         end.
Qed.

Lemma Stop_lines_all_elem (stop : Stop) (db : DB) (l : Line) :
  l ∈ merge_sort Line_le
        (filter (λ l, (Stop_id stop, Line_id l) ∈ db_stop_lines db)
                (db_lines db)) ↔
  (Stop_id stop, Line_id l) ∈ db_stop_lines db ∧ l ∈ db_lines db.
Proof. by rewrite merge_sort_Permutation, list_elem_of_filter. Qed.

(** One turn of the loop of [stations] for a stop with a usable crosswalk
    entry [cw] of clean name [nm]. *)
Lemma stations_body_ok (stop_lookup : gmap string (gmap string string))
    (stop : Stop) (db : DB) (cw : gmap string string) (nm : string) :
  stations_wf db →
  Stop_id stop ∈ Stop_id <$> db_stops db →
  stop_lookup !! str_opt (Stop_stop_id stop) = Some cw →
  cw !! "clean_station_name" = Some nm →
  (∀ k, k ∈ ["Line1"; "Line2"] → truthy_str (cw !! k) = true →
        ∃ l, filter (λ l, Some (Line_name l) = cw !! k) (db_lines db) = [l]) →
  ∃ db' stop' k,
    stations_body stop_lookup stop db = (Ok (), db') ∧
    db_lines db' = db_lines db ∧
    db_stops db' =
      (λ r, if bool_decide (Stop_id r = Stop_id stop) then stop' else r)
        <$> db_stops db ∧
    Stop_id stop' = Stop_id stop ∧ Stop_station stop' = Some k ∧
    Stop_name stop' = Some nm ∧
    stations_wf db' ∧ k ∈ Station_id <$> db_stations db' ∧
    (∀ x, x ∈ db_stations db → x ∈ db_stations db') ∧
    (∀ x, x ∈ db_stations db' → x ∈ db_stations db ∨ Station_name x = nm) ∧
    db_stop_lines db ⊆ db_stop_lines db' ∧
    (∀ p, p ∈ db_stop_lines db' →
       p ∈ db_stop_lines db ∨
       (p.1 = Stop_id stop ∧ p.2 ∈ Line_id <$> db_lines db)) ∧
    (∀ p, p ∈ db_station_lines db' ↔
       p ∈ db_station_lines db ∨
       (p.1 = k ∧ (Stop_id stop, p.2) ∈ db_stop_lines db' ∧
        p.2 ∈ Line_id <$> db_lines db)).
Proof.
  intros Hwf Hid Hcw Hnm Hres.
  rewrite stations_body_unfold. unfold getitem. rewrite Hcw. cbv zeta.
  rewrite Hnm.
  set (stop2 := set_Stop_slug _ (set_Stop_name (Some nm) stop)).
  assert (Hid2 : Stop_id stop2 = Stop_id stop) by by destruct stop.
  assert (Hnm2 : Stop_name stop2 = Some nm) by by destruct stop.
  destruct (add_named_line_ok (cw !! "Line1") stop2 db)
    as (db1 & -> & Hl1 & Hs1 & Hst1 & Hsl1 & Hn1 & Hsub1 & Hadd1).
  { apply Hres. by left. }
  destruct (add_named_line_ok (cw !! "Line2") stop2 db1)
    as (db2 & -> & Hl2 & Hs2 & Hst2 & Hsl2 & Hn2 & Hsub2 & Hadd2).
  { rewrite Hl1. apply Hres. right. by left. }
  assert (Hwf2 : stations_wf db2).
  { unfold stations_wf. by rewrite Hst2, Hst1, Hn2, Hn1. }
  destruct (Station_objects_get_or_create_ok nm (slugify (force_unicode (Some nm)))
              db2 Hwf2)
    as (st & created & db3 & -> & Hl3 & Hs3 & Hsl3 & Hstl3 & Hwf3 & Hin3
        & Hname3 & Hmono3 & Hnew3).
  cbn [fst].
  set (stop3 := set_Stop_station (Some (Station_id st)) stop2).
  assert (Hid3 : Stop_id stop3 = Stop_id stop) by by destruct stop.
  assert (Hnm3 : Stop_name stop3 = Some nm) by by destruct stop.
  assert (Hst3 : Stop_station stop3 = Some (Station_id st)) by by destruct stop.
  unfold Stop_save. rewrite Hnm3.
  rewrite bool_decide_eq_true_2
    by (by rewrite Hid3, Hs3, Hs2, Hs1).
  set (db4 := mkDB _ _ _ _ _ _ _).
  destruct (for_Station_lines_add st
              (merge_sort Line_le
                 (filter (λ l, (Stop_id stop3, Line_id l) ∈ db_stop_lines db4)
                         (db_lines db4))) db4)
    as (db5 & -> & Hl5 & Hs5 & Hst5 & Hsl5 & Hn5 & Hstl5).
  assert (Hwf5 : stations_wf db5).
  { unfold stations_wf. rewrite Hst5, Hn5. exact Hwf3. }
  rewrite Station_save_ok; [ | by destruct Hwf5 | by rewrite Hst5 ].
  exists db5, stop3, (Station_id st).
  assert (Hsl : db_stop_lines db5 = db_stop_lines db2)
    by (by rewrite Hsl5).
  split; [ done | ].
  split; [ by rewrite Hl5; cbn; rewrite Hl3, Hl2, Hl1 | ].
  split; [ by rewrite Hs5; cbn; rewrite Hid3, Hs3, Hs2, Hs1 | ].
  split; [ done | ]. split; [ done | ]. split; [ done | ].
  split; [ done | ].
  split; [ rewrite Hst5; by apply list_elem_of_fmap_2 | ].
  split; [ intros x Hx; rewrite Hst5; apply Hmono3;
           by rewrite Hst2, Hst1 | ].
  split.
  { intros x Hx. rewrite Hst5 in Hx.
    destruct (Hnew3 x Hx) as [Hold | ->]; [ | by right ].
    left. by rewrite Hst2, Hst1 in Hold. }
  split; [ rewrite Hsl; by trans (db_stop_lines db1) | ].
  split.
  { intros p Hp. rewrite Hsl in Hp.
    destruct (Hadd2 p Hp) as [Hp1 | Hp2].
    - destruct (Hadd1 p Hp1) as [? | ?]; [ by left | right ].
      by rewrite <- Hid2.
    - right. by rewrite <- Hid2, <- Hl1. }
  intros p. rewrite Hstl5. cbn [db_station_lines db4].
  rewrite Hstl3, Hsl2, Hsl1.
  assert (Hlines : db_lines db4 = db_lines db)
    by (cbn; by rewrite Hl3, Hl2, Hl1).
  assert (Hsl4 : db_stop_lines db4 = db_stop_lines db5)
    by (by rewrite Hsl5).
  split.
  - intros [Hp | (l & Hl & ->)]; [ by left | right ].
    apply Stop_lines_all_elem in Hl as [Hpair Hl].
    rewrite Hid3, Hsl4 in Hpair. rewrite Hlines in Hl. cbn.
    split; [ done | ]. split; [ done | ]. by apply list_elem_of_fmap_2.
  - intros [Hp | (Hk & Hpair & Hl)]; [ by left | right ].
    apply list_elem_of_fmap in Hl as (l & Hpl & Hl).
    exists l. split.
    + apply Stop_lines_all_elem. rewrite Hid3, Hsl4, Hlines, <- Hpl.
      done.
    + destruct p as [p1 p2]. cbn in *. by subst.
Qed.

Lemma rollup_inv_step (stop_lookup : gmap string (gmap string string))
    (db0 db : DB) (done : list Stop) (s : Stop) :
  rollup_inv stop_lookup db0 done db →
  Stop_id s ∉ Stop_id <$> done →
  Stop_id s ∈ Stop_id <$> db_stops db0 →
  resolvable stop_lookup (db_lines db0) s →
  ∃ db', stations_body stop_lookup s db = (Ok (), db') ∧
         rollup_inv stop_lookup db0 (done ++ [s]) db'.
Proof.
  intros (J1 & J2 & J3 & J4 & J5 & J6 & J7 & J8 & J9) Hnew Hin
         (cw & nm & Hcw & Hnm & Hres).
  destruct (stations_body_ok stop_lookup s db cw nm J3)
    as (db' & stop' & k & Hrun & B1 & B2 & B3 & B4 & _ & B5 & B6 & B7 & B8
        & B9 & B10 & B11); [ by rewrite J2 | done | done | by rewrite J1 | ].
  exists db'. split; [ done | ].
  set (repl := λ r : Stop,
         if bool_decide (Stop_id r = Stop_id s) then stop' else r) in B2.
  assert (Hrepl_id : ∀ r, Stop_id (repl r) = Stop_id r).
  { intros r. unfold repl. case_bool_decide as Heq; [ by rewrite B3 | done ]. }
  assert (Hdone : ∀ i, i ∈ Stop_id <$> (done ++ [s]) ↔
                       i ∈ Stop_id <$> done ∨ i = Stop_id s).
  { intros i. rewrite fmap_app, elem_of_app. cbn.
    by rewrite list_elem_of_singleton. }
  assert (Hrows : ∀ r, r ∈ db_stops db' ↔
            (r = stop' ∧ Stop_id s ∈ Stop_id <$> db_stops db) ∨
            (r ∈ db_stops db ∧ Stop_id r ≠ Stop_id s)).
  { intros r. rewrite B2, list_elem_of_fmap. split.
    - intros (r0 & -> & Hr0). unfold repl. case_bool_decide as Heq.
      + left. split; [ done | ]. rewrite <- Heq.
        by apply list_elem_of_fmap_2.
      + right. done.
    - intros [[-> Hs] | [Hr Hne]].
      + apply list_elem_of_fmap in Hs as (r0 & Hid & Hr0).
        exists r0. split; [ | done ]. unfold repl.
        by rewrite bool_decide_eq_true_2.
      + exists r. split; [ | done ]. unfold repl.
        by rewrite bool_decide_eq_false_2. }
  assert (Hs_in : Stop_id s ∈ Stop_id <$> db_stops db) by by rewrite J2.
  split; [ by rewrite B1 | ].
  split.
  { rewrite B2, <- J2, <- list_fmap_compose.
    apply list_fmap_ext. intros i r _. apply Hrepl_id. }
  split; [ done | ].
  split.
  { intros p Hp. rewrite B1.
    destruct (B10 p Hp) as [Hold | [_ Hl]]; [ by apply J4 | done ]. }
  split.
  { intros r Hr Hid. apply Hrows in Hr as [[-> _] | [Hr Hne]].
    - by exists k.
    - apply Hdone in Hid as [Hid | Hid]; [ | done ].
      destruct (J5 r Hr Hid) as (k0 & Hk0 & Hin0).
      exists k0. split; [ done | ].
      apply list_elem_of_fmap in Hin0 as (x & -> & Hx).
      by apply list_elem_of_fmap_2, B7. }
  split.
  { intros p. rewrite B11, J6. split.
    - intros [(r & Hr & Hid & Hst & Hpair) | (Hk & Hpair & Hl)].
      + exists r. split; [ | split; [ | split ] ].
        * apply Hrows. right. split; [ done | ].
          intros Heq. apply Hnew. by rewrite <- Heq.
        * apply Hdone. by left.
        * done.
        * by apply B9.
      + exists stop'. split; [ | split; [ | split ] ].
        * apply Hrows. by left.
        * apply Hdone. right. done.
        * by rewrite B4, Hk.
        * by rewrite B3.
    - intros (r & Hr & Hid & Hst & Hpair).
      apply Hrows in Hr as [[-> _] | [Hr Hne]].
      + right. rewrite B4 in Hst. injection Hst as Hk.
        rewrite B3 in Hpair. split; [ done | ]. split; [ done | ].
        destruct (B10 _ Hpair) as [Hold | [_ Hl]]; [ | done ].
        by apply J4 in Hold.
      + left. exists r. apply Hdone in Hid as [Hid | Hid]; [ | done ].
        split; [ done | ]. split; [ done | ]. split; [ done | ].
        destruct (B10 _ Hpair) as [Hold | [Heq _]]; [ done | ].
        by destruct Hne. }
  split.
  { intros r Hr Hid. apply Hrows. right.
    assert (Hn : (Stop_id r ∉ Stop_id <$> done) ∧ Stop_id r ≠ Stop_id s).
    { split; intros ?; apply Hid, Hdone; [ by left | by right ]. }
    destruct Hn as [Hn1 Hn2]. split; [ by apply J7 | done ]. }
  split.
  { intros p Hp. rewrite Hdone.
    destruct (B10 p Hp) as [Hold | [Heq _]]; [ | by right; right ].
    destruct (J8 p Hold) as [? | ?]; [ by left | by right; left ]. }
  intros x Hx. destruct (B8 x Hx) as [Hold | Hname].
  - destruct (J9 x Hold) as [? | (s0 & cw0 & Hs0 & Hcw0 & Hn0)]; [ by left | ].
    right. exists s0, cw0. split; [ | done ].
    apply elem_of_app. by left.
  - right. exists s, cw. split; [ | by rewrite Hname ].
    apply elem_of_app. right. by left.
Qed.

(** The loop of [stations] over stops that all have a usable entry. *)
Lemma stations_loop (stop_lookup : gmap string (gmap string string))
    (db0 : DB) (todo done : list Stop) (db : DB) :
  rollup_inv stop_lookup db0 done db →
  NoDup (Stop_id <$> (done ++ todo)) →
  (∀ s, s ∈ todo →
     Stop_id s ∈ Stop_id <$> db_stops db0 ∧
     resolvable stop_lookup (db_lines db0) s) →
  ∃ db', for_ todo (stations_body stop_lookup) db = (Ok (), db') ∧
         rollup_inv stop_lookup db0 (done ++ todo) db'.
Proof.
  revert done db. induction todo as [|s todo IH]; intros done db Hinv Hnd Hall.
  - exists db. by rewrite app_nil_r.
  - assert (Hs : Stop_id s ∉ Stop_id <$> done).
    { rewrite fmap_app in Hnd. apply NoDup_app in Hnd as (_ & Hdisj & _).
      intros Hin. apply (Hdisj _ Hin). rewrite fmap_cons. by left. }
    destruct (Hall s (list_elem_of_here _ _)) as [Hin Hres].
    destruct (rollup_inv_step stop_lookup db0 db done s Hinv Hs Hin Hres)
      as (db1 & Hrun1 & Hinv1).
    destruct (IH (done ++ [s]) db1 Hinv1) as (db' & Hrun & Hinv').
    { by rewrite <- app_assoc. }
    { intros s' Hs'. apply Hall. by right. }
    exists db'. split.
    + cbn [for_]. unfold bind. by rewrite Hrun1.
    + by rewrite <- app_assoc in Hinv'.
Qed.

Lemma rollup_inv_init (stop_lookup : gmap string (gmap string string))
    (db : DB) :
  stations_wf db → db_station_lines db = ∅ →
  (∀ p, p ∈ db_stop_lines db → p.2 ∈ Line_id <$> db_lines db) →
  rollup_inv stop_lookup db [] db.
Proof.
  intros Hwf Hempty Hrefs. unfold rollup_inv.
  split; [ done | ]. split; [ done | ]. split; [ done | ].
  split; [ done | ].
  split; [ intros r _ Hr; by apply elem_of_nil in Hr | ].
  split.
  { intros p. rewrite Hempty. split; [ by intros ?%not_elem_of_empty | ].
    intros (r & _ & Hr & _). by apply elem_of_nil in Hr. }
  split; [ done | ]. split; [ intros p ?; by left | ].
  intros x ?. by left.
Qed.

Lemma Stop_objects_all_spec (db : DB) :
  ∃ stops, Stop_objects_all db = (Ok stops, db) ∧ stops ≡ₚ db_stops db.
Proof. eexists. split; [ done | ]. apply merge_sort_Permutation. Qed.

(** C4.  Start from a database with no station line sets yet, unique stop
    keys and line sets that refer to existing lines.  When every stop has a
    usable crosswalk entry, [stations] returns, and afterwards every stop
    refers to a station of the table and the line set of every station is the
    union of the line sets of the stops that refer to it. *)
Theorem rollup_complete (crosswalk : list (gmap string string))
    (stop_lookup : gmap string (gmap string string)) (db : DB) :
  make_stop_lookup crosswalk = Ok stop_lookup →
  stations_wf db → db_station_lines db = ∅ →
  NoDup (Stop_id <$> db_stops db) →
  (∀ p, p ∈ db_stop_lines db → p.2 ∈ Line_id <$> db_lines db) →
  (∀ stop, stop ∈ db_stops db → resolvable stop_lookup (db_lines db) stop) →
  ∃ db', stations crosswalk db = (Ok (), db') ∧
    (∀ stop, stop ∈ db_stops db' →
       ∃ k, Stop_station stop = Some k ∧
            k ∈ Station_id <$> db_stations db') ∧
    (∀ st l, st ∈ db_stations db' →
       (Station_id st, l) ∈ db_station_lines db' ↔
       ∃ stop, stop ∈ db_stops db' ∧
               Stop_station stop = Some (Station_id st) ∧
               (Stop_id stop, l) ∈ db_stop_lines db').
Proof.
  intros Hlookup Hwf Hempty Hnd Hrefs Hres.
  destruct (Stop_objects_all_spec db) as (stops & Hall & Hperm).
  destruct (stations_loop stop_lookup db stops [] db)
    as (db' & Hrun & J1 & J2 & J3 & J4 & J5 & J6 & _).
  { by apply rollup_inv_init. }
  { cbn. by rewrite Hperm. }
  { intros s Hs. rewrite Hperm in Hs. split; [ | by apply Hres ].
    by apply list_elem_of_fmap_2. }
  cbn [app] in *.
  assert (Hdone : ∀ r, r ∈ db_stops db' → Stop_id r ∈ Stop_id <$> stops).
  { intros r Hr. rewrite Hperm, <- J2. by apply list_elem_of_fmap_2. }
  exists db'. split; [ | split ].
  - unfold stations, bind, lift. by rewrite Hlookup, Hall.
  - intros stop Hstop. apply J5; [ done | by apply Hdone ].
  - intros st l _. rewrite (J6 (Station_id st, l)). cbn. split.
    + intros (r & Hr & _ & Hst & Hpair). by exists r.
    + intros (r & Hr & Hst & Hpair). exists r.
      split; [ done | ]. split; [ by apply Hdone | done ].
Qed.

(** C5.  When the loop of [stations] reaches a stop whose [stop_id] has no
    entry in the lookup (the stops before it having been rolled up),
    [stations] raises [KeyError] for that key.  The database is the one the
    earlier stops left: the row of the stop (name, slug, station reference)
    and its line set are what they were before the run, and every station
    that was not there before the run carries the clean name of one of the
    earlier stops, so none was made for this stop. *)
Theorem rollup_missing_crosswalk_entry (crosswalk : list (gmap string string))
    (stop_lookup : gmap string (gmap string string)) (db : DB)
    (pre post : list Stop) (stop : Stop) :
  make_stop_lookup crosswalk = Ok stop_lookup →
  stations_wf db → db_station_lines db = ∅ →
  NoDup (Stop_id <$> db_stops db) →
  (∀ p, p ∈ db_stop_lines db → p.2 ∈ Line_id <$> db_lines db) →
  (Stop_objects_all db).1 = Ok (pre ++ stop :: post) →
  (∀ s, s ∈ pre → resolvable stop_lookup (db_lines db) s) →
  stop_lookup !! str_opt (Stop_stop_id stop) = None →
  ∃ db1,
    stations crosswalk db =
      (Raise (KeyError (str_opt (Stop_stop_id stop))), db1) ∧
    for_ pre (stations_body stop_lookup) db = (Ok (), db1) ∧
    stations_body stop_lookup stop db1 =
      (Raise (KeyError (str_opt (Stop_stop_id stop))), db1) ∧
    stop ∈ db_stops db1 ∧
    (∀ l, (Stop_id stop, l) ∈ db_stop_lines db1 →
          (Stop_id stop, l) ∈ db_stop_lines db) ∧
    (∀ x, x ∈ db_stations db1 →
       x ∈ db_stations db ∨
       ∃ s cw, s ∈ pre ∧
               stop_lookup !! str_opt (Stop_stop_id s) = Some cw ∧
               cw !! "clean_station_name" = Some (Station_name x)).
Proof.
  intros Hlookup Hwf Hempty Hnd Hrefs Hall Hres Hmiss.
  destruct (Stop_objects_all_spec db) as (stops & Hall' & Hperm).
  rewrite Hall' in Hall. cbn in Hall. injection Hall as ->.
  assert (Hnd' : NoDup (Stop_id <$> (pre ++ stop :: post)))
    by (by rewrite Hperm).
  assert (Hin : ∀ s, s ∈ pre ++ stop :: post → s ∈ db_stops db)
    by (intros s Hs; by rewrite <- Hperm).
  destruct (stations_loop stop_lookup db pre [] db)
    as (db1 & Hrun & J1 & J2 & J3 & J4 & J5 & J6 & J7 & J8 & J9).
  { by apply rollup_inv_init. }
  { cbn. rewrite fmap_app in Hnd'. by apply NoDup_app in Hnd' as (? & _). }
  { intros s Hs. split; [ | by apply Hres ].
    apply list_elem_of_fmap_2, Hin, elem_of_app. by left. }
  cbn [app] in *.
  assert (Hstop : Stop_id stop ∉ Stop_id <$> pre).
  { rewrite fmap_app in Hnd'. apply NoDup_app in Hnd' as (_ & Hdisj & _).
    intros Hpre. apply (Hdisj _ Hpre). rewrite fmap_cons. by left. }
  assert (Hbody : stations_body stop_lookup stop db1 =
                    (Raise (KeyError (str_opt (Stop_stop_id stop))), db1)).
  { rewrite stations_body_unfold. unfold getitem. by rewrite Hmiss. }
  exists db1. split; [ | split; [ done | split; [ done | split; [ | split ] ] ] ].
  - unfold stations, bind, lift. rewrite Hlookup, Hall'.
    rewrite for_app, Hrun. cbn [for_]. unfold bind. by rewrite Hbody.
  - apply J7; [ | done ]. apply Hin, elem_of_app. right. by left.
  - intros l Hl. destruct (J8 _ Hl) as [? | Hdone]; [ done | ].
    by destruct Hstop.
  - done.
Qed.

(** Whatever the other stops are, a run of [stations] over a table that
    holds a stop without an entry does not return normally. *)
Lemma rollup_fails_without_entry (crosswalk : list (gmap string string))
    (stop_lookup : gmap string (gmap string string)) (db : DB) (stop : Stop) :
  make_stop_lookup crosswalk = Ok stop_lookup →
  stop ∈ db_stops db →
  stop_lookup !! str_opt (Stop_stop_id stop) = None →
  ∃ e db', stations crosswalk db = (Raise e, db').
Proof.
  intros Hlookup Hstop Hmiss.
  destruct (Stop_objects_all_spec db) as (stops & Hall & Hperm).
  unfold stations, bind, lift. rewrite Hlookup, Hall.
  rewrite <- Hperm in Hstop. clear Hall Hperm. revert db.
  induction stops as [|s stops IH]; intros db;
    [ by apply elem_of_nil in Hstop | ].
  cbn [for_]. unfold bind.
  destruct (stations_body stop_lookup s db) as [[[]|e] db1] eqn:Hbody;
    [ | by eauto ].
  apply elem_of_cons in Hstop as [-> | Hstop]; [ | by apply IH ].
  rewrite stations_body_unfold in Hbody. unfold getitem in Hbody.
  by rewrite Hmiss in Hbody.
Qed.

(** ** Field names *)

Lemma int_digits_app (a b : string) (acc : Z) :
  int_digits (a +:+ b) acc =
    match int_digits a acc with
    | Some v => int_digits b v
    | None => None
    end.
Proof.
  revert acc. induction a as [|c a IH]; intros acc; [ done | ].
  change (String c a +:+ b) with (String c (a +:+ b)). cbn [int_digits].
  destruct (digit_of c); [ apply IH | done ].
Qed.

Lemma string_app_assoc (a b c : string) : (a +:+ b) +:+ c = a +:+ (b +:+ c).
Proof.
  induction a as [|x a IH]; [ done | ].
  change (String x ((a +:+ b) +:+ c) = String x (a +:+ (b +:+ c))).
  by rewrite IH.
Qed.

(** [str] writes the digits of a number in front of what it has written. *)
Lemma pretty_N_go_app (x : N) (s : string) :
  pretty_N_go x s = pretty_N_go x EmptyString +:+ s.
Proof.
  revert s. induction (N.lt_wf_0 x) as [x _ IH]; intros s.
  destruct (decide (x = 0%N)) as [-> | Hx]; [ by rewrite !pretty_N_go_0 | ].
  rewrite (pretty_N_go_step x s), (pretty_N_go_step x EmptyString) by lia.
  assert (Hlt : (x `div` 10 < x)%N) by (apply N.div_lt; lia).
  rewrite (IH _ Hlt (String _ s)), (IH _ Hlt (String _ EmptyString)).
  by rewrite string_app_assoc.
Qed.

Lemma digit_of_pretty_N_char (k : N) :
  (k < 10)%N → digit_of (pretty_N_char k) = Some (Z.of_N k).
Proof.
  intros Hk.
  assert (k = 0 ∨ k = 1 ∨ k = 2 ∨ k = 3 ∨ k = 4 ∨ k = 5 ∨ k = 6 ∨ k = 7
          ∨ k = 8 ∨ k = 9)%N as Hcases by lia.
  repeat (destruct Hcases as [-> | Hcases]; [ reflexivity | ]).
  by subst k.
Qed.

Lemma int_digits_pretty_N_go (x : N) :
  int_digits (pretty_N_go x EmptyString) 0 = Some (Z.of_N x).
Proof.
  induction (N.lt_wf_0 x) as [x _ IH].
  destruct (decide (x = 0%N)) as [-> | Hx]; [ done | ].
  rewrite pretty_N_go_step, pretty_N_go_app, int_digits_app by lia.
  rewrite IH by (apply N.div_lt; lia). cbn [int_digits].
  rewrite digit_of_pretty_N_char by (apply N.mod_lt; lia).
  f_equal. rewrite (N.div_mod x 10) at 3 by lia. lia.
Qed.

Lemma pretty_N_go_nonempty (x : N) :
  (0 < x)%N → pretty_N_go x EmptyString ≠ EmptyString.
Proof.
  intros Hx. rewrite pretty_N_go_step, pretty_N_go_app by done.
  by destruct (pretty_N_go _ _).
Qed.

Lemma digit_of_not_sign (c : ascii) (d : Z) :
  digit_of c = Some d → c ≠ "-"%char ∧ c ≠ "+"%char ∧ c ≠ "_"%char.
Proof. intros Hd. repeat split; intros ->; discriminate Hd. Qed.

(** A string of digits has no underscore to split at. *)
Lemma split_digits (s : string) (acc v : Z) :
  int_digits s acc = Some v → split "_" s = [s].
Proof.
  revert acc. induction s as [|c s IH]; intros acc; [ done | ].
  cbn [int_digits split]. destruct (digit_of c) as [d|] eqn:Hd; [ | done ].
  intros H. rewrite (IH _ H).
  destruct (Ascii.eqb_spec c "_") as [-> | Hne]; [ discriminate Hd | done ].
Qed.

Lemma int_of_digits (s : string) (v : Z) :
  s ≠ EmptyString → int_digits s 0 = Some v → int s = Ok v.
Proof.
  destruct s as [|c t]; [ done | ]. intros _ H.
  assert (Hc : ∃ d, digit_of c = Some d).
  { cbn in H. destruct (digit_of c); [ eauto | done ]. }
  destruct Hc as [d Hd]. apply digit_of_not_sign in Hd as (Hm & Hp & _).
  unfold int. rewrite H.
  destruct c as [[] [] [] [] [] [] [] []]; try reflexivity; by exfalso.
Qed.

(** [int(str(n))] is [n], and [str(n)] has no underscore. *)
Lemma int_str (n : Z) : int (str n) = Ok n ∧ split "_" (str n) = [str n].
Proof.
  unfold str. destruct n as [|p|p]; [ done | | ].
  - change (pretty (Z.pos p)) with (pretty_N_go (N.pos p) EmptyString).
    pose proof (int_digits_pretty_N_go (N.pos p)) as H. split.
    + apply int_of_digits; [ apply pretty_N_go_nonempty; lia | done ].
    + by apply split_digits in H.
  - change (pretty (Z.neg p))
      with (String "-" (pretty_N_go (N.pos p) EmptyString)).
    pose proof (int_digits_pretty_N_go (N.pos p)) as H. split.
    + unfold int. rewrite H.
      destruct (pretty_N_go (N.pos p) EmptyString) eqn:Hs; [ | done ].
      by apply pretty_N_go_nonempty in Hs; [ | lia ].
    + cbn [split]. apply split_digits in H. by rewrite H.
Qed.

(** [get_srid_list] is [srid_of_field] over the fields that carry the
    prefix. *)
Lemma get_srid_list_unfold :
  Line_get_srid_list =
    map_result srid_of_field
      (List.filter (λ i, startswith i "linestring_") Line_meta_fields) ∧
  Stop_get_srid_list =
    map_result srid_of_field
      (List.filter (λ i, startswith i "point_") Stop_meta_fields).
Proof. split; reflexivity. Qed.

(** X1.  The name the sync methods build for the field of an SRID,
    [linestring_<n>] or [point_<n>], is read back as that SRID by the
    expression of [get_srid_list], for every integer [n].  The name of a
    simplified field is not: its second component is not a number, which is
    why [get_srid_list] keeps only the names that start with the prefix. *)
Theorem srid_field_name_round_trip (n : Z) :
  srid_of_field ("linestring_" +:+ str n) = Ok n ∧
  srid_of_field ("point_" +:+ str n) = Ok n ∧
  srid_of_field ("simple_" +:+ ("linestring_" +:+ str n)) =
    Raise (ValueError "invalid literal for int()").
Proof.
  destruct (int_str n) as [Hint Hsplit].
  unfold srid_of_field.
  unfold String.append. cbn [split Ascii.eqb Bool.eqb].
  rewrite Hsplit. cbn. by rewrite Hint.
Qed.

(** ** Simplification, continued *)

(** A turn reads the full-resolution fields only. *)
Lemma simplified_turn_full tolerance s (self other : Line) :
  s ∈ [2229; 4269; 4326; 900913] →
  linestring_2229 other = linestring_2229 self →
  linestring_4269 other = linestring_4269 self →
  linestring_4326 other = linestring_4326 self →
  linestring_900913 other = linestring_900913 self →
  simplified_turn tolerance s other = simplified_turn tolerance s self.
Proof.
  intros Hs. destruct self, other. cbn. intros -> -> -> ->.
  in_srids Hs; reflexivity.
Qed.

(** X2.  A simplification result of any other type than [LineString] is not
    wrapped: when the library calls of the turn return, the turn stores the
    text of the result, transformed back into the SRID of the field, and
    does not raise.  The field holds a geometry of the type the vertex
    reduction returned: read back, it is that geometry when the type is
    [MultiLineString], and the read raises [TypeError] for any other
    type. *)
Theorem simplify_stores_other_types_unwrapped (tolerance : Z) (self : Line)
    (s : Z) (source copy simple back : geometry) srids :
  Line_get_srid_list = Ok srids → s ∈ srids →
  Line_linestring s self = Ok (Some source) →
  truthy (Some source) = true →
  (if s =? 900913 then Ok source else transform 900913 source) = Ok copy →
  simplify tolerance true copy = Ok simple →
  geom_type simple ≠ "LineString" →
  transform s simple = Ok back →
  ∃ self1,
    Line_set_simple_linestrings_body tolerance s self = (Ok (), self1) ∧
    geom_type back = geom_type simple ∧
    Line_simple_linestring s self1 =
      if String.eqb (geom_type simple) "MultiLineString"
      then Ok (Some {| wkt := wkt back; srid := s |})
      else Raise (GeometryProxy_error "Line").
Proof.
  rewrite Line_get_srid_list_eq.
  intros [= <-] Hs Hsrc Htruthy Hcopy Hsimple Htype Hback.
  pose proof (transform_Ok _ _ _ Hback) as (Hty & _ & _).
  assert (Hturn : simplified_turn tolerance s self =
                  Ok (Some {| wkt := wkt back; srid := s |})).
  { rewrite (simplified_turn_value _ _ _ _ Hsrc). unfold simplified_value.
    rewrite Htruthy, Hcopy. cbn [and_then]. rewrite Hsimple. cbn [and_then].
    rewrite Hback. cbn [and_then]. do 3 f_equal.
    rewrite <- Hty in Htype. unfold geom_type in Htype.
    by destruct (wkt back). }
  rewrite Line_set_simple_linestrings_body_turn, Hturn by done.
  destruct (Line_dict_set_simple s
              (Some {| wkt := wkt back; srid := s |}) self Hs)
    as (Hok & Hd & _).
  revert Hok Hd. destruct (Line_dict_set _ _ self) as [r1 self1].
  cbn [fst snd]. intros -> Hd. exists self1.
  split; [ done | ]. split; [ done | ].
  rewrite (Line_simple_linestring_dict _ _ _ Hd).
  unfold field_accepts, geom_type at 1. cbn [wkt]. fold (geom_type back).
  by rewrite Hty.
Qed.

(** X3.  The method reads the full-resolution fields and the tolerance, and
    nothing else.  Whether it returns or raises, it leaves the key, the
    name, the slug and the full-resolution fields as they were.  Whatever
    the simplified fields held before, the outcome is the same, and so it is
    for a second run on the object the first run left.  When the method
    returns, the object it leaves is the same too: what the simplified
    fields held is overwritten, and a second run changes nothing. *)
Theorem simplify_reads_full_resolution_only (tolerance : Z) (self : Line)
    (sa sb sc sd : geom_value) :
  let out := Line_set_simple_linestrings tolerance self in
  let other :=
    Line_set_simple_linestrings tolerance
      (mkLine (Line_id self) (Line_name self) (Line_slug self)
         (linestring_2229 self) (linestring_4269 self)
         (linestring_4326 self) (linestring_900913 self) sa sb sc sd) in
  let again := Line_set_simple_linestrings tolerance out.2 in
  Line_id out.2 = Line_id self ∧ Line_name out.2 = Line_name self ∧
  Line_slug out.2 = Line_slug self ∧
  linestring_2229 out.2 = linestring_2229 self ∧
  linestring_4269 out.2 = linestring_4269 self ∧
  linestring_4326 out.2 = linestring_4326 self ∧
  linestring_900913 out.2 = linestring_900913 self ∧
  other.1 = out.1 ∧ again.1 = out.1 ∧
  match out.1 with
  | Ok _ => out.1 = Ok true ∧ other.2 = out.2 ∧ again.2 = out.2
  | Raise _ => True
  end.
Proof.
  cbv zeta.
  pose proof (Line_set_simple_linestrings_frame tolerance self) as Hframe.
  cbv zeta in Hframe.
  destruct Hframe as (Ha & Hb & Hc & Hd & Hi & Hn & Hsl).
  repeat (split; [ done | ]).
  destruct self as [i n sl a b c d sa0 sb0 sc0 sd0]. cbn [Line_id Line_name
    Line_slug linestring_2229 linestring_4269 linestring_4326
    linestring_900913] in *.
  destruct (Line_set_simple_linestrings tolerance
              (mkLine i n sl a b c d sa0 sb0 sc0 sd0)) as [r self'] eqn:Hout.
  cbn [fst snd] in *.
  destruct self' as [i' n' sl' a' b' c' d' sa' sb' sc' sd'].
  cbn in Ha, Hb, Hc, Hd, Hi, Hn, Hsl. subst.
  rewrite Line_set_simple_linestrings_eq in Hout. cbv zeta in Hout.
  rewrite !Line_set_simple_linestrings_eq. cbv zeta.
  rewrite !(simplified_turn_full tolerance _
              (mkLine i n sl a b c d sa0 sb0 sc0 sd0)
              (mkLine i n sl a b c d sa sb sc sd))
    by (done || by repeat constructor).
  rewrite !(simplified_turn_full tolerance _
              (mkLine i n sl a b c d sa0 sb0 sc0 sd0)
              (mkLine i n sl a b c d sa' sb' sc' sd'))
    by (done || by repeat constructor).
  destruct (simplified_turn tolerance 2229 _) as [ra|ea];
    [ | by injection Hout as <- ].
  destruct (simplified_turn tolerance 4269 _) as [rb|eb];
    [ | by injection Hout as <- ].
  destruct (simplified_turn tolerance 4326 _) as [rc|ec];
    [ | by injection Hout as <- ].
  destruct (simplified_turn tolerance 900913 _) as [rd|ed];
    [ | by injection Hout as <- ].
  injection Hout as <- <- <- <- <-. done.
Qed.
(** ** Consolidation, continued *)

Lemma for_invariant {S A} (R : S → S → Prop) (body : A → M S unit) :
  (∀ s, R s s) → (∀ s1 s2 s3, R s1 s2 → R s2 s3 → R s1 s3) →
  (∀ x s, R s (body x s).2) →
  ∀ l s, R s (for_ l body s).2.
Proof.
  intros Hrefl Htrans Hbody l. induction l as [|x l IH]; intros s.
  - apply Hrefl.
  - cbn [for_]. unfold bind. pose proof (Hbody x s) as Hx.
    destruct (body x s) as [[[]|e] s1]; cbn in *; [ | done ].
    by apply Htrans with s1.
Qed.

Lemma lines_only_refl (db : DB) : lines_only db db.
Proof. unfold lines_only. repeat (split; [ done | ]). done. Qed.

Lemma lines_only_trans (db1 db2 db3 : DB) :
  lines_only db1 db2 → lines_only db2 db3 → lines_only db1 db3.
Proof.
  intros (A1 & A2 & A3 & A4 & A5 & A6) (B1 & B2 & B3 & B4 & B5 & B6).
  unfold lines_only. rewrite B1, B2, B3.
  split; [ done | ]. split; [ done | ]. split; [ done | ].
  split; [ by trans (db_stop_lines db2) | ].
  split; [ by trans (db_station_lines db2) | ].
  intros H. by apply B6, A6.
Qed.

Lemma Line_delete_lines_only (i : Line) (db : DB) :
  lines_only db (Line_delete i db).2.
Proof.
  unfold lines_only. cbn.
  split; [ done | ]. split; [ done | ]. split; [ done | ].
  split; [ intros p Hp; by apply elem_of_filter in Hp as [_ ?] | ].
  split; [ intros p Hp; by apply elem_of_filter in Hp as [_ ?] | ].
  intros [H1 H2]. split; intros p Hp; apply elem_of_filter in Hp as [Hne Hp].
  - apply H1, list_elem_of_fmap in Hp as (l & Hl & Hin).
    apply list_elem_of_fmap. exists l. split; [ done | ].
    apply list_elem_of_filter. split; [ by rewrite <- Hl | done ].
  - apply H2, list_elem_of_fmap in Hp as (l & Hl & Hin).
    apply list_elem_of_fmap. exists l. split; [ done | ].
    apply list_elem_of_filter. split; [ by rewrite <- Hl | done ].
Qed.

Lemma Line_objects_create_lines_only (n : string) (g : geom_value) (db : DB) :
  lines_only db (Line_objects_create n g db).2.
Proof.
  unfold Line_objects_create.
  destruct (field_accepts "MultiLineString" g); [ | apply lines_only_refl ].
  unfold lines_only. cbn. repeat (split; [ done | ]).
  intros [H1 H2]. split; intros p Hp; cbn in *;
    rewrite fmap_app, elem_of_app; left.
  - by apply H1.
  - by apply H2.
Qed.

(** Whatever its outcome, one turn of the loop of [fix_line_dupes] works on
    the line table only. *)
Lemma fix_line_dupes_body_lines_only (d : string * nat) (db : DB) :
  lines_only db (fix_line_dupes_body d db).2.
Proof.
  unfold fix_line_dupes_body, bind, Line_objects_filter, lift.
  destruct (unionagg _) as [u|e]; [ | apply lines_only_refl ].
  destruct (index _ 0) as [first|e]; [ | apply lines_only_refl ].
  pose proof (Line_objects_create_lines_only (Line_name first) u db) as Hc.
  destruct (Line_objects_create (Line_name first) u db) as [[obj|e] db1];
    cbn [snd] in Hc; [ | done ].
  unfold Line_objects_filter_exclude.
  apply lines_only_trans with db1; [ done | ].
  apply for_invariant;
    [ apply lines_only_refl | apply lines_only_trans
    | apply Line_delete_lines_only ].
Qed.

Lemma fix_line_dupes_lines_only (db : DB) :
  lines_only db (fix_line_dupes db).2.
Proof.
  unfold fix_line_dupes, bind. cbn [dupe_query].
  apply for_invariant;
    [ apply lines_only_refl | apply lines_only_trans
    | apply fix_line_dupes_body_lines_only ].
Qed.

Lemma group_size_NoDup (db : DB) :
  NoDup (Line_name <$> db_lines db) ↔ ∀ n, (group_size n db ≤ 1)%nat.
Proof.
  unfold group_size, named. induction (db_lines db) as [|x l IH].
  - split; [ intros _ n; cbn; lia | intros _; apply NoDup_nil_2 ].
  - rewrite fmap_cons, NoDup_cons, IH. split.
    + intros [Hx Hl] n. rewrite filter_cons.
      destruct (decide (Line_name x = n)) as [<- | Hne]; [ | apply Hl ].
      rewrite filter_none; [ cbn; lia | ].
      intros y Hy Heq. apply Hx. rewrite <- Heq. by apply list_elem_of_fmap_2.
    + intros H. split.
      * intros Hin. apply list_elem_of_fmap in Hin as (y & Hxy & Hy).
        specialize (H (Line_name x)). rewrite filter_cons_True in H by done.
        cbn in H.
        assert (Hy' : y ∈ filter (λ l0, Line_name l0 = Line_name x) l)
          by (by apply list_elem_of_filter).
        destruct (filter _ l); [ by apply elem_of_nil in Hy' | cbn in H; lia ].
      * intros n. specialize (H n). rewrite filter_cons in H.
        destruct (decide (Line_name x = n)); cbn in H; lia.
Qed.

Lemma dupe_query_nil (db : DB) :
  (∀ n, (group_size n db ≤ 1)%nat) → dupe_query db = (Ok [], db).
Proof.
  intros Hsize. destruct (dupe_query_spec db) as (ds & Hq & _ & Hds).
  rewrite Hq. destruct ds as [|d ds]; [ done | ]. exfalso.
  specialize (Hsize d.1).
  assert ((1 < group_size d.1 db)%nat); [ | lia ].
  apply Hds. rewrite fmap_cons. by left.
Qed.

(** X4.  On a line table in which no two rows share a name,
    [fix_line_dupes] returns and changes nothing: no union is computed, so
    nothing is asked of the geometries. *)
Theorem consolidate_noop_without_duplicates (db : DB) :
  NoDup (Line_name <$> db_lines db) →
  fix_line_dupes db = (Ok (), db).
Proof.
  intros Hnd. unfold fix_line_dupes, bind.
  by rewrite dupe_query_nil by (by apply group_size_NoDup).
Qed.

(** X5.  After a run of [fix_line_dupes] in which every union succeeds and
    is [None] or a multi-part line, so that the canonical field takes it,
    the names of the line table are those it had, each held by one row: a
    lookup of a line by a name that was there returns a row and is never
    ambiguous, and a second run changes nothing. *)
Theorem consolidate_leaves_unique_names (db : DB) :
  lines_wf db →
  (∀ n, (1 < group_size n db)%nat → union_storable n db) →
  ∃ db', fix_line_dupes db = (Ok (), db') ∧
    (∀ n, group_size n db' = Nat.min 1 (group_size n db)) ∧
    NoDup (Line_name <$> db_lines db') ∧
    (∀ n, (0 < group_size n db)%nat →
       ∃ r, Line_objects_get (Some n) db' = (Ok r, db') ∧ Line_name r = n) ∧
    fix_line_dupes db' = (Ok (), db').
Proof.
  intros Hwf Hunion.
  destruct (dupe_query_spec db) as (ds & Hq & Hnd & Hds).
  destruct (fix_line_dupes_loop ds db Hwf Hnd)
    as (db' & Hrun & Hwf' & Hnext & Hkeep & Hcons).
  { intros d Hd.
    assert (Hsize : (1 < group_size d.1 db)%nat)
      by (apply Hds; by apply list_elem_of_fmap_2).
    split; [ apply group_size_pos; lia | by apply Hunion ]. }
  assert (Hsize : ∀ n, group_size n db' = Nat.min 1 (group_size n db)).
  { intros n. destruct (decide (1 < group_size n db)%nat) as [Hdup | Hone].
    - pose proof Hdup as Hin. apply Hds in Hin.
      apply list_elem_of_fmap in Hin as (d & -> & Hd).
      destruct (Hcons d Hd) as (r & u & Hr & _).
      unfold group_size at 1. rewrite Hr. cbn [length]. lia.
    - unfold group_size at 1. rewrite Hkeep by (by rewrite Hds).
      fold (group_size n db). lia. }
  assert (Hle : ∀ n, (group_size n db' ≤ 1)%nat)
    by (intros n; rewrite Hsize; lia).
  exists db'. split; [ | split; [ done | split; [ | split ] ] ].
  - unfold fix_line_dupes, bind. by rewrite Hq.
  - by apply group_size_NoDup.
  - intros n Hn. unfold Line_objects_get, bind.
    rewrite (list_filter_iff _ (λ l, Line_name l = n));
      [ | intros l; split; [ by intros [= ->] | by intros -> ] ].
    fold (named n db'). pose proof (Hsize n) as Hn'. unfold group_size in Hn'.
    fold (group_size n db) in Hn'.
    destruct (named n db') as [|r [|r' rs]] eqn:Hrows; cbn [length] in Hn';
      [ lia | | lia ].
    exists r. split; [ done | ].
    assert (Hin : r ∈ named n db') by (rewrite Hrows; by left).
    by apply named_elem in Hin as [? _].
  - unfold fix_line_dupes, bind. by rewrite dupe_query_nil.
Qed.

(** X6.  Whatever its outcome, [fix_line_dupes] leaves the stops and the
    stations as they are and adds no row to the two line sets; where every
    row of the line sets referred to a line of the table before, it does so
    afterwards: deleting a line takes its memberships with it. *)
Theorem consolidate_changes_lines_only (db : DB) :
  let db' := (fix_line_dupes db).2 in
  db_stops db' = db_stops db ∧
  db_stations db' = db_stations db ∧
  db_stop_lines db' ⊆ db_stop_lines db ∧
  db_station_lines db' ⊆ db_station_lines db ∧
  (line_refs_ok db → line_refs_ok db').
Proof.
  destruct (fix_line_dupes_lines_only db) as (H1 & H2 & _ & H4 & H5 & H6).
  done.
Qed.

(** X7.  The row that replaces a group of duplicates starts without
    memberships: after a run in which every union succeeds and is [None] or
    a multi-part line, the stops and stations that were attached to the
    original rows are attached to no row of that name, and the stop count
    of the new row is 0. *)
Theorem consolidate_drops_memberships (db : DB) :
  lines_wf db → line_refs_ok db →
  (∀ n, (1 < group_size n db)%nat → union_storable n db) →
  ∃ db', fix_line_dupes db = (Ok (), db') ∧
    ∀ n, (1 < group_size n db)%nat →
      ∃ r, named n db' = [r] ∧
        (∀ i, (i, Line_id r) ∉ db_stop_lines db') ∧
        (∀ i, (i, Line_id r) ∉ db_station_lines db') ∧
        (Line_get_stop_count r db').1 = Ok 0%nat.
Proof.
  intros Hwf [Hr1 Hr2] Hunion.
  destruct (dupe_query_spec db) as (ds & Hq & Hnd & Hds).
  destruct (fix_line_dupes_loop ds db Hwf Hnd)
    as (db' & Hrun & Hwf' & Hnext & Hkeep & Hcons).
  { intros d Hd.
    assert (Hsize : (1 < group_size d.1 db)%nat)
      by (apply Hds; by apply list_elem_of_fmap_2).
    split; [ apply group_size_pos; lia | by apply Hunion ]. }
  assert (Hall : fix_line_dupes db = (Ok (), db')).
  { unfold fix_line_dupes, bind. by rewrite Hq. }
  pose proof (fix_line_dupes_lines_only db) as (_ & _ & _ & Hs1 & Hs2 & _).
  rewrite Hall in Hs1, Hs2. cbn [snd] in Hs1, Hs2.
  destruct Hwf as [_ Hlt].
  exists db'. split; [ done | ]. intros n Hn.
  apply Hds in Hn. apply list_elem_of_fmap in Hn as (d & -> & Hd).
  destruct (Hcons d Hd) as (r & u & Hr & _ & _ & Hid).
  assert (Hfresh : ∀ i (rel : gset (Z * Z)),
            (∀ p, p ∈ rel → p.2 ∈ Line_id <$> db_lines db) →
            (i, Line_id r) ∉ rel).
  { intros i rel Hrel Hin. apply Hrel in Hin. cbn in Hin.
    apply list_elem_of_fmap in Hin as (x & Hx & Hxin).
    apply Hlt in Hxin. lia. }
  exists r. split; [ done | ].
  split; [ intros i Hin; by apply (Hfresh i (db_stop_lines db)), Hs1 | ].
  split; [ intros i Hin; by apply (Hfresh i (db_station_lines db)), Hs2 | ].
  cbn. rewrite filter_none; [ done | ].
  intros x _ Hin. by apply (Hfresh (Stop_id x) (db_stop_lines db)), Hs1.
Qed.


(** X22.  The canonical field is a field of multi-part lines, and
    [fix_line_dupes] hands it the union as the aggregate returns it.  When
    the union of a group is a geometry of another type (a single-part line,
    for fragments that coincide), [create] raises [TypeError] and the
    exception leaves the function: the rows of that group are all still
    there and no row has been created for it, the groups processed before
    it are consolidated, and every other name has the rows it had. *)
Theorem consolidate_refuses_other_union_types (db : DB)
    (pre post : list (string * nat)) (d : string * nat) (u : geom_value) :
  lines_wf db →
  (dupe_query db).1 = Ok (pre ++ d :: post) →
  (∀ d', d' ∈ pre → union_storable d'.1 db) →
  unionagg (canonical_geoms d.1 db) = Ok u →
  field_accepts "MultiLineString" u = false →
  ∃ db', fix_line_dupes db = (Raise (GeometryProxy_error "Line"), db') ∧
    named d.1 db' = named d.1 db ∧
    (∀ d', d' ∈ pre → consolidated db db' d'.1) ∧
    (∀ d', d' ∈ post → named d'.1 db' = named d'.1 db) ∧
    (∀ n, (group_size n db ≤ 1)%nat → named n db' = named n db).
Proof.
  intros Hwf Hq Hpre Hu Hacc.
  apply (fix_line_dupes_stops db pre post d _ Hwf Hq Hpre).
  intros db' Hsame.
  assert (Hne : named d.1 db ≠ []).
  { destruct (dupe_query_spec db) as (ds & Hq' & _ & Hds).
    rewrite Hq' in Hq. cbn in Hq. injection Hq as ->.
    apply group_size_pos.
    assert ((1 < group_size d.1 db)%nat); [ | lia ].
    apply Hds. rewrite fmap_app, elem_of_app. right. by left. }
  apply (fix_line_dupes_body_refused d db' u).
  - by rewrite Hsame.
  - unfold canonical_geoms. by rewrite Hsame.
  - done.
Qed.
(** ** Line extras *)

(** [set_linestrings()] with its default argument, in closed form: the
    first transform that raises ends the run, and the fields written before
    it stay. *)
Lemma Line_set_linestrings_default i n sl a b c d sa sb sc sd :
  let self := mkLine i n sl a b c d sa sb sc sd in
  Line_set_linestrings 2229 self =
    match a with
    | None =>
        (Raise (AttributeError
                  "'NoneType' object has no attribute 'transform'"), self)
    | Some g =>
        if field_accepts "MultiLineString" (Some g) then
          match transform 4269 g with
          | Raise e => (Raise e, self)
          | Ok ga =>
              match transform 4326 g with
              | Raise e =>
                  (Raise e, mkLine i n sl a (Some ga) c d sa sb sc sd)
              | Ok gb =>
                  match transform 900913 g with
                  | Raise e =>
                      (Raise e,
                       mkLine i n sl a (Some ga) (Some gb) d sa sb sc sd)
                  | Ok gc =>
                      (Ok true,
                       mkLine i n sl a (Some ga) (Some gb) (Some gc)
                              sa sb sc sd)
                  end
              end
          end
        else (Raise (GeometryProxy_error "Line"), self)
    end.
Proof.
  cbv zeta. destruct a as [g|]; [ | reflexivity ].
  destruct (field_accepts "MultiLineString" (Some g)) eqn:Hacc;
    [ | run_method; reflexivity ].
  destruct (transform 4269 g) as [ga|e] eqn:H1;
    [ | run_method; reflexivity ].
  pose proof (transform_accepts "MultiLineString" _ _ _ H1) as A1.
  rewrite Hacc in A1.
  destruct (transform 4326 g) as [gb|e] eqn:H2;
    [ | run_method; reflexivity ].
  pose proof (transform_accepts "MultiLineString" _ _ _ H2) as A2.
  rewrite Hacc in A2.
  destruct (transform 900913 g) as [gc|e] eqn:H3;
    [ | run_method; reflexivity ].
  pose proof (transform_accepts "MultiLineString" _ _ _ H3) as A3.
  rewrite Hacc in A3.
  run_method; reflexivity.
Qed.

(** [save] in closed form: the eight geometry fields are read, then the
    row is written. *)
Lemma Line_save_eq (obj : Line) (db : DB) :
  Line_save obj db =
    if forallb (field_accepts "MultiLineString")
         [ linestring_2229 obj; linestring_4269 obj; linestring_4326 obj;
           linestring_900913 obj;
           simple_linestring_2229 obj; simple_linestring_4269 obj;
           simple_linestring_4326 obj; simple_linestring_900913 obj ]
    then Line_update obj db
    else (Raise (GeometryProxy_error "Line"), db).
Proof.
  destruct obj as [i n sl a b c d sa sb sc sd].
  unfold Line_save, bind, call.
  cbn [forallb linestring_2229 linestring_4269 linestring_4326
       linestring_900913 simple_linestring_2229 simple_linestring_4269
       simple_linestring_4326 simple_linestring_900913].
  destruct (field_accepts "MultiLineString" a) eqn:Ha;
    [ | cbv - [field_accepts]; by rewrite Ha ].
  destruct (field_accepts "MultiLineString" b) eqn:Hb;
    [ | cbv - [field_accepts]; by rewrite Ha, Hb ].
  destruct (field_accepts "MultiLineString" c) eqn:Hc;
    [ | cbv - [field_accepts]; by rewrite Ha, Hb, Hc ].
  destruct (field_accepts "MultiLineString" d) eqn:Hd;
    [ | cbv - [field_accepts]; by rewrite Ha, Hb, Hc, Hd ].
  destruct (field_accepts "MultiLineString" sa) eqn:Hsa;
    [ | cbv - [field_accepts]; by rewrite Ha, Hb, Hc, Hd, Hsa ].
  destruct (field_accepts "MultiLineString" sb) eqn:Hsb;
    [ | cbv - [field_accepts]; by rewrite Ha, Hb, Hc, Hd, Hsa, Hsb ].
  destruct (field_accepts "MultiLineString" sc) eqn:Hsc;
    [ | cbv - [field_accepts]; by rewrite Ha, Hb, Hc, Hd, Hsa, Hsb, Hsc ].
  destruct (field_accepts "MultiLineString" sd) eqn:Hsd;
    [ | cbv - [field_accepts];
        by rewrite Ha, Hb, Hc, Hd, Hsa, Hsb, Hsc, Hsd ].
  cbv - [field_accepts Line_update].
  by rewrite Ha, Hb, Hc, Hd, Hsa, Hsb, Hsc, Hsd.
Qed.

(** One turn of the loop of [line_extras], in closed form: the completed
    row is written, or the exception of the first step that raises leaves
    the loop and nothing is written. *)
Lemma line_extras_body_eq (obj : Line) (db : DB) :
  line_extras_body obj db =
    match with_extras obj with
    | Ok r => Line_update r db
    | Raise e => (Raise e, db)
    end.
Proof.
  destruct obj as [i n sl a b c d sa sb sc sd].
  unfold line_extras_body, bind, call, with_extras.
  cbn [set_Line_slug linestring_2229 Line_id Line_name].
  rewrite Line_set_linestrings_default. cbv zeta.
  destruct a as [g|]; [ | reflexivity ].
  destruct (field_accepts "MultiLineString" (Some g)) eqn:Hacc;
    [ | reflexivity ].
  destruct (transform 4269 g) as [ga|e] eqn:H1; [ | reflexivity ].
  pose proof (transform_accepts "MultiLineString" _ _ _ H1) as A1.
  rewrite Hacc in A1.
  destruct (transform 4326 g) as [gb|e] eqn:H2; [ | reflexivity ].
  pose proof (transform_accepts "MultiLineString" _ _ _ H2) as A2.
  rewrite Hacc in A2.
  destruct (transform 900913 g) as [gc|e] eqn:H3; [ | reflexivity ].
  pose proof (transform_accepts "MultiLineString" _ _ _ H3) as A3.
  rewrite Hacc in A3.
  cbn [and_then snd]. rewrite Line_set_simple_linestrings_eq. cbv zeta.
  rewrite (simplified_turn_value 500 2229 _ (Some g))
    by (cbv - [field_accepts]; by rewrite Hacc).
  rewrite (simplified_turn_value 500 4269 _ (Some ga))
    by (cbv - [field_accepts]; by rewrite A1).
  rewrite (simplified_turn_value 500 4326 _ (Some gb))
    by (cbv - [field_accepts]; by rewrite A2).
  rewrite (simplified_turn_value 500 900913 _ (Some gc))
    by (cbv - [field_accepts]; by rewrite A3).
  destruct (simplified_value 500 2229 (Some g)) as [ra|e]; [ | reflexivity ].
  destruct (simplified_value 500 4269 (Some ga)) as [rb|e];
    [ | reflexivity ].
  destruct (simplified_value 500 4326 (Some gb)) as [rc|e];
    [ | reflexivity ].
  destruct (simplified_value 500 900913 (Some gc)) as [rd|e];
    [ | reflexivity ].
  cbn [and_then snd]. rewrite Line_save_eq.
  cbn [forallb linestring_2229 linestring_4269 linestring_4326
       linestring_900913 simple_linestring_2229 simple_linestring_4269
       simple_linestring_4326 simple_linestring_900913].
  rewrite Hacc, A1, A2, A3. cbn [andb].
  by destruct (field_accepts "MultiLineString" ra && _).
Qed.

(** What a completed row holds. *)
Lemma with_extras_Ok (l r : Line) :
  with_extras l = Ok r →
  ∃ g a b c sa sb sc sd,
    linestring_2229 l = Some g ∧
    field_accepts "MultiLineString" (Some g) = true ∧
    transform 4269 g = Ok a ∧ transform 4326 g = Ok b ∧
    transform 900913 g = Ok c ∧
    simplified_value 500 2229 (Some g) = Ok sa ∧
    simplified_value 500 4269 (Some a) = Ok sb ∧
    simplified_value 500 4326 (Some b) = Ok sc ∧
    simplified_value 500 900913 (Some c) = Ok sd ∧
    forallb (field_accepts "MultiLineString") [sa; sb; sc; sd] = true ∧
    r = mkLine (Line_id l) (Line_name l) (Some (slugify (Line_name l)))
          (Some g) (Some a) (Some b) (Some c) sa sb sc sd.
Proof.
  unfold with_extras. destruct (linestring_2229 l) as [g|]; [ | done ].
  destruct (field_accepts "MultiLineString" (Some g)) eqn:Hacc; [ | done ].
  destruct (transform 4269 g) as [a|] eqn:Ha; [ | done ].
  destruct (transform 4326 g) as [b|] eqn:Hb; [ | done ].
  destruct (transform 900913 g) as [c|] eqn:Hc; [ | done ].
  cbn [and_then].
  destruct (simplified_value 500 2229 (Some g)) as [sa|] eqn:Hsa; [ | done ].
  destruct (simplified_value 500 4269 (Some a)) as [sb|] eqn:Hsb; [ | done ].
  destruct (simplified_value 500 4326 (Some b)) as [sc|] eqn:Hsc; [ | done ].
  destruct (simplified_value 500 900913 (Some c)) as [sd|] eqn:Hsd;
    [ | done ].
  cbn [and_then].
  destruct (forallb _ [sa; sb; sc; sd]) eqn:Hall; [ | done ].
  intros [= <-]. by exists g, a, b, c, sa, sb, sc, sd.
Qed.

Lemma with_extras_id (l r : Line) :
  with_extras l = Ok r → Line_id r = Line_id l ∧ Line_name r = Line_name l.
Proof.
  intros H. apply with_extras_Ok in H
    as (g & a & b & c & sa & sb & sc & sd & _ & _ & _ & _ & _ & _ & _ & _ &
        _ & _ & ->).
  done.
Qed.

(** The completed row of a completed row is that row. *)
Lemma with_extras_again (l r : Line) :
  with_extras l = Ok r → with_extras r = Ok r.
Proof.
  intros H. apply with_extras_Ok in H
    as (g & a & b & c & sa & sb & sc & sd & _ & Hacc & Ha & Hb & Hc &
        Hsa & Hsb & Hsc & Hsd & Hall & ->).
  unfold with_extras. cbn [linestring_2229 Line_id Line_name].
  rewrite Hacc, Ha, Hb, Hc. cbn [and_then].
  rewrite Hsa, Hsb, Hsc, Hsd. cbn [and_then]. by rewrite Hall.
Qed.

Lemma completed_id (l : Line) :
  Line_id (completed l) = Line_id l ∧ Line_name (completed l) = Line_name l.
Proof.
  unfold completed. destruct (with_extras l) as [r|e] eqn:Hr; [ | done ].
  by apply with_extras_id.
Qed.

Lemma extras_after_ids (done : list Line) (db : DB) :
  Line_id <$> db_lines (extras_after done db) = Line_id <$> db_lines db.
Proof.
  cbn. rewrite <- list_fmap_compose. apply list_fmap_ext. intros i r _. cbn.
  case_bool_decide; [ apply completed_id | done ].
Qed.

Lemma extras_after_nil (db : DB) : extras_after [] db = db.
Proof.
  unfold extras_after. rewrite (list_fmap_ext _ id (db_lines db)).
  - rewrite list_fmap_id. by destruct db.
  - intros i r _. rewrite bool_decide_eq_false_2; [ done | ].
    apply not_elem_of_nil.
Qed.

(** Writing the completed row of a line of the table. *)
Lemma Line_update_completed (obj r : Line) (done : list Line) (db : DB) :
  NoDup (Line_id <$> db_lines db) → obj ∈ db_lines db →
  with_extras obj = Ok r →
  Line_update r (extras_after done db) =
    (Ok (), extras_after (done ++ [obj]) db).
Proof.
  intros Hnd Hobj Hr. unfold Line_update. rewrite extras_after_ids.
  destruct (with_extras_id _ _ Hr) as [Hid_r _]. rewrite Hid_r.
  rewrite bool_decide_eq_true_2 by (by apply list_elem_of_fmap_2).
  unfold extras_after. cbn [db_lines db_stops db_stations db_stop_lines
                            db_station_lines db_next_line_id
                            db_next_station_id].
  do 2 f_equal. rewrite <- list_fmap_compose. apply list_fmap_ext.
  intros i x Hx. cbn.
  assert (Hin : x ∈ db_lines db) by (apply list_elem_of_lookup; eauto).
  assert (Hid : Line_id (if bool_decide (Line_id x ∈ Line_id <$> done)
                         then completed x else x) = Line_id x)
    by (case_bool_decide; [ apply completed_id | done ]).
  destruct (decide (Line_id x = Line_id obj)) as [Heq | Hne].
  - rewrite bool_decide_eq_true_2 by (by rewrite Hid).
    assert (x = obj) by (by apply (NoDup_fmap_eq Line_id (db_lines db))).
    subst x. rewrite (bool_decide_eq_true_2 (_ ∈ _ <$> done ++ [obj])).
    + unfold completed. by rewrite Hr.
    + rewrite fmap_app, elem_of_app. right. by left.
  - rewrite bool_decide_eq_false_2 by (by rewrite Hid).
    assert (Hiff : Line_id x ∈ Line_id <$> done ++ [obj] ↔
                   Line_id x ∈ Line_id <$> done).
    { rewrite fmap_app, elem_of_app. split; [ | by left ].
      intros [? | Hx']; [ done | ].
      by apply list_elem_of_singleton in Hx'. }
    by rewrite (bool_decide_ext _ _ Hiff).
Qed.

(** The loop of [line_extras] over lines of the table whose extras can all
    be computed. *)
Lemma line_extras_loop (todo done : list Line) (db : DB) :
  NoDup (Line_id <$> db_lines db) →
  (∀ x, x ∈ todo → x ∈ db_lines db ∧ ∃ r, with_extras x = Ok r) →
  for_ todo line_extras_body (extras_after done db) =
    (Ok (), extras_after (done ++ todo) db).
Proof.
  intros Hnd. revert done. induction todo as [|x todo IH]; intros done Hall.
  - by rewrite app_nil_r.
  - destruct (Hall x (list_elem_of_here _ _)) as [Hx [r Hr]].
    cbn [for_]. unfold bind.
    rewrite line_extras_body_eq, Hr.
    rewrite (Line_update_completed x r) by done.
    rewrite IH by (intros y Hy; apply Hall; by right).
    by rewrite <- app_assoc.
Qed.

Lemma Line_objects_all_spec (db : DB) :
  ∃ objs, Line_objects_all db = (Ok objs, db) ∧ objs ≡ₚ db_lines db.
Proof. eexists. split; [ done | ]. apply merge_sort_Permutation. Qed.

(** A run of [line_extras] over lines whose extras can all be computed. *)
Lemma line_extras_run (db : DB) :
  NoDup (Line_id <$> db_lines db) →
  (∀ l, l ∈ db_lines db → ∃ r, with_extras l = Ok r) →
  line_extras db =
    (Ok (),
     mkDB (completed <$> db_lines db) (db_stops db) (db_stations db)
          (db_stop_lines db) (db_station_lines db)
          (db_next_line_id db) (db_next_station_id db)).
Proof.
  intros Hnd Hgeo.
  destruct (Line_objects_all_spec db) as (objs & Hall & Hperm).
  pose proof (line_extras_loop objs [] db Hnd) as Hrun.
  rewrite extras_after_nil in Hrun. cbn [app] in Hrun.
  specialize (Hrun ltac:(intros x Hx; rewrite Hperm in Hx; auto)).
  unfold line_extras, bind. rewrite Hall, Hrun. f_equal.
  unfold extras_after. f_equal. apply list_fmap_ext. intros i r Hr.
  rewrite bool_decide_eq_true_2; [ done | ].
  rewrite Hperm. apply list_elem_of_fmap_2, list_elem_of_lookup. eauto.
Qed.

(** A run of [line_extras] that stops at the line [l]: the lines before it
    in the order of the names have been completed and saved, the row of [l]
    and the rows of the lines after it are what they were. *)
Lemma line_extras_stops (db : DB) (pre post : list Line) (l : Line)
    (e : exn) :
  NoDup (Line_id <$> db_lines db) →
  (Line_objects_all db).1 = Ok (pre ++ l :: post) →
  (∀ x, x ∈ pre → ∃ r, with_extras x = Ok r) →
  with_extras l = Raise e →
  ∃ db',
    line_extras db = (Raise e, db') ∧
    Line_id <$> db_lines db' = Line_id <$> db_lines db ∧
    (∀ x r, x ∈ pre → with_extras x = Ok r → r ∈ db_lines db') ∧
    (∀ x, x ∈ l :: post → x ∈ db_lines db') ∧
    db_stops db' = db_stops db ∧ db_stations db' = db_stations db ∧
    db_stop_lines db' = db_stop_lines db ∧
    db_station_lines db' = db_station_lines db.
Proof.
  intros Hnd Hobjs Hpre Hfail.
  destruct (Line_objects_all_spec db) as (objs & Hall & Hperm).
  rewrite Hall in Hobjs. cbn in Hobjs. injection Hobjs as ->.
  assert (Hin : ∀ x, x ∈ pre ++ l :: post → x ∈ db_lines db)
    by (intros x Hx; by rewrite <- Hperm).
  pose proof (line_extras_loop pre [] db Hnd) as Hrun.
  rewrite extras_after_nil in Hrun. cbn [app] in Hrun.
  exists (extras_after pre db).
  split; [ | split; [ | split; [ | split; [ | done ] ] ] ].
  - unfold line_extras, bind. rewrite Hall, for_app, Hrun.
    + cbn [for_]. unfold bind. by rewrite line_extras_body_eq, Hfail.
    + intros x Hx. split; [ | by apply Hpre ].
      apply Hin, elem_of_app. by left.
  - apply extras_after_ids.
  - intros x r Hx Hr. cbn. apply list_elem_of_fmap. exists x. split.
    + rewrite bool_decide_eq_true_2 by (by apply list_elem_of_fmap_2).
      unfold completed. by rewrite Hr.
    + apply Hin, elem_of_app. by left.
  - intros x Hx. cbn. apply list_elem_of_fmap. exists x. split.
    + rewrite bool_decide_eq_false_2; [ done | ].
      assert (Hnd' : NoDup (Line_id <$> (pre ++ l :: post)))
        by (by rewrite Hperm).
      rewrite fmap_app in Hnd'. apply NoDup_app in Hnd' as (_ & Hdisj & _).
      intros Hid. apply (Hdisj _ Hid). by apply list_elem_of_fmap_2.
    + apply Hin, elem_of_app. by right.
Qed.

(** X8.  On a line table with unique keys in which the extras of every line
    can be computed (the line has a canonical geometry, the library calls
    on it return and what they return can be stored), [line_extras]
    returns; it works on the line table only, and every row is the
    completed row of the line it was: same key and name, the slug of the
    name, the canonical geometry untouched and transformed into each of the
    other three reference systems, and in each simplified field the
    simplification of the full-resolution field.  When the canonical
    geometry is not empty, no simplified field is left unset. *)
Theorem line_extras_completes_every_line (db : DB) :
  NoDup (Line_id <$> db_lines db) →
  (∀ l, l ∈ db_lines db → ∃ r, with_extras l = Ok r) →
  ∃ db', line_extras db = (Ok (), db') ∧
    Ok <$> db_lines db' = with_extras <$> db_lines db ∧
    db_stops db' = db_stops db ∧ db_stations db' = db_stations db ∧
    db_stop_lines db' = db_stop_lines db ∧
    db_station_lines db' = db_station_lines db ∧
    ∀ l, l ∈ db_lines db →
      ∃ r g, r ∈ db_lines db' ∧ linestring_2229 l = Some g ∧
        Line_id r = Line_id l ∧ Line_name r = Line_name l ∧
        Line_slug r = Some (slugify (Line_name l)) ∧
        Line_linestring 2229 r = Ok (Some g) ∧
        (∀ s, s ∈ [4269; 4326; 900913] →
           ∃ g', transform s g = Ok g' ∧
                 Line_linestring s r = Ok (Some g')) ∧
        (∀ s v, s ∈ [2229; 4269; 4326; 900913] →
           Line_linestring s r = Ok v →
           ∃ v', simplified_value 500 s v = Ok v' ∧
                 Line_simple_linestring s r = Ok v') ∧
        (truthy (Some g) = true →
         ∀ s, s ∈ [2229; 4269; 4326; 900913] →
           ∃ g', Line_simple_linestring s r = Ok (Some g') ∧ srid g' = s).
Proof.
  intros Hnd Hgeo.
  rewrite (line_extras_run db Hnd Hgeo). eexists. split; [ done | ].
  cbn [db_lines db_stops db_stations db_stop_lines db_station_lines].
  split.
  { rewrite <- list_fmap_compose. apply list_fmap_ext. intros i l Hl. cbn.
    destruct (Hgeo l) as [r Hr]; [ apply list_elem_of_lookup; eauto | ].
    unfold completed. by rewrite Hr. }
  repeat (split; [ done | ]).
  intros l Hl. destruct (Hgeo l Hl) as [r Hr].
  pose proof (with_extras_Ok _ _ Hr)
    as (g & a & b & c & sa & sb & sc & sd & Hg & Hacc & Ha & Hb & Hc &
        Hsa & Hsb & Hsc & Hsd & Hall & Heq).
  exists r, g.
  split.
  { apply list_elem_of_fmap. exists l. split; [ | done ].
    unfold completed. by rewrite Hr. }
  split; [ done | ].
  pose proof (transform_accepts "MultiLineString" _ _ _ Ha) as A1.
  pose proof (transform_accepts "MultiLineString" _ _ _ Hb) as A2.
  pose proof (transform_accepts "MultiLineString" _ _ _ Hc) as A3.
  rewrite Hacc in A1, A2, A3.
  cbn [forallb] in Hall.
  apply andb_prop in Hall as [Asa Hall]. apply andb_prop in Hall as [Asb Hall].
  apply andb_prop in Hall as [Asc Hall]. apply andb_prop in Hall as [Asd _].
  subst r. cbn [Line_id Line_name Line_slug].
  split; [ done | ]. split; [ done | ]. split; [ done | ].
  split; [ cbv - [field_accepts]; by rewrite Hacc | ].
  split.
  { intros s Hs. in_srids Hs.
    - exists a. split; [ done | ]. cbv - [field_accepts]. by rewrite A1.
    - exists b. split; [ done | ]. cbv - [field_accepts]. by rewrite A2.
    - exists c. split; [ done | ]. cbv - [field_accepts]. by rewrite A3. }
  split.
  { intros s v Hs Hv. in_srids Hs.
    - cbv - [field_accepts] in Hv. rewrite Hacc in Hv. injection Hv as <-.
      exists sa. split; [ done | ]. cbv - [field_accepts]. by rewrite Asa.
    - cbv - [field_accepts] in Hv. rewrite A1 in Hv. injection Hv as <-.
      exists sb. split; [ done | ]. cbv - [field_accepts]. by rewrite Asb.
    - cbv - [field_accepts] in Hv. rewrite A2 in Hv. injection Hv as <-.
      exists sc. split; [ done | ]. cbv - [field_accepts]. by rewrite Asc.
    - cbv - [field_accepts] in Hv. rewrite A3 in Hv. injection Hv as <-.
      exists sd. split; [ done | ]. cbv - [field_accepts]. by rewrite Asd. }
  intros Htruthy s Hs.
  assert (Hsome : ∀ s' h v, truthy (Some h) = true →
            simplified_value 500 s' (Some h) = Ok v →
            ∃ g', v = Some g' ∧ srid g' = s').
  { intros s' h v Hh. unfold simplified_value. rewrite Hh.
    destruct (if s' =? 900913 then _ else _); [ | done ]. cbn [and_then].
    destruct (simplify 500 true _); [ | done ]. cbn [and_then].
    destruct (transform s' _); [ | done ]. cbn [and_then].
    intros [= <-]. eauto. }
  pose proof (transform_Ok _ _ _ Ha) as (_ & _ & Ta).
  pose proof (transform_Ok _ _ _ Hb) as (_ & _ & Tb).
  pose proof (transform_Ok _ _ _ Hc) as (_ & _ & Tc).
  rewrite Htruthy in Ta, Tb, Tc.
  in_srids Hs.
  - destruct (Hsome _ _ _ Htruthy Hsa) as (g' & -> & Hsrid).
    exists g'. split; [ | done ]. cbv - [field_accepts]. by rewrite Asa.
  - destruct (Hsome _ _ _ Ta Hsb) as (g' & -> & Hsrid).
    exists g'. split; [ | done ]. cbv - [field_accepts]. by rewrite Asb.
  - destruct (Hsome _ _ _ Tb Hsc) as (g' & -> & Hsrid).
    exists g'. split; [ | done ]. cbv - [field_accepts]. by rewrite Asc.
  - destruct (Hsome _ _ _ Tc Hsd) as (g' & -> & Hsrid).
    exists g'. split; [ | done ]. cbv - [field_accepts]. by rewrite Asd.
Qed.

(** X9.  [line_extras] has no guard for a line without canonical geometry:
    when the loop reaches one, the lines before it having been completed,
    [set_linestrings] raises [AttributeError] and the exception leaves the
    function.  The lines before it in the order of the names have been
    completed and saved; the row of that line (its slug included) and the
    rows of the lines after it are what they were. *)
Theorem line_extras_aborts_on_missing_geometry (db : DB)
    (pre post : list Line) (l : Line) :
  NoDup (Line_id <$> db_lines db) →
  (Line_objects_all db).1 = Ok (pre ++ l :: post) →
  (∀ x, x ∈ pre → ∃ r, with_extras x = Ok r) →
  linestring_2229 l = None →
  ∃ db',
    line_extras db =
      (Raise (AttributeError
                "'NoneType' object has no attribute 'transform'"), db') ∧
    Line_id <$> db_lines db' = Line_id <$> db_lines db ∧
    (∀ x r, x ∈ pre → with_extras x = Ok r → r ∈ db_lines db') ∧
    (∀ x, x ∈ l :: post → x ∈ db_lines db').
Proof.
  intros Hnd Hobjs Hpre Hnone.
  destruct (line_extras_stops db pre post l
              (AttributeError "'NoneType' object has no attribute 'transform'")
              Hnd Hobjs Hpre)
    as (db' & Hrun & Hids & Hdone & Hrest & _).
  { unfold with_extras. by rewrite Hnone. }
  exists db'. done.
Qed.

(** X23.  [line_extras] has no handler around the library calls either:
    when a transform or the vertex reduction raises for a line, or [save]
    refuses what a simplified field holds, the exception leaves the
    function.  The lines before that line in the order of the names have
    been completed and saved; the row of that line and the rows of the
    lines after it are what they were, whatever the methods had written on
    the object; stops, stations and line sets are untouched. *)
Theorem line_extras_stops_at_failing_line (db : DB)
    (pre post : list Line) (l : Line) (e : exn) :
  NoDup (Line_id <$> db_lines db) →
  (Line_objects_all db).1 = Ok (pre ++ l :: post) →
  (∀ x, x ∈ pre → ∃ r, with_extras x = Ok r) →
  with_extras l = Raise e →
  ∃ db',
    line_extras db = (Raise e, db') ∧
    Line_id <$> db_lines db' = Line_id <$> db_lines db ∧
    (∀ x r, x ∈ pre → with_extras x = Ok r → r ∈ db_lines db') ∧
    (∀ x, x ∈ l :: post → x ∈ db_lines db') ∧
    db_stops db' = db_stops db ∧ db_stations db' = db_stations db ∧
    db_stop_lines db' = db_stop_lines db ∧
    db_station_lines db' = db_station_lines db.
Proof. apply line_extras_stops. Qed.
(** ** The rollup, continued *)

Lemma add_named_line_exact (v : option string) (stop : Stop) (db : DB) :
  (truthy_str v = true →
   ∃ l, filter (λ l, Some (Line_name l) = v) (db_lines db) = [l]) →
  ∀ p, p ∈ db_stop_lines (add_named_line v stop db).2 ↔
    p ∈ db_stop_lines db ∨
    (truthy_str v = true ∧
     ∃ ln, ln ∈ db_lines db ∧ Some (Line_name ln) = v ∧
           p = (Stop_id stop, Line_id ln)).
Proof.
  intros Hres p. unfold add_named_line.
  destruct (truthy_str v) eqn:Ht.
  - destruct Hres as [l Hl]; [ done | ].
    unfold bind, Line_objects_get, bind. rewrite Hl. cbn.
    assert (Hin : ∀ x, x ∈ db_lines db ∧ Some (Line_name x) = v ↔ x = l).
    { intros x.
      rewrite <- (list_elem_of_singleton x l), <- Hl, list_elem_of_filter.
      split; by intros [? ?]. }
    rewrite elem_of_union, elem_of_singleton. split.
    + intros [-> | Hp]; [ right | by left ]. split; [ done | ].
      exists l. by destruct (proj2 (Hin l) eq_refl).
    + intros [Hp | (_ & ln & Hln & Hname & ->)]; [ by right | left ].
      by rewrite (proj1 (Hin ln) (conj Hln Hname)).
  - cbn. split; [ by left | ]. by intros [? | [? _]].
Qed.

Lemma Station_objects_get_or_create_key (n s : string) (db db1 : DB)
    (st : Station) (created : bool) :
  Station_objects_get_or_create (Some n) s db = (Ok (st, created), db1) →
  Station_name st = n ∧ Station_slug st = Some s.
Proof.
  unfold Station_objects_get_or_create.
  destruct (filter _ (db_stations db)) as [|x [|y rest]] eqn:Hf;
    intros [= <- _ _]; [ done | ].
  assert (Hx : x ∈ filter (λ st, Station_name st = n ∧ Station_slug st = Some s)
                 (db_stations db)) by (rewrite Hf; by left).
  by apply list_elem_of_filter in Hx as [? _].
Qed.

(** One turn of the loop of [stations] for a stop with a usable entry: the
    row that is saved, the station it refers to, and the line set of the
    stop. *)
Lemma stations_body_exact (stop_lookup : gmap string (gmap string string))
    (stop : Stop) (db : DB) (cw : gmap string string) (nm : string) :
  stations_wf db →
  Stop_id stop ∈ Stop_id <$> db_stops db →
  stop_lookup !! str_opt (Stop_stop_id stop) = Some cw →
  cw !! "clean_station_name" = Some nm →
  (∀ k, k ∈ ["Line1"; "Line2"] → truthy_str (cw !! k) = true →
        ∃ l, filter (λ l, Some (Line_name l) = cw !! k) (db_lines db) = [l]) →
  ∃ db' st,
    stations_body stop_lookup stop db = (Ok (), db') ∧
    db_stops db' =
      (λ r, if bool_decide (Stop_id r = Stop_id stop)
            then rolled_stop cw (Station_id st) stop else r)
        <$> db_stops db ∧
    st ∈ db_stations db' ∧
    Station_name st = nm ∧ Station_slug st = Some (slugify nm) ∧
    (∀ x, x ∈ db_stations db → x ∈ db_stations db') ∧
    (∀ x, x ∈ db_stations db' → x ∈ db_stations db ∨ x = st) ∧
    (∀ p, p ∈ db_stop_lines db' ↔
       p ∈ db_stop_lines db ∨
       ∃ ln, ln ∈ db_lines db ∧ names_line cw ln ∧
             p = (Stop_id stop, Line_id ln)).
Proof.
  intros Hwf Hid Hcw Hnm Hres.
  rewrite stations_body_unfold. unfold getitem. rewrite Hcw. cbv zeta.
  rewrite Hnm.
  set (stop2 := set_Stop_slug _ (set_Stop_name (Some nm) stop)).
  assert (Hid2 : Stop_id stop2 = Stop_id stop) by by destruct stop.
  pose proof (add_named_line_exact (cw !! "Line1") stop2 db) as Hex1.
  destruct (add_named_line_ok (cw !! "Line1") stop2 db)
    as (db1 & Hrun1 & Hl1 & Hs1 & Hst1 & Hsl1 & Hn1 & _ & _).
  { apply Hres. by left. }
  rewrite Hrun1 in Hex1 |- *. cbn [snd] in Hex1.
  specialize (Hex1 ltac:(apply Hres; by left)).
  pose proof (add_named_line_exact (cw !! "Line2") stop2 db1) as Hex2.
  destruct (add_named_line_ok (cw !! "Line2") stop2 db1)
    as (db2 & Hrun2 & Hl2 & Hs2 & Hst2 & Hsl2 & Hn2 & _ & _).
  { rewrite Hl1. apply Hres. right. by left. }
  rewrite Hrun2 in Hex2 |- *. cbn [snd] in Hex2.
  specialize (Hex2 ltac:(rewrite Hl1; apply Hres; right; by left)).
  assert (Hwf2 : stations_wf db2).
  { unfold stations_wf. by rewrite Hst2, Hst1, Hn2, Hn1. }
  destruct (Station_objects_get_or_create_ok nm
              (slugify (force_unicode (Some nm))) db2 Hwf2)
    as (st & created & db3 & Hrun3 & Hl3 & Hs3 & Hsl3 & Hstl3 & Hwf3 & Hin3
        & Hname3 & Hmono3 & Hnew3).
  pose proof (Station_objects_get_or_create_key _ _ _ _ _ _ Hrun3)
    as [_ Hslug3].
  rewrite Hrun3. cbn [fst].
  set (stop3 := set_Stop_station (Some (Station_id st)) stop2).
  assert (Hid3 : Stop_id stop3 = Stop_id stop) by by destruct stop.
  assert (Hnm3 : Stop_name stop3 = Some nm) by by destruct stop.
  assert (Hrow : stop3 = rolled_stop cw (Station_id st) stop).
  { unfold rolled_stop. rewrite Hnm. by destruct stop. }
  unfold Stop_save. rewrite Hnm3.
  rewrite bool_decide_eq_true_2
    by (by rewrite Hid3, Hs3, Hs2, Hs1).
  set (db4 := mkDB _ _ _ _ _ _ _).
  destruct (for_Station_lines_add st
              (merge_sort Line_le
                 (filter (λ l, (Stop_id stop3, Line_id l) ∈ db_stop_lines db4)
                         (db_lines db4))) db4)
    as (db5 & -> & Hl5 & Hs5 & Hst5 & Hsl5 & Hn5 & Hstl5).
  assert (Hwf5 : stations_wf db5).
  { unfold stations_wf. rewrite Hst5, Hn5. exact Hwf3. }
  rewrite Station_save_ok; [ | by destruct Hwf5 | by rewrite Hst5 ].
  exists db5, st.
  split; [ done | ].
  split; [ by rewrite Hs5; cbn; rewrite Hid3, Hs3, Hs2, Hs1, Hrow | ].
  split; [ by rewrite Hst5 | ].
  split; [ done | ]. split; [ done | ].
  split; [ intros x Hx; rewrite Hst5; apply Hmono3;
           by rewrite Hst2, Hst1 | ].
  split.
  { intros x Hx. rewrite Hst5 in Hx.
    destruct (Hnew3 x Hx) as [Hold | ->]; [ | by right ].
    left. by rewrite Hst2, Hst1 in Hold. }
  intros p. rewrite Hsl5. cbn [db_stop_lines db4]. rewrite Hsl3.
  rewrite Hex2, Hex1, Hl1, Hid2. unfold names_line. split.
  - intros [[Hp | (Ht & ln & Hln & Hname & ->)]
           | (Ht & ln & Hln & Hname & ->)]; [ by left | right | right ].
    + exists ln. split; [ done | ]. split; [ | done ].
      exists "Line1". split; [ by left | done ].
    + exists ln. split; [ done | ]. split; [ | done ].
      exists "Line2". split; [ right; by left | done ].
  - intros [Hp | (ln & Hln & (k & Hk & Ht & Hname) & ->)]; [ by left; left | ].
    in_srids Hk.
    + left. right. split; [ done | ]. by exists ln.
    + right. split; [ done | ]. by exists ln.
Qed.

Lemma rollup_rows_init (stop_lookup : gmap string (gmap string string))
    (db : DB) :
  rollup_rows stop_lookup db [] db.
Proof.
  split; [ intros r _ Hr; by apply elem_of_nil in Hr | ].
  split; [ | intros x ?; by left ].
  intros p. split; [ by left | ].
  intros [? | (s & _ & _ & Hs & _)]; [ done | by apply elem_of_nil in Hs ].
Qed.

Lemma rollup_rows_step (stop_lookup : gmap string (gmap string string))
    (db0 db : DB) (done : list Stop) (s : Stop) :
  rollup_inv stop_lookup db0 done db →
  rollup_rows stop_lookup db0 done db →
  Stop_id s ∉ Stop_id <$> done →
  s ∈ db_stops db0 →
  resolvable stop_lookup (db_lines db0) s →
  ∃ db', stations_body stop_lookup s db = (Ok (), db') ∧
         rollup_inv stop_lookup db0 (done ++ [s]) db' ∧
         rollup_rows stop_lookup db0 (done ++ [s]) db'.
Proof.
  intros Hinv (R1 & R2 & R3) Hnew Hs Hres.
  assert (Hid0 : Stop_id s ∈ Stop_id <$> db_stops db0)
    by (by apply list_elem_of_fmap_2).
  destruct (rollup_inv_step stop_lookup db0 db done s Hinv Hnew Hid0 Hres)
    as (db' & Hrun & Hinv').
  destruct Hinv as (J1 & J2 & J3 & _).
  destruct Hres as (cw & nm & Hcw & Hnm & Hres).
  destruct (stations_body_exact stop_lookup s db cw nm J3)
    as (db'' & st & Hrun' & E1 & E2 & E3 & E4 & E5 & E6 & E7);
    [ by rewrite J2 | done | done | by rewrite J1 | ].
  rewrite Hrun in Hrun'. injection Hrun' as <-.
  exists db'. split; [ done | ]. split; [ done | ].
  assert (Hdone : ∀ i, i ∈ Stop_id <$> (done ++ [s]) ↔
                       i ∈ Stop_id <$> done ∨ i = Stop_id s).
  { intros i. rewrite fmap_app, elem_of_app. cbn.
    by rewrite list_elem_of_singleton. }
  assert (Hrows : ∀ r, r ∈ db_stops db' ↔
            (r = rolled_stop cw (Station_id st) s) ∨
            (r ∈ db_stops db ∧ Stop_id r ≠ Stop_id s)).
  { intros r. rewrite E1, list_elem_of_fmap. split.
    - intros (r1 & -> & Hr1). case_bool_decide as Heq; [ by left | by right ].
    - intros [-> | [Hr Hne]].
      + rewrite <- J2 in Hid0.
        apply list_elem_of_fmap in Hid0 as (r1 & Hid1 & Hr1).
        exists r1. split; [ | done ]. by rewrite bool_decide_eq_true_2.
      + exists r. split; [ | done ]. by rewrite bool_decide_eq_false_2. }
  split; [ | split ].
  - intros r Hr Hid. apply Hrows in Hr as [-> | [Hr Hne]].
    + exists s, cw, st. split; [ apply elem_of_app; right; by left | ].
      split; [ done | ]. split; [ done | ]. split; [ by rewrite E3 | ].
      split; [ by rewrite E4, E3 | done ].
    + apply Hdone in Hid as [Hid | Hid]; [ | done ].
      destruct (R1 r Hr Hid) as (r0 & cw0 & st0 & H1 & H2 & H3 & H4 & H5 & H6).
      exists r0, cw0, st0. split; [ apply elem_of_app; by left | ].
      split; [ done | ]. split; [ by apply E5 | done ].
  - intros p. rewrite E7, R2, J1. split.
    + intros [[Hp | (s0 & cw0 & ln & Hs0 & Hcw0 & Hln & Hnames & ->)]
             | (ln & Hln & Hnames & ->)]; [ by left | right | right ].
      * exists s0, cw0, ln. split; [ apply elem_of_app; by left | done ].
      * exists s, cw, ln. split; [ apply elem_of_app; right; by left | done ].
    + intros [Hp | (s0 & cw0 & ln & Hs0 & Hcw0 & Hln & Hnames & ->)];
        [ by left; left | ].
      apply elem_of_app in Hs0 as [Hs0 | Hs0].
      * left. right. by exists s0, cw0, ln.
      * apply list_elem_of_singleton in Hs0 as ->. right.
        rewrite Hcw in Hcw0. injection Hcw0 as <-. by exists ln.
  - intros x Hx. destruct (E6 x Hx) as [Hold | ->].
    + destruct (R3 x Hold) as [? | (r & Hr & Hid & Hst)]; [ by left | right ].
      exists r. split; [ | split; [ apply Hdone; by left | done ] ].
      apply Hrows. right. split; [ done | ].
      intros Heq. apply Hnew. by rewrite <- Heq.
    + right. exists (rolled_stop cw (Station_id st) s).
      split; [ apply Hrows; by left | ].
      split; [ apply Hdone; by right | done ].
Qed.

Lemma rollup_rows_loop (stop_lookup : gmap string (gmap string string))
    (db0 : DB) (todo done : list Stop) (db : DB) :
  rollup_inv stop_lookup db0 done db →
  rollup_rows stop_lookup db0 done db →
  NoDup (Stop_id <$> (done ++ todo)) →
  (∀ s, s ∈ todo →
     s ∈ db_stops db0 ∧ resolvable stop_lookup (db_lines db0) s) →
  ∃ db', for_ todo (stations_body stop_lookup) db = (Ok (), db') ∧
         rollup_inv stop_lookup db0 (done ++ todo) db' ∧
         rollup_rows stop_lookup db0 (done ++ todo) db'.
Proof.
  revert done db.
  induction todo as [|s todo IH]; intros done db Hinv Hrows Hnd Hall.
  - exists db. by rewrite app_nil_r.
  - assert (Hs : Stop_id s ∉ Stop_id <$> done).
    { rewrite fmap_app in Hnd. apply NoDup_app in Hnd as (_ & Hdisj & _).
      intros Hin. apply (Hdisj _ Hin). rewrite fmap_cons. by left. }
    destruct (Hall s (list_elem_of_here _ _)) as [Hin Hres].
    destruct (rollup_rows_step stop_lookup db0 db done s Hinv Hrows Hs Hin Hres)
      as (db1 & Hrun1 & Hinv1 & Hrows1).
    destruct (IH (done ++ [s]) db1 Hinv1 Hrows1) as (db' & Hrun & Hinv' & Hrows').
    { by rewrite <- app_assoc. }
    { intros s' Hs'. apply Hall. by right. }
    exists db'. split.
    + cbn [for_]. unfold bind. by rewrite Hrun1.
    + by rewrite <- app_assoc in Hinv', Hrows'.
Qed.

(** The whole run, from the state the pipeline hands to [stations]. *)
Lemma stations_run (crosswalk : list (gmap string string))
    (stop_lookup : gmap string (gmap string string)) (db : DB) :
  make_stop_lookup crosswalk = Ok stop_lookup →
  stations_wf db → db_station_lines db = ∅ →
  NoDup (Stop_id <$> db_stops db) →
  (∀ p, p ∈ db_stop_lines db → p.2 ∈ Line_id <$> db_lines db) →
  (∀ stop, stop ∈ db_stops db → resolvable stop_lookup (db_lines db) stop) →
  ∃ db' stops, stations crosswalk db = (Ok (), db') ∧
    stops ≡ₚ db_stops db ∧
    rollup_inv stop_lookup db stops db' ∧
    rollup_rows stop_lookup db stops db'.
Proof.
  intros Hlookup Hwf Hempty Hnd Hrefs Hres.
  destruct (Stop_objects_all_spec db) as (stops & Hall & Hperm).
  destruct (rollup_rows_loop stop_lookup db stops [] db)
    as (db' & Hrun & Hinv & Hrows).
  { by apply rollup_inv_init. }
  { apply rollup_rows_init. }
  { cbn. by rewrite Hperm. }
  { intros s Hs. rewrite Hperm in Hs. split; [ done | by apply Hres ]. }
  exists db', stops. split; [ | done ].
  unfold stations, bind, lift. by rewrite Hlookup, Hall.
Qed.

(** X10.  After a rollup in which every stop has a usable crosswalk entry,
    the row of every stop is the row it was with a new name, slug and
    station: the name is the clean name of its entry, the slug is the slug
    of that name followed by a dash and the [stop_id], and the station is a
    row of the station table that carries the clean name and its slug.  Key,
    [stop_id] and points are untouched. *)
Theorem rollup_renames_stops (crosswalk : list (gmap string string))
    (stop_lookup : gmap string (gmap string string)) (db : DB) :
  make_stop_lookup crosswalk = Ok stop_lookup →
  stations_wf db → db_station_lines db = ∅ →
  NoDup (Stop_id <$> db_stops db) →
  (∀ p, p ∈ db_stop_lines db → p.2 ∈ Line_id <$> db_lines db) →
  (∀ stop, stop ∈ db_stops db → resolvable stop_lookup (db_lines db) stop) →
  ∃ db', stations crosswalk db = (Ok (), db') ∧
    length (db_stops db') = length (db_stops db) ∧
    ∀ r, r ∈ db_stops db' →
      ∃ r0 cw nm st,
        r0 ∈ db_stops db ∧
        stop_lookup !! str_opt (Stop_stop_id r0) = Some cw ∧
        cw !! "clean_station_name" = Some nm ∧
        st ∈ db_stations db' ∧
        Stop_id r = Stop_id r0 ∧ Stop_stop_id r = Stop_stop_id r0 ∧
        point_4269 r = point_4269 r0 ∧ point_4326 r = point_4326 r0 ∧
        point_900913 r = point_900913 r0 ∧
        Stop_name r = Some nm ∧
        Stop_slug r =
          Some (slugify nm +:+ "-" +:+ str_opt (Stop_stop_id r0)) ∧
        Stop_station r = Some (Station_id st) ∧
        Station_name st = nm ∧ Station_slug st = Some (slugify nm).
Proof.
  intros Hlookup Hwf Hempty Hnd Hrefs Hres.
  destruct (stations_run crosswalk stop_lookup db)
    as (db' & stops & Hrun & Hperm & (_ & J2 & _) & (R1 & _)); try done.
  exists db'. split; [ done | ].
  split.
  { rewrite <- (length_fmap Stop_id (db_stops db')), J2. apply length_fmap. }
  intros r Hr.
  destruct (R1 r Hr) as (r0 & cw & st & H1 & H2 & H3 & H4 & H5 & ->).
  { rewrite Hperm, <- J2. by apply list_elem_of_fmap_2. }
  exists r0, cw, (Station_name st), st.
  split; [ by rewrite <- Hperm | ]. split; [ done | ]. split; [ done | ].
  split; [ done | ]. unfold rolled_stop. rewrite H4. cbn.
  repeat (split; [ done | ]). done.
Qed.

(** X11.  After such a rollup, two stops refer to the same station exactly
    when their crosswalk entries give them the same clean name: one station
    per clean name, shared by the stops that carry it. *)
Theorem rollup_shares_stations_by_name (crosswalk : list (gmap string string))
    (stop_lookup : gmap string (gmap string string)) (db : DB) :
  make_stop_lookup crosswalk = Ok stop_lookup →
  stations_wf db → db_station_lines db = ∅ →
  NoDup (Stop_id <$> db_stops db) →
  (∀ p, p ∈ db_stop_lines db → p.2 ∈ Line_id <$> db_lines db) →
  (∀ stop, stop ∈ db_stops db → resolvable stop_lookup (db_lines db) stop) →
  ∃ db', stations crosswalk db = (Ok (), db') ∧
    ∀ r1 r2, r1 ∈ db_stops db' → r2 ∈ db_stops db' →
      (Stop_station r1 = Stop_station r2 ↔ Stop_name r1 = Stop_name r2).
Proof.
  intros Hlookup Hwf Hempty Hnd Hrefs Hres.
  destruct (stations_run crosswalk stop_lookup db)
    as (db' & stops & Hrun & Hperm & (_ & J2 & (Hids & _ & Hkeys) & _)
        & (R1 & _)); try done.
  exists db'. split; [ done | ]. intros r1 r2 Hr1 Hr2.
  assert (Hdone : ∀ r, r ∈ db_stops db' → Stop_id r ∈ Stop_id <$> stops).
  { intros r Hr. rewrite Hperm, <- J2. by apply list_elem_of_fmap_2. }
  destruct (R1 r1 Hr1 (Hdone _ Hr1))
    as (a0 & cwa & sta & _ & _ & Ha3 & Ha4 & Ha5 & ->).
  destruct (R1 r2 Hr2 (Hdone _ Hr2))
    as (b0 & cwb & stb & _ & _ & Hb3 & Hb4 & Hb5 & ->).
  unfold rolled_stop. cbn. rewrite Ha4, Hb4. split.
  - intros [= Hid].
    assert (sta = stb)
      by (by apply (NoDup_fmap_eq Station_id (db_stations db'))).
    by subst.
  - intros [= Hname].
    assert (sta = stb); [ | by subst ].
    apply (NoDup_fmap_eq Station_key (db_stations db')); try done.
    unfold Station_key. by rewrite Ha5, Hb5, Hname.
Qed.

(** X12.  After such a rollup, the line set of a stop is the line set it
    had together with the lines its crosswalk entry names under [Line1] and
    [Line2], and nothing else. *)
Theorem rollup_links_named_lines (crosswalk : list (gmap string string))
    (stop_lookup : gmap string (gmap string string)) (db : DB) :
  make_stop_lookup crosswalk = Ok stop_lookup →
  stations_wf db → db_station_lines db = ∅ →
  NoDup (Stop_id <$> db_stops db) →
  (∀ p, p ∈ db_stop_lines db → p.2 ∈ Line_id <$> db_lines db) →
  (∀ stop, stop ∈ db_stops db → resolvable stop_lookup (db_lines db) stop) →
  ∃ db', stations crosswalk db = (Ok (), db') ∧
    db_lines db' = db_lines db ∧
    ∀ r0 cw l, r0 ∈ db_stops db →
      stop_lookup !! str_opt (Stop_stop_id r0) = Some cw →
      ((Stop_id r0, l) ∈ db_stop_lines db' ↔
       (Stop_id r0, l) ∈ db_stop_lines db ∨
       ∃ ln, ln ∈ db_lines db ∧ names_line cw ln ∧ l = Line_id ln).
Proof.
  intros Hlookup Hwf Hempty Hnd Hrefs Hres.
  destruct (stations_run crosswalk stop_lookup db)
    as (db' & stops & Hrun & Hperm & (J1 & _) & (_ & R2 & _)); try done.
  exists db'. split; [ done | ]. split; [ done | ].
  intros r0 cw l Hr0 Hcw. rewrite R2. split.
  - intros [Hp | (s & cw0 & ln & Hs & Hcw0 & Hln & Hnames & [= Hid ->])];
      [ by left | right ].
    rewrite Hperm in Hs.
    assert (r0 = s) by (by apply (NoDup_fmap_eq Stop_id (db_stops db))).
    subst s. rewrite Hcw in Hcw0. injection Hcw0 as <-. by exists ln.
  - intros [Hp | (ln & Hln & Hnames & ->)]; [ by left | right ].
    exists r0, cw, ln. by rewrite Hperm.
Qed.

Lemma sum_list_indicator (sts : list Station) (k : Z) :
  NoDup (Station_id <$> sts) → k ∈ Station_id <$> sts →
  sum_list ((λ st, if decide (Some k = Some (Station_id st))
                   then 1%nat else 0%nat) <$> sts) = 1%nat.
Proof.
  induction sts as [|st sts IH]; intros Hnd Hk;
    [ by apply elem_of_nil in Hk | ].
  rewrite fmap_cons in Hnd, Hk. apply NoDup_cons in Hnd as [Hst Hnd].
  rewrite fmap_cons. cbn [sum_list].
  destruct (decide (Some k = Some (Station_id st))) as [[= ->] | Hne].
  - rewrite (list_fmap_ext _ (λ _, 0%nat) sts).
    + clear. induction sts as [|x sts IH]; [ done | ]. by rewrite fmap_cons.
    + intros i x Hx. destruct (decide _) as [[= Heq] | ]; [ | done ].
      destruct Hst. rewrite Heq. apply list_elem_of_fmap_2.
      apply list_elem_of_lookup. eauto.
  - apply elem_of_cons in Hk as [-> | Hk]; [ done | ]. by rewrite IH.
Qed.

(** The stop counts of the stations of a table in which every stop refers
    to a station add up to the number of stops. *)
Lemma stop_counts_add_up (sts : list Station) (rs : list Stop) :
  NoDup (Station_id <$> sts) →
  (∀ r, r ∈ rs → ∃ k, Stop_station r = Some k ∧ k ∈ Station_id <$> sts) →
  sum_list ((λ st, length (filter (λ r, Stop_station r = Some (Station_id st))
                                  rs)) <$> sts) = length rs.
Proof.
  intros Hnd. induction rs as [|r rs IH]; intros Hall.
  - cbn. clear. induction sts as [|x sts IH]; [ done | ].
    by rewrite fmap_cons.
  - destruct (Hall r (list_elem_of_here _ _)) as (k & Hk & Hin).
    assert (Hsplit : ∀ sts' : list Station,
              sum_list ((λ st, length (filter
                           (λ r, Stop_station r = Some (Station_id st))
                           (r :: rs))) <$> sts') =
              (sum_list ((λ st, if decide (Some k = Some (Station_id st))
                                then 1%nat else 0%nat) <$> sts') +
               sum_list ((λ st, length (filter
                           (λ r, Stop_station r = Some (Station_id st))
                           rs)) <$> sts'))%nat).
    { intros sts'. induction sts' as [|st sts' IHs]; [ done | ].
      rewrite !fmap_cons. cbn [sum_list]. rewrite IHs.
      rewrite filter_cons, Hk.
      unfold id.
      destruct (decide (Some k = Some (Station_id st))); cbn [length]; lia. }
    rewrite Hsplit, sum_list_indicator by done.
    rewrite IH by (intros y Hy; apply Hall; by right). done.
Qed.

(** X13.  After a rollup that started without stations, every station has
    at least one stop, and the stop counts of the stations add up to the
    number of stops. *)
Theorem rollup_stop_counts (crosswalk : list (gmap string string))
    (stop_lookup : gmap string (gmap string string)) (db : DB) :
  make_stop_lookup crosswalk = Ok stop_lookup →
  db_stations db = [] → db_station_lines db = ∅ →
  NoDup (Stop_id <$> db_stops db) →
  (∀ p, p ∈ db_stop_lines db → p.2 ∈ Line_id <$> db_lines db) →
  (∀ stop, stop ∈ db_stops db → resolvable stop_lookup (db_lines db) stop) →
  ∃ db', stations crosswalk db = (Ok (), db') ∧
    (∀ st, st ∈ db_stations db' →
       ∃ n, (Station_get_stop_count st db').1 = Ok n ∧ (1 ≤ n)%nat) ∧
    sum_list ((λ st, match (Station_get_stop_count st db').1 with
                     | Ok n => n
                     | Raise _ => 0%nat
                     end) <$> db_stations db') = length (db_stops db).
Proof.
  intros Hlookup Hnone Hempty Hnd Hrefs Hres.
  assert (Hwf : stations_wf db).
  { unfold stations_wf. rewrite Hnone.
    split; [ apply NoDup_nil_2 | ]. split; [ | apply NoDup_nil_2 ].
    intros st Hst. by apply elem_of_nil in Hst. }
  destruct (stations_run crosswalk stop_lookup db)
    as (db' & stops & Hrun & Hperm & (_ & J2 & (Hids & _) & _ & J5 & _)
        & (_ & _ & R3)); try done.
  assert (Hdone : ∀ r, r ∈ db_stops db' → Stop_id r ∈ Stop_id <$> stops).
  { intros r Hr. rewrite Hperm, <- J2. by apply list_elem_of_fmap_2. }
  exists db'. split; [ done | ]. split.
  - intros st Hst. eexists. split; [ reflexivity | ].
    destruct (R3 st Hst) as [Hold | (r & Hr & _ & Hstation)].
    { rewrite Hnone in Hold. by apply elem_of_nil in Hold. }
    assert (Hin : r ∈ filter (λ r, Stop_station r = Some (Station_id st))
                    (db_stops db')) by (by apply list_elem_of_filter).
    destruct (filter _ (db_stops db')); [ by apply elem_of_nil in Hin | ].
    cbn. lia.
  - cbn [Station_get_stop_count fst].
    rewrite stop_counts_add_up; [ | done | ].
    + rewrite <- (length_fmap Stop_id (db_stops db')), J2. apply length_fmap.
    + intros r Hr. apply J5; [ done | by apply Hdone ].
Qed.

(** ** The crosswalk lookup *)

(** The pairs the generator of [stations] yields, folded into a dictionary:
    a key is looked up in the last row that carries it. *)
Lemma stop_lookup_pairs (crosswalk : list (gmap string string)) :
  (∀ row, row ∈ crosswalk → is_Some (row !! "stop_id")) →
  ∃ pairs,
    map_result (λ i, match getitem i "stop_id" with
                     | Ok k => Ok (k, i)
                     | Raise e => Raise e
                     end) crosswalk = Ok pairs ∧
    ∀ (d : gmap string (gmap string string)) (k : string),
      foldl (λ d kv, <[kv.1 := kv.2]> d) d pairs !! k =
        match last (filter (λ row, row !! "stop_id" = Some k) crosswalk) with
        | Some row => Some row
        | None => d !! k
        end.
Proof.
  induction crosswalk as [|row cw IH]; intros Hall.
  - exists []. split; [ done | ]. intros d k. done.
  - destruct (Hall row (list_elem_of_here _ _)) as [k0 Hk0].
    destruct IH as (pairs & Hmap & Hfold);
      [ intros r Hr; apply Hall; by right | ].
    exists ((k0, row) :: pairs). split.
    + cbn [map_result]. unfold getitem at 1. by rewrite Hk0, Hmap.
    + intros d k. cbn [foldl fst snd]. rewrite Hfold, filter_cons, Hk0.
      destruct (decide (Some k0 = Some k)) as [[= ->] | Hne].
      * rewrite last_cons, lookup_insert_eq. by destruct (last _).
      * rewrite lookup_insert_ne; [ done | ]. by intros ->.
Qed.

(** X14.  The lookup [stations] builds from the crosswalk file: when every
    row has a [stop_id], each [stop_id] is mapped to the last row that
    carries it, so of two rows for one stop the later one is used and the
    earlier one is ignored; a row without [stop_id] makes the construction
    raise [KeyError]. *)
Theorem stop_lookup_last_row_wins (crosswalk : list (gmap string string)) :
  ((∀ row, row ∈ crosswalk → is_Some (row !! "stop_id")) →
   ∃ stop_lookup, make_stop_lookup crosswalk = Ok stop_lookup ∧
     ∀ k, stop_lookup !! k =
            last (filter (λ row, row !! "stop_id" = Some k) crosswalk)) ∧
  ((∃ row, row ∈ crosswalk ∧ row !! "stop_id" = None) →
   make_stop_lookup crosswalk = Raise (KeyError "stop_id")).
Proof.
  split.
  - intros Hall. destruct (stop_lookup_pairs crosswalk Hall)
      as (pairs & Hmap & Hfold).
    exists (dict pairs). split; [ unfold make_stop_lookup; by rewrite Hmap | ].
    intros k. unfold dict. rewrite Hfold, lookup_empty. by destruct (last _).
  - intros (row & Hrow & Hnone). unfold make_stop_lookup.
    induction crosswalk as [|r cw IH]; [ by apply elem_of_nil in Hrow | ].
    cbn [map_result]. unfold getitem at 1.
    destruct (r !! "stop_id") as [k|] eqn:Hk; [ | done ].
    apply elem_of_cons in Hrow as [-> | Hrow];
      [ by rewrite Hnone in Hk | ].
    specialize (IH Hrow). by destruct (map_result _ cw).
Qed.

(** ** The rollup and lines that do not exist *)

Lemma add_named_line_lines (v : option string) (stop : Stop) (db : DB) :
  db_lines (add_named_line v stop db).2 = db_lines db.
Proof.
  unfold add_named_line. destruct (truthy_str v); [ | done ].
  unfold bind, Line_objects_get, bind. cbn [fst snd].
  by destruct (filter _ (db_lines db)) as [|l [|l' rest]].
Qed.

Lemma add_named_line_unknown (v : option string) (stop : Stop) (db : DB) :
  truthy_str v = true →
  (∀ l, l ∈ db_lines db → Some (Line_name l) ≠ v) →
  add_named_line v stop db = (Raise (DoesNotExist "Line"), db).
Proof.
  intros Ht Hnone. unfold add_named_line. rewrite Ht.
  unfold bind, Line_objects_get, bind. by rewrite filter_none.
Qed.

Lemma add_named_line_known (v : option string) (stop : Stop) (db : DB)
    (l : Line) :
  truthy_str v = true →
  filter (λ l, Some (Line_name l) = v) (db_lines db) = [l] →
  add_named_line v stop db =
    (Ok (),
     mkDB (db_lines db) (db_stops db) (db_stations db)
          ({[ (Stop_id stop, Line_id l) ]} ∪ db_stop_lines db)
          (db_station_lines db)
          (db_next_line_id db) (db_next_station_id db)).
Proof.
  intros Ht Hl. unfold add_named_line. rewrite Ht.
  unfold bind, Line_objects_get, bind. by rewrite Hl.
Qed.

(** [stations] never writes to the line table. *)
Lemma stations_body_lines (stop_lookup : gmap string (gmap string string))
    (stop : Stop) (db : DB) :
  db_lines (stations_body stop_lookup stop db).2 = db_lines db.
Proof.
  rewrite stations_body_unfold.
  destruct (getitem _ _) as [cw|e]; [ | done ]. cbv zeta.
  set (stop2 := set_Stop_slug _ _).
  pose proof (add_named_line_lines (cw !! "Line1") stop2 db) as L1.
  destruct (add_named_line (cw !! "Line1") stop2 db) as [[[]|e] db1];
    cbn [snd] in L1; [ | done ].
  pose proof (add_named_line_lines (cw !! "Line2") stop2 db1) as L2.
  destruct (add_named_line (cw !! "Line2") stop2 db1) as [[[]|e] db2];
    cbn [snd] in L2; [ | cbn [snd]; by rewrite L2, L1 ].
  assert (L3 : ∀ n s, db_lines (Station_objects_get_or_create n s db2).2 =
                      db_lines db2).
  { intros n s. unfold Station_objects_get_or_create.
    destruct n as [n|]; [ | done ].
    by destruct (filter _ (db_stations db2)) as [|x [|y rest]]. }
  specialize (L3 (cw !! "clean_station_name")
                 (slugify (force_unicode (cw !! "clean_station_name")))).
  destruct (Station_objects_get_or_create _ _ db2) as [[sc|e] db3];
    cbn [snd] in L3; [ | cbn [snd]; by rewrite L3, L2, L1 ].
  set (stop3 := set_Stop_station _ stop2).
  assert (L4 : db_lines (Stop_save stop3 db3).2 = db_lines db3).
  { unfold Stop_save. by destruct (Stop_name stop3). }
  destruct (Stop_save stop3 db3) as [[[]|e] db4];
    cbn [snd] in L4; [ | cbn [snd]; by rewrite L4, L3, L2, L1 ].
  pose proof (for_invariant (λ a b : DB, db_lines b = db_lines a)
                (λ line, Station_lines_add sc.1 line)) as L5.
  specialize (L5 ltac:(done)
                 ltac:(intros a b c Hab Hbc; exact (eq_trans Hbc Hab))
                 ltac:(done)
                 (merge_sort Line_le
                    (filter (λ l, (Stop_id stop3, Line_id l)
                                    ∈ db_stop_lines db4) (db_lines db4)))
                 db4).
  destruct (for_ _ _ db4) as [[[]|e] db5];
    cbn [snd] in L5; [ | cbn [snd]; by rewrite L5, L4, L3, L2, L1 ].
  unfold Station_save. cbn [snd db_lines]. by rewrite L5, L4, L3, L2, L1.
Qed.

(** X15.  When the crosswalk entry of a stop of the table names, under
    [Line1] or [Line2], a line that is not in the line table, [stations]
    does not return normally, whatever the other stops and entries are. *)
Theorem rollup_fails_on_unknown_line (crosswalk : list (gmap string string))
    (stop_lookup : gmap string (gmap string string)) (db : DB) (stop : Stop)
    (cw : gmap string string) (k : string) :
  make_stop_lookup crosswalk = Ok stop_lookup →
  stop ∈ db_stops db →
  stop_lookup !! str_opt (Stop_stop_id stop) = Some cw →
  k ∈ ["Line1"; "Line2"] → truthy_str (cw !! k) = true →
  (∀ l, l ∈ db_lines db → Some (Line_name l) ≠ cw !! k) →
  ∃ e db', stations crosswalk db = (Raise e, db').
Proof.
  intros Hlookup Hstop Hcw Hk Ht Hnone.
  destruct (Stop_objects_all_spec db) as (stops & Hall & Hperm).
  unfold stations, bind, lift. rewrite Hlookup, Hall.
  rewrite <- Hperm in Hstop. clear Hall Hperm.
  remember (db_lines db) as L eqn:HL. revert db HL.
  induction stops as [|s stops IH]; intros db HL;
    [ by apply elem_of_nil in Hstop | ].
  cbn [for_]. unfold bind.
  pose proof (stations_body_lines stop_lookup s db) as Hlines.
  destruct (stations_body stop_lookup s db) as [[[]|e] db1] eqn:Hbody;
    [ | by eauto ].
  cbn [snd] in Hlines.
  apply elem_of_cons in Hstop as [-> | Hstop];
    [ | apply IH; [ done | by rewrite Hlines ] ].
  exfalso. rewrite stations_body_unfold in Hbody. unfold getitem in Hbody.
  rewrite Hcw in Hbody. cbv zeta in Hbody. subst L.
  set (stop2 := set_Stop_slug _ _) in Hbody.
  in_srids Hk.
  - by rewrite add_named_line_unknown in Hbody.
  - pose proof (add_named_line_lines (cw !! "Line1") stop2 db) as L1.
    destruct (add_named_line (cw !! "Line1") stop2 db) as [[[]|e] db2];
      cbn [snd] in L1; [ | done ].
    by rewrite add_named_line_unknown in Hbody by (by rewrite ?L1).
Qed.

(** X16.  [stations] does not undo what it has done.  When the loop
    reaches a stop whose entry names an existing line under [Line1] and a
    line that does not exist under [Line2], it raises [DoesNotExist]; by
    then the stop has been attached to the first line, while its row has
    not been saved (no new name, slug or station) and no station has been
    made for it. *)
Theorem rollup_unknown_second_line (crosswalk : list (gmap string string))
    (stop_lookup : gmap string (gmap string string)) (db : DB)
    (pre post : list Stop) (stop : Stop) (cw : gmap string string)
    (l1 : Line) :
  make_stop_lookup crosswalk = Ok stop_lookup →
  stations_wf db → db_station_lines db = ∅ →
  NoDup (Stop_id <$> db_stops db) →
  (∀ p, p ∈ db_stop_lines db → p.2 ∈ Line_id <$> db_lines db) →
  (Stop_objects_all db).1 = Ok (pre ++ stop :: post) →
  (∀ s, s ∈ pre → resolvable stop_lookup (db_lines db) s) →
  stop_lookup !! str_opt (Stop_stop_id stop) = Some cw →
  truthy_str (cw !! "Line1") = true →
  filter (λ l, Some (Line_name l) = cw !! "Line1") (db_lines db) = [l1] →
  truthy_str (cw !! "Line2") = true →
  (∀ l, l ∈ db_lines db → Some (Line_name l) ≠ cw !! "Line2") →
  ∃ db2,
    stations crosswalk db = (Raise (DoesNotExist "Line"), db2) ∧
    stop ∈ db_stops db2 ∧
    (∀ l, (Stop_id stop, l) ∈ db_stop_lines db2 ↔
          (Stop_id stop, l) ∈ db_stop_lines db ∨ l = Line_id l1) ∧
    (∀ x, x ∈ db_stations db2 →
       x ∈ db_stations db ∨
       ∃ s cw', s ∈ pre ∧
                stop_lookup !! str_opt (Stop_stop_id s) = Some cw' ∧
                cw' !! "clean_station_name" = Some (Station_name x)).
Proof.
  intros Hlookup Hwf Hempty Hnd Hrefs Hall Hres Hcw Ht1 Hl1 Ht2 Hnone.
  destruct (Stop_objects_all_spec db) as (stops & Hall' & Hperm).
  rewrite Hall' in Hall. cbn in Hall. injection Hall as ->.
  assert (Hnd' : NoDup (Stop_id <$> (pre ++ stop :: post)))
    by (by rewrite Hperm).
  assert (Hin : ∀ s, s ∈ pre ++ stop :: post → s ∈ db_stops db)
    by (intros s Hs; by rewrite <- Hperm).
  destruct (rollup_rows_loop stop_lookup db pre [] db)
    as (db1 & Hrun & (J1 & J2 & J3 & J4 & J5 & J6 & J7 & J8 & J9)
        & (_ & R2 & _)).
  { by apply rollup_inv_init. }
  { apply rollup_rows_init. }
  { cbn. rewrite fmap_app in Hnd'. by apply NoDup_app in Hnd' as (? & _). }
  { intros s Hs. split; [ | by apply Hres ].
    apply Hin, elem_of_app. by left. }
  cbn [app] in *.
  assert (Hstop : Stop_id stop ∉ Stop_id <$> pre).
  { rewrite fmap_app in Hnd'. apply NoDup_app in Hnd' as (_ & Hdisj & _).
    intros Hpre. apply (Hdisj _ Hpre). rewrite fmap_cons. by left. }
  set (db2 := mkDB (db_lines db1) (db_stops db1) (db_stations db1)
                ({[ (Stop_id stop, Line_id l1) ]} ∪ db_stop_lines db1)
                (db_station_lines db1)
                (db_next_line_id db1) (db_next_station_id db1)).
  assert (Hbody : stations_body stop_lookup stop db1 =
                    (Raise (DoesNotExist "Line"), db2)).
  { rewrite stations_body_unfold. unfold getitem. rewrite Hcw. cbv zeta.
    set (stop2 := set_Stop_slug _ _).
    assert (Hid2 : Stop_id stop2 = Stop_id stop) by by destruct stop.
    rewrite (add_named_line_known _ _ _ l1) by (by rewrite ?J1).
    rewrite add_named_line_unknown by (by rewrite ?J1).
    by rewrite Hid2. }
  exists db2. split; [ | split; [ | split ] ].
  - unfold stations, bind, lift. rewrite Hlookup, Hall'.
    rewrite for_app, Hrun. cbn [for_]. unfold bind. by rewrite Hbody.
  - cbn. apply J7; [ | done ]. apply Hin, elem_of_app. right. by left.
  - intros l. cbn. rewrite elem_of_union, elem_of_singleton, R2. split.
    + intros [[= ->] | [Hp | (s & cw0 & ln & Hs & _ & _ & _ & [= Hid _])]];
        [ by right | by left | ].
      destruct Hstop. rewrite Hid. by apply list_elem_of_fmap_2.
    + intros [Hp | ->]; [ right; by left | by left ].
  - done.
Qed.

(** ** The whole load *)

Lemma for_Station_delete (dels : list Station) (db : DB) :
  ∃ db', for_ dels Station_delete db = (Ok (), db') ∧
    db_lines db' = db_lines db ∧
    db_next_line_id db' = db_next_line_id db ∧
    db_next_station_id db' = db_next_station_id db ∧
    db_stations db' =
      filter (λ st, Station_id st ∉ Station_id <$> dels) (db_stations db) ∧
    db_stop_lines db' ⊆ db_stop_lines db ∧
    db_station_lines db' ⊆ db_station_lines db.
Proof.
  revert db. induction dels as [|d dels IH]; intros db.
  - exists db. repeat (split; [ done | ]). split; [ | done ].
    symmetry. apply filter_all. intros x _. apply not_elem_of_nil.
  - cbn [for_]. unfold bind. cbn [Station_delete].
    destruct (IH (Station_delete d db).2)
      as (db' & Hrun & H1 & H2 & H3 & H4 & H5 & H6).
    exists db'. split; [ exact Hrun | ]. cbn in *.
    repeat (split; [ done | ]).
    split; [ | split ].
    + rewrite H4, list_filter_filter. apply list_filter_iff. intros x.
      rewrite not_elem_of_cons. split; by intros [? ?].
    + intros p Hp. apply H5 in Hp. by apply elem_of_filter in Hp as [_ ?].
    + intros p Hp. apply H6 in Hp. by apply elem_of_filter in Hp as [_ ?].
Qed.

Lemma for_Stop_delete (dels : list Stop) (db : DB) :
  ∃ db', for_ dels Stop_delete db = (Ok (), db') ∧
    db_lines db' = db_lines db ∧
    db_stations db' = db_stations db ∧
    db_next_line_id db' = db_next_line_id db ∧
    db_next_station_id db' = db_next_station_id db ∧
    db_stops db' =
      filter (λ r, Stop_id r ∉ Stop_id <$> dels) (db_stops db) ∧
    db_stop_lines db' ⊆ db_stop_lines db ∧
    db_station_lines db' ⊆ db_station_lines db.
Proof.
  revert db. induction dels as [|d dels IH]; intros db.
  - exists db. repeat (split; [ done | ]). split; [ | done ].
    symmetry. apply filter_all. intros x _. apply not_elem_of_nil.
  - cbn [for_]. unfold bind. cbn [Stop_delete].
    destruct (IH (Stop_delete d db).2)
      as (db' & Hrun & H1 & H2 & H3 & H4 & H5 & H6 & H7).
    exists db'. split; [ exact Hrun | ]. cbn in *.
    repeat (split; [ done | ]).
    split; [ | split; [ | done ] ].
    + rewrite H5, list_filter_filter. apply list_filter_iff. intros x.
      rewrite not_elem_of_cons. split; by intros [? ?].
    + intros p Hp. apply H6 in Hp. by apply elem_of_filter in Hp as [_ ?].
Qed.

Lemma for_Line_delete_rel (dels : list Line) (db : DB) :
  ∃ db', for_ dels Line_delete db = (Ok (), db') ∧
    db_stops db' = db_stops db ∧
    db_stations db' = db_stations db ∧
    db_next_station_id db' = db_next_station_id db ∧
    (∀ p, p ∈ db_stop_lines db' ↔
          p ∈ db_stop_lines db ∧ p.2 ∉ Line_id <$> dels) ∧
    (∀ p, p ∈ db_station_lines db' ↔
          p ∈ db_station_lines db ∧ p.2 ∉ Line_id <$> dels).
Proof.
  revert db. induction dels as [|d dels IH]; intros db.
  - exists db. repeat (split; [ done | ]).
    split; intros p; (split; [ | by intros [? _] ]);
      intros Hp; (split; [ done | apply not_elem_of_nil ]).
  - cbn [for_]. unfold bind. cbn [Line_delete].
    destruct (IH (Line_delete d db).2)
      as (db' & Hrun & H1 & H2 & H3 & H4 & H5).
    exists db'. split; [ exact Hrun | ]. cbn in *.
    repeat (split; [ done | ]).
    split; intros p; rewrite ?H4, ?H5, elem_of_filter, not_elem_of_cons;
      (split; [ by intros [[? ?] ?] | by intros [? [? ?]] ]).
Qed.

Lemma filter_all_gone {A B} `{EqDecision B} (f : A → B) (dels l : list A) :
  dels ≡ₚ l → filter (λ x, f x ∉ f <$> dels) l = [].
Proof.
  intros Hperm. apply filter_none. intros x Hx Hnot. apply Hnot.
  rewrite Hperm. by apply list_elem_of_fmap_2.
Qed.

(** X17.  [all] empties the three tables before it loads anything: on a
    database whose line sets refer to lines of the line table, a run of
    [all] is a run of the five loading steps on empty tables and empty line
    sets.  What the tables held does not matter to the result; the key
    sequences go on from where they were. *)
Theorem all_reloads_from_empty_tables
    (crosswalk : list (gmap string string)) (db : DB) :
  line_refs_ok db →
  all crosswalk db =
    load_pipeline crosswalk
      (mkDB [] [] [] ∅ ∅ (db_next_line_id db) (db_next_station_id db)).
Proof.
  intros [Hr1 Hr2]. unfold all, bind.
  cbn [Station_objects_all].
  destruct (for_Station_delete (merge_sort Station_le (db_stations db)) db)
    as (db1 & -> & A1 & A2 & A3 & A4 & A5 & A6).
  rewrite (filter_all_gone Station_id) in A4
    by apply merge_sort_Permutation.
  cbn [Stop_objects_all].
  destruct (for_Stop_delete (merge_sort stop_id_le (db_stops db1)) db1)
    as (db2 & -> & B1 & B2 & B3 & B4 & B5 & B6 & B7).
  rewrite (filter_all_gone Stop_id) in B5 by apply merge_sort_Permutation.
  cbn [Line_objects_all].
  destruct (for_Line_delete (merge_sort Line_le (db_lines db2)) db2)
    as (db3 & Hrun & C1 & C2).
  destruct (for_Line_delete_rel (merge_sort Line_le (db_lines db2)) db2)
    as (db3' & Hrun' & D1 & D2 & D3 & D4 & D5).
  rewrite Hrun in Hrun'. injection Hrun' as <-. rewrite Hrun.
  rewrite (filter_all_gone Line_id) in C1 by apply merge_sort_Permutation.
  f_equal. destruct db3 as [ls ss sts sl stl nl ns]. cbn in *.
  assert (Hsl : sl = ∅).
  { apply elem_of_equiv_empty_L. intros p Hp. apply D4 in Hp as [Hp Hnot].
    apply Hnot. rewrite merge_sort_Permutation, B1, A1.
    by apply Hr1, A5, B6. }
  assert (Hstl : stl = ∅).
  { apply elem_of_equiv_empty_L. intros p Hp. apply D5 in Hp as [Hp Hnot].
    apply Hnot. rewrite merge_sort_Permutation, B1, A1.
    by apply Hr2, A6, B7. }
  subst. f_equal; congruence.
Qed.

(** ** The steps of the load, in sequence and repeated *)

(** A run of [fix_line_dupes] in which every union succeeds and can be
    stored. *)
Lemma fix_line_dupes_ok (db : DB) :
  lines_wf db →
  (∀ n, (1 < group_size n db)%nat → union_storable n db) →
  ∃ db', fix_line_dupes db = (Ok (), db') ∧ lines_wf db' ∧
    (∀ n, (group_size n db ≤ 1)%nat → named n db' = named n db) ∧
    (∀ n, (1 < group_size n db)%nat → consolidated db db' n).
Proof.
  intros Hwf Hunion.
  destruct (dupe_query_spec db) as (ds & Hq & Hnd & Hds).
  destruct (fix_line_dupes_loop ds db Hwf Hnd)
    as (db' & Hrun & Hwf' & Hnext & Hkeep & Hcons).
  { intros d Hd.
    assert (Hsize : (1 < group_size d.1 db)%nat)
      by (apply Hds; by apply list_elem_of_fmap_2).
    split; [ apply group_size_pos; lia | by apply Hunion ]. }
  exists db'. split; [ | split; [ done | split ] ].
  - unfold fix_line_dupes, bind. by rewrite Hq.
  - intros n Hn. apply Hkeep. rewrite Hds. lia.
  - intros n Hn. apply Hds in Hn.
    apply list_elem_of_fmap in Hn as (d & -> & Hd). by apply Hcons.
Qed.

Lemma named_completed (n : string) (ls : list Line) :
  filter (λ l, Line_name l = n) (completed <$> ls) =
    completed <$> filter (λ l, Line_name l = n) ls.
Proof.
  induction ls as [|x ls IH]; [ done | ].
  rewrite fmap_cons, !filter_cons, IH.
  destruct (completed_id x) as [_ ->].
  by destruct (decide (Line_name x = n)).
Qed.

(** The extras of a line do not depend on its key. *)
Lemma with_extras_created (i j : Z) (n : string) (g : geom_value) (r : Line) :
  with_extras (created_line i n g) = Ok r →
  ∃ r', with_extras (created_line j n g) = Ok r'.
Proof.
  intros H. apply with_extras_Ok in H
    as (g0 & a & b & c & sa & sb & sc & sd & Hg & Hacc & Ha & Hb & Hc &
        Hsa & Hsb & Hsc & Hsd & Hall & _).
  cbn in Hg. subst g. unfold with_extras.
  cbn [created_line linestring_2229 Line_id Line_name].
  rewrite Hacc, Ha, Hb, Hc. cbn [and_then].
  rewrite Hsa, Hsb, Hsc, Hsd. cbn [and_then]. rewrite Hall. eauto.
Qed.

(** X18.  The two steps [fix_line_dupes(); line_extras()] of [all] in
    sequence.  On a line table with unique keys, when the union of every
    group of duplicates succeeds with a geometry, and the extras can be
    computed for that union and for every line that shares its name with no
    other (the library calls return and what they return can be stored),
    both steps return, and afterwards every name is held by one row with
    the slug of the name and all four full-resolution fields set: the
    canonical geometry is the union of the group where the name was
    duplicated and the geometry of the line where it was not, and the other
    three fields are its transforms. *)
Theorem consolidated_lines_get_extras (db : DB) :
  lines_wf db →
  (∀ l, l ∈ db_lines db → (group_size (Line_name l) db ≤ 1)%nat →
     ∃ r, with_extras l = Ok r) →
  (∀ n, (1 < group_size n db)%nat →
     ∃ g r, unionagg (canonical_geoms n db) = Ok (Some g) ∧
            with_extras (created_line 0 n (Some g)) = Ok r) →
  ∃ db2, (fix_line_dupes ;;; line_extras) db = (Ok (), db2) ∧
    ∀ n, (0 < group_size n db)%nat →
      ∃ r g a b c, named n db2 = [r] ∧
        Line_slug r = Some (slugify n) ∧
        linestring_2229 r = Some g ∧
        transform 4269 g = Ok a ∧ linestring_4269 r = Some a ∧
        transform 4326 g = Ok b ∧ linestring_4326 r = Some b ∧
        transform 900913 g = Ok c ∧ linestring_900913 r = Some c ∧
        if decide (1 < group_size n db)%nat
        then unionagg (canonical_geoms n db) = Ok (Some g)
        else canonical_geoms n db = [Some g].
Proof.
  intros Hwf Hgeo Hunion.
  destruct (fix_line_dupes_ok db Hwf)
    as (db1 & Hrun1 & Hwf1 & Hkeep & Hcons).
  { intros n Hn. destruct (Hunion n Hn) as (g & r & Hg & Hr).
    exists (Some g). split; [ done | ].
    apply with_extras_Ok in Hr
      as (g0 & a & b & c & sa & sb & sc & sd & Hg0 & Hacc & _).
    cbn in Hg0. by injection Hg0 as ->. }
  assert (Hgeo1 : ∀ l, l ∈ db_lines db1 → ∃ r, with_extras l = Ok r).
  { intros l Hl.
    assert (Hin : l ∈ named (Line_name l) db1) by (by apply named_elem).
    destruct (decide (1 < group_size (Line_name l) db)%nat) as [Hdup | Hone].
    - destruct (Hcons _ Hdup) as (r & u & Hr & Hu & Hcr & _).
      destruct (Hunion _ Hdup) as (g & r0 & Hg & Hr0). rewrite Hg in Hu.
      injection Hu as <-. rewrite Hr in Hin.
      apply list_elem_of_singleton in Hin as ->. rewrite Hcr.
      by apply (with_extras_created 0 _ _ _ r0).
    - rewrite Hkeep in Hin by lia. apply named_elem in Hin as [_ Hin].
      apply Hgeo; [ done | lia ]. }
  pose proof (line_extras_run db1 (proj1 Hwf1) Hgeo1) as Hrun2.
  eexists. split; [ unfold bind; rewrite Hrun1; exact Hrun2 | ].
  intros n Hn. unfold named at 1. cbn [db_lines].
  rewrite named_completed. fold (named n db1).
  assert (Hrow : ∀ l g, l ∈ db_lines db1 → Line_name l = n →
            linestring_2229 l = Some g →
            ∃ a b c,
              Line_slug (completed l) = Some (slugify n) ∧
              linestring_2229 (completed l) = Some g ∧
              transform 4269 g = Ok a ∧
              linestring_4269 (completed l) = Some a ∧
              transform 4326 g = Ok b ∧
              linestring_4326 (completed l) = Some b ∧
              transform 900913 g = Ok c ∧
              linestring_900913 (completed l) = Some c).
  { intros l g Hl Hname Hg. destruct (Hgeo1 l Hl) as [r Hr].
    unfold completed. rewrite Hr.
    apply with_extras_Ok in Hr
      as (g0 & a & b & c & sa & sb & sc & sd & Hg0 & _ & Ha & Hb & Hc &
          _ & _ & _ & _ & _ & ->).
    rewrite Hg in Hg0. injection Hg0 as <-. rewrite Hname.
    exists a, b, c. done. }
  destruct (decide (1 < group_size n db)%nat) as [Hdup | Hone].
  - destruct (Hcons _ Hdup) as (r & u & Hr & Hu & Hcr & _).
    destruct (Hunion _ Hdup) as (g & r0 & Hg & Hr0). rewrite Hg in Hu.
    injection Hu as <-. rewrite Hr.
    assert (Hin : r ∈ named n db1) by (rewrite Hr; by left).
    apply named_elem in Hin as [Hname Hin].
    destruct (Hrow r g Hin Hname) as (a & b & c & H1 & H2 & H3 & H4 & H5 &
                                      H6 & H7 & H8);
      [ by rewrite Hcr | ].
    exists (completed r), g, a, b, c. done.
  - rewrite Hkeep by lia.
    assert (Hsize : group_size n db = 1%nat) by lia.
    unfold group_size in Hsize. unfold canonical_geoms.
    destruct (named n db) as [|l [|l' rest]] eqn:Hrows; try done.
    assert (Hl : l ∈ named n db) by (rewrite Hrows; by left).
    pose proof Hl as Hl1. rewrite <- Hkeep in Hl1 by lia.
    apply named_elem in Hl as [Hname Hl].
    apply named_elem in Hl1 as [_ Hl1].
    destruct (Hgeo1 l Hl1) as [r Hr].
    pose proof (with_extras_Ok _ _ Hr)
      as (g & _ & _ & _ & _ & _ & _ & _ & Hg & _).
    destruct (Hrow l g Hl1 Hname Hg) as (a & b & c & H1 & H2 & H3 & H4 & H5 &
                                         H6 & H7 & H8).
    exists (completed l), g, a, b, c. cbn [fmap list_fmap].
    rewrite Hg. done.
Qed.

(** X19.  [line_extras] can be run again: on a line table with unique keys
    in which the extras of every line can be computed, a second run returns
    and leaves the database as the first run left it. *)
Theorem line_extras_idempotent (db : DB) :
  NoDup (Line_id <$> db_lines db) →
  (∀ l, l ∈ db_lines db → ∃ r, with_extras l = Ok r) →
  ∃ db', line_extras db = (Ok (), db') ∧ line_extras db' = (Ok (), db').
Proof.
  intros Hnd Hgeo. eexists. split; [ by apply line_extras_run | ].
  assert (Hagain : ∀ l, l ∈ db_lines db →
            with_extras (completed l) = Ok (completed l)).
  { intros l Hl. destruct (Hgeo l Hl) as [r Hr]. unfold completed.
    rewrite Hr. by apply with_extras_again with l. }
  rewrite line_extras_run; cbn [db_lines db_stops db_stations db_stop_lines
                                db_station_lines db_next_line_id
                                db_next_station_id].
  - do 2 f_equal. rewrite <- list_fmap_compose. apply list_fmap_ext.
    intros i l Hl. cbn. unfold completed at 1.
    rewrite Hagain; [ done | apply list_elem_of_lookup; eauto ].
  - rewrite <- list_fmap_compose.
    rewrite (list_fmap_ext (Line_id ∘ completed) Line_id (db_lines db));
      [ done | ].
    intros i l _. apply completed_id.
  - intros l Hl. apply list_elem_of_fmap in Hl as (l0 & -> & Hl0).
    exists (completed l0). by apply Hagain.
Qed.

Lemma add_named_line_present (v : option string) (stop : Stop) (db : DB) :
  (truthy_str v = true →
   ∃ l, filter (λ l, Some (Line_name l) = v) (db_lines db) = [l] ∧
        (Stop_id stop, Line_id l) ∈ db_stop_lines db) →
  add_named_line v stop db = (Ok (), db).
Proof.
  intros Hres. unfold add_named_line. destruct (truthy_str v); [ | done ].
  destruct Hres as (l & Hl & Hin); [ done | ].
  unfold bind, Line_objects_get, bind. rewrite Hl.
  cbn -[union singleton Stop_lines_add]. unfold Stop_lines_add. f_equal.
  rewrite subseteq_union_1_L by (by apply singleton_subseteq_l).
  by destruct db.
Qed.

Lemma for_Station_lines_add_present (st : Station) (ls : list Line)
    (db : DB) :
  (∀ l, l ∈ ls → (Station_id st, Line_id l) ∈ db_station_lines db) →
  for_ ls (λ line, Station_lines_add st line) db = (Ok (), db).
Proof.
  induction ls as [|l ls IH]; intros Hall; [ done | ].
  cbn [for_]. unfold bind.
  assert (Hadd : Station_lines_add st l db = (Ok (), db)).
  { unfold Station_lines_add. f_equal.
    rewrite subseteq_union_1_L
      by (apply singleton_subseteq_l, Hall; by left).
    by destruct db. }
  rewrite Hadd. apply IH. intros l' Hl'. apply Hall. by right.
Qed.

Lemma Station_objects_get_or_create_found (n s : string) (db : DB)
    (st : Station) :
  NoDup (Station_key <$> db_stations db) → st ∈ db_stations db →
  Station_name st = n → Station_slug st = Some s →
  Station_objects_get_or_create (Some n) s db = (Ok (st, false), db).
Proof.
  intros Hkeys Hst Hn Hs. unfold Station_objects_get_or_create.
  rewrite (list_filter_iff _ (λ st, Station_key st = (n, Some s))).
  2:{ intros x. unfold Station_key. split; [ by intros [-> ->] | ].
      by intros [= -> ->]. }
  assert (Hin : st ∈ filter (λ x, Station_key x = (n, Some s))
                  (db_stations db)).
  { apply list_elem_of_filter. split; [ | done ].
    unfold Station_key. by rewrite Hn, Hs. }
  destruct (filter_key_unique Station_key (n, Some s) (db_stations db) Hkeys)
    as [Hnone | [x Hone]].
  - rewrite Hnone in Hin. by apply elem_of_nil in Hin.
  - rewrite Hone in Hin |- *. by apply list_elem_of_singleton in Hin as ->.
Qed.

Lemma Stop_save_ok (r : Stop) (db : DB) :
  NoDup (Stop_id <$> db_stops db) → r ∈ db_stops db →
  is_Some (Stop_name r) →
  Stop_save r db = (Ok (), db).
Proof.
  intros Hnd Hr [nm Hnm]. unfold Stop_save. rewrite Hnm.
  rewrite bool_decide_eq_true_2 by (by apply list_elem_of_fmap_2).
  rewrite fmap_replace_self by done. by destruct db.
Qed.

(** One turn of the loop of [stations] for a stop that has been rolled up
    already changes nothing. *)
Lemma stations_body_fixed (stop_lookup : gmap string (gmap string string))
    (r : Stop) (db : DB) (cw : gmap string string) (nm : string)
    (st : Station) :
  stations_wf db → NoDup (Stop_id <$> db_stops db) → r ∈ db_stops db →
  stop_lookup !! str_opt (Stop_stop_id r) = Some cw →
  cw !! "clean_station_name" = Some nm →
  (∀ k, k ∈ ["Line1"; "Line2"] → truthy_str (cw !! k) = true →
     ∃ l, filter (λ l, Some (Line_name l) = cw !! k) (db_lines db) = [l] ∧
          (Stop_id r, Line_id l) ∈ db_stop_lines db) →
  st ∈ db_stations db →
  Station_name st = nm → Station_slug st = Some (slugify nm) →
  Stop_name r = Some nm →
  Stop_slug r = Some (slugify nm +:+ "-" +:+ str_opt (Stop_stop_id r)) →
  Stop_station r = Some (Station_id st) →
  (∀ l, l ∈ db_lines db → (Stop_id r, Line_id l) ∈ db_stop_lines db →
        (Station_id st, Line_id l) ∈ db_station_lines db) →
  stations_body stop_lookup r db = (Ok (), db).
Proof.
  intros (Hids & _ & Hkeys) Hnd Hr Hcw Hnm Hres Hst Hname Hslug
         Hrname Hrslug Hrst Hlines.
  rewrite stations_body_unfold. unfold getitem. rewrite Hcw. cbv zeta.
  rewrite Hnm.
  assert (Hstop2 :
    set_Stop_slug
      (Some (slugify (force_unicode (Stop_name (set_Stop_name (Some nm) r)))
             +:+ "-" +:+ str_opt (Stop_stop_id (set_Stop_name (Some nm) r))))
      (set_Stop_name (Some nm) r) = r).
  { destruct r; cbn in *. by subst. }
  rewrite Hstop2.
  rewrite (add_named_line_present (cw !! "Line1") r db)
    by (apply Hres; by left).
  rewrite (add_named_line_present (cw !! "Line2") r db)
    by (apply Hres; right; by left).
  rewrite (Station_objects_get_or_create_found nm _ db st) by done.
  cbn [fst].
  assert (Hstop3 : set_Stop_station (Some (Station_id st)) r = r).
  { destruct r; cbn in *. by subst. }
  rewrite Hstop3, Stop_save_ok by (by rewrite ?Hrname).
  rewrite for_Station_lines_add_present.
  - by apply Station_save_ok.
  - intros l Hl. apply Stop_lines_all_elem in Hl as [Hpair Hl].
    by apply Hlines.
Qed.

(** X20.  [stations] can be run again: after a rollup in which every stop
    has a usable crosswalk entry, a second run with the same crosswalk
    returns and leaves the database as the first run left it (no station is
    added, no row or line set changes). *)
Theorem rollup_idempotent (crosswalk : list (gmap string string))
    (stop_lookup : gmap string (gmap string string)) (db : DB) :
  make_stop_lookup crosswalk = Ok stop_lookup →
  stations_wf db → db_station_lines db = ∅ →
  NoDup (Stop_id <$> db_stops db) →
  (∀ p, p ∈ db_stop_lines db → p.2 ∈ Line_id <$> db_lines db) →
  (∀ stop, stop ∈ db_stops db → resolvable stop_lookup (db_lines db) stop) →
  ∃ db', stations crosswalk db = (Ok (), db') ∧
         stations crosswalk db' = (Ok (), db').
Proof.
  intros Hlookup Hwf Hempty Hnd Hrefs Hres.
  destruct (stations_run crosswalk stop_lookup db)
    as (db' & stops & Hrun & Hperm & (J1 & J2 & J3 & J4 & J5 & J6 & _)
        & (R1 & R2 & _)); try done.
  exists db'. split; [ done | ].
  assert (Hdone : ∀ r, r ∈ db_stops db' → Stop_id r ∈ Stop_id <$> stops).
  { intros r Hr. rewrite Hperm, <- J2. by apply list_elem_of_fmap_2. }
  assert (Hnd' : NoDup (Stop_id <$> db_stops db')) by (by rewrite J2).
  assert (Hbody : ∀ r, r ∈ db_stops db' →
            stations_body stop_lookup r db' = (Ok (), db')).
  { intros r Hr.
    destruct (R1 r Hr (Hdone r Hr))
      as (r0 & cw & st & Hr0 & Hcw & Hst & Hnm & Hslug & Hrow).
    rewrite Hperm in Hr0.
    destruct (Hres r0 Hr0) as (cw' & nm' & Hcw' & _ & Hlines).
    rewrite Hcw in Hcw'. injection Hcw' as <-.
    assert (Hid : Stop_id r = Stop_id r0) by (by rewrite Hrow).
    assert (Hsid : Stop_stop_id r = Stop_stop_id r0) by (by rewrite Hrow).
    apply (stations_body_fixed stop_lookup r db' cw (Station_name st) st);
      try done.
    - by rewrite Hsid.
    - intros k Hk Ht. destruct (Hlines k Hk Ht) as [l Hl].
      exists l. rewrite J1. split; [ done | ].
      apply R2. right. exists r0, cw, l.
      split; [ by rewrite Hperm | ]. split; [ done | ].
      assert (Hin : l ∈ filter (λ l, Some (Line_name l) = cw !! k)
                      (db_lines db)) by (rewrite Hl; by left).
      apply list_elem_of_filter in Hin as [Hname Hin].
      split; [ done | ]. split; [ by exists k | by rewrite Hid ].
    - rewrite Hrow. unfold rolled_stop. by rewrite Hnm.
    - rewrite Hrow. unfold rolled_stop. by rewrite Hnm.
    - by rewrite Hrow.
    - intros l Hl Hpair. apply (J6 (Station_id st, Line_id l)).
      exists r. split; [ done | ]. split; [ by apply Hdone | ].
      split; [ by rewrite Hrow | done ]. }
  destruct (Stop_objects_all_spec db') as (stops' & Hall' & Hperm').
  unfold stations, bind, lift. rewrite Hlookup, Hall'.
  assert (Hsub : ∀ r, r ∈ stops' → r ∈ db_stops db')
    by (intros r Hr; by rewrite <- Hperm').
  clear Hall' Hperm'. induction stops' as [|r todo IH]; [ done | ].
  cbn [for_]. unfold bind. rewrite Hbody by (apply Hsub; by left).
  apply IH. intros r' Hr'. apply Hsub. by right.
Qed.

(** ** Synchronisation, continued *)

Lemma list_remove_spec (x : Z) (l rest : list Z) :
  NoDup l → list_remove x l = Ok rest →
  (x ∉ rest) ∧ NoDup rest ∧ ∀ s, s ∈ rest → s ∈ l.
Proof.
  revert rest. induction l as [|y l IH]; intros rest Hnd; [ done | ].
  apply NoDup_cons in Hnd as [Hy Hnd]. cbn [list_remove].
  case_bool_decide as Hyx.
  - intros [= <-]. subst y. split; [ done | ]. split; [ done | ].
    intros s Hs. by right.
  - destruct (list_remove x l) as [r|e]; [ | done ]. intros [= <-].
    destruct (IH r Hnd eq_refl) as (Hx & Hr & Hsub).
    split; [ | split ].
    + apply not_elem_of_cons. split; [ by intros -> | done ].
    + apply NoDup_cons. split; [ | done ]. intros Hin. by apply Hy, Hsub.
    + intros s Hs. apply elem_of_cons in Hs as [-> | Hs];
        [ by left | right; by apply Hsub ].
Qed.

Lemma Line_set_linestrings_loop (self : Line) (c : Z) (g : geometry)
    srids rest :
  Line_get_srid_list = Ok srids → c ∈ srids →
  Line_linestring c self = Ok (Some g) →
  list_remove c srids = Ok rest →
  Line_set_linestrings c self =
    match for_ rest (Line_set_linestrings_body (Some g)) self with
    | (Ok _, self') => (Ok true, self')
    | (Raise e, self') => (Raise e, self')
    end.
Proof.
  intros Hl Hc Hg Hrest.
  unfold Line_set_linestrings, bind, lift. rewrite Hl.
  unfold py_in. rewrite bool_decide_eq_true_2 by done. cbn [negb].
  unfold Line_linestring in Hg. unfold Line_getattr in *. cbn [fst] in Hg.
  rewrite Hg, Hrest.
  by destruct (for_ rest _ self) as [[[]|e] self'].
Qed.

(** One turn of that loop when the transform returns: the field of the SRID
    holds the copy, nothing else has changed. *)
Lemma Line_set_linestrings_body_ok (self : Line) (g g' : geometry) (s : Z) :
  s ∈ [2229; 4269; 4326; 900913] →
  field_accepts "MultiLineString" (Some g) = true →
  transform s g = Ok g' →
  ∃ self', Line_set_linestrings_body (Some g) s self = (Ok (), self') ∧
    Line_linestring s self' = Ok (Some g') ∧
    (∀ s', s' ∈ [2229; 4269; 4326; 900913] → s' ≠ s →
       Line_linestring s' self' = Line_linestring s' self) ∧
    (∀ s', s' ∈ [2229; 4269; 4326; 900913] →
       Line_simple_linestring s' self' = Line_simple_linestring s' self) ∧
    Line_id self' = Line_id self ∧ Line_name self' = Line_name self ∧
    Line_slug self' = Line_slug self.
Proof.
  intros Hs Hacc Hg'.
  pose proof (transform_accepts "MultiLineString" _ _ _ Hg') as A.
  rewrite Hacc in A. clear Hacc.
  destruct self as [i n sl a b c d sa sb sc sd].
  in_srids Hs.
  all: eexists; split; [ run_method; reflexivity | ].
  all: split; [ run_method; reflexivity | ].
  all: split; [ intros s' Hs' Hne; in_srids Hs'; try (by destruct Hne);
                reflexivity | ].
  all: split; [ intros s' Hs'; in_srids Hs'; reflexivity | done ].
Qed.

Lemma Line_set_linestrings_body_raise (self : Line) (g : geometry) (s : Z)
    (e : exn) :
  transform s g = Raise e →
  Line_set_linestrings_body (Some g) s self = (Raise e, self).
Proof.
  intros He. unfold Line_set_linestrings_body, bind, lift, transform_clone.
  cbn [method]. by rewrite He.
Qed.

(** The turns for SRIDs whose transforms all return. *)
Lemma Line_set_linestrings_turns (todo : list Z) (self : Line)
    (g : geometry) :
  field_accepts "MultiLineString" (Some g) = true →
  (∀ s, s ∈ todo → s ∈ [2229; 4269; 4326; 900913]) →
  (∀ s, s ∈ todo → ∃ g', transform s g = Ok g') →
  ∃ self', for_ todo (Line_set_linestrings_body (Some g)) self = (Ok (), self') ∧
    (∀ s g', s ∈ todo → transform s g = Ok g' →
       Line_linestring s self' = Ok (Some g')) ∧
    (∀ s, s ∈ [2229; 4269; 4326; 900913] → s ∉ todo →
       Line_linestring s self' = Line_linestring s self) ∧
    (∀ s, s ∈ [2229; 4269; 4326; 900913] →
       Line_simple_linestring s self' = Line_simple_linestring s self) ∧
    Line_id self' = Line_id self ∧ Line_name self' = Line_name self ∧
    Line_slug self' = Line_slug self.
Proof.
  intros Hacc. revert self.
  induction todo as [|x todo IH]; intros self Hknown Htr.
  - exists self. split; [ done | ]. split; [ | done ].
    intros s g' Hs. by apply elem_of_nil in Hs.
  - destruct (Htr x) as [gx Hgx]; [ by left | ].
    destruct (Line_set_linestrings_body_ok self g gx x)
      as (self1 & Hrun1 & Hx1 & Hother1 & Hsimple1 & Hi1 & Hn1 & Hsl1);
      [ apply Hknown; by left | done | done | ].
    destruct (IH self1) as (self' & Hrun & Hset & Hother & Hsimple & Hi & Hn & Hsl);
      [ intros s Hs; apply Hknown; by right
      | intros s Hs; apply Htr; by right | ].
    exists self'. split; [ cbn [for_]; unfold bind; by rewrite Hrun1 | ].
    split; [ | split; [ | split; [ | by rewrite Hi, Hn, Hsl ] ] ].
    + intros s g' Hs Hg'. destruct (decide (s ∈ todo)) as [Hin | Hnin];
        [ by apply Hset | ].
      apply elem_of_cons in Hs as [-> | Hs]; [ | done ].
      rewrite Hother by (done || (apply Hknown; by left)).
      rewrite Hx1. by rewrite (transform_again _ _ _ _ Hgx Hg').
    + intros s Hs Hnin. apply not_elem_of_cons in Hnin as [Hne Hnin].
      rewrite Hother by done. by apply Hother1.
    + intros s Hs. rewrite Hsimple by done. by apply Hsimple1.
Qed.

Lemma Stop_set_point_loop (self : Stop) (c : Z) (g : geometry) srids rest :
  Stop_get_srid_list = Ok srids → c ∈ srids →
  Stop_point c self = Ok (Some g) →
  list_remove c srids = Ok rest →
  Stop_set_point c self =
    match for_ rest (Stop_set_point_body (Some g)) self with
    | (Ok _, self') => (Ok true, self')
    | (Raise e, self') => (Raise e, self')
    end.
Proof.
  intros Hl Hc Hg Hrest.
  unfold Stop_set_point, bind, lift. rewrite Hl.
  unfold py_in. rewrite bool_decide_eq_true_2 by done. cbn [negb].
  unfold Stop_point in Hg. unfold Stop_getattr in *. cbn [fst] in Hg.
  rewrite Hg, Hrest.
  by destruct (for_ rest _ self) as [[[]|e] self'].
Qed.

Lemma Stop_set_point_body_ok (self : Stop) (g g' : geometry) (s : Z) :
  s ∈ [4269; 4326; 900913] →
  field_accepts "Point" (Some g) = true →
  transform s g = Ok g' →
  ∃ self', Stop_set_point_body (Some g) s self = (Ok (), self') ∧
    Stop_point s self' = Ok (Some g') ∧
    (∀ s', s' ∈ [4269; 4326; 900913] → s' ≠ s →
       Stop_point s' self' = Stop_point s' self) ∧
    Stop_id self' = Stop_id self ∧ Stop_name self' = Stop_name self ∧
    Stop_slug self' = Stop_slug self ∧
    Stop_stop_id self' = Stop_stop_id self ∧
    Stop_station self' = Stop_station self.
Proof.
  intros Hs Hacc Hg'.
  pose proof (transform_accepts "Point" _ _ _ Hg') as A.
  rewrite Hacc in A. clear Hacc.
  destruct self as [i n sl sid st a b c].
  in_srids Hs.
  all: eexists; split; [ run_method; reflexivity | ].
  all: split; [ run_method; reflexivity | ].
  all: split; [ intros s' Hs' Hne; in_srids Hs'; try (by destruct Hne);
                reflexivity | done ].
Qed.

Lemma Stop_set_point_body_raise (self : Stop) (g : geometry) (s : Z)
    (e : exn) :
  transform s g = Raise e →
  Stop_set_point_body (Some g) s self = (Raise e, self).
Proof.
  intros He. unfold Stop_set_point_body, bind, lift, transform_clone.
  cbn [method]. by rewrite He.
Qed.

Lemma Stop_set_point_turns (todo : list Z) (self : Stop) (g : geometry) :
  field_accepts "Point" (Some g) = true →
  (∀ s, s ∈ todo → s ∈ [4269; 4326; 900913]) →
  (∀ s, s ∈ todo → ∃ g', transform s g = Ok g') →
  ∃ self', for_ todo (Stop_set_point_body (Some g)) self = (Ok (), self') ∧
    (∀ s g', s ∈ todo → transform s g = Ok g' →
       Stop_point s self' = Ok (Some g')) ∧
    (∀ s, s ∈ [4269; 4326; 900913] → s ∉ todo →
       Stop_point s self' = Stop_point s self) ∧
    Stop_id self' = Stop_id self ∧ Stop_name self' = Stop_name self ∧
    Stop_slug self' = Stop_slug self ∧
    Stop_stop_id self' = Stop_stop_id self ∧
    Stop_station self' = Stop_station self.
Proof.
  intros Hacc. revert self.
  induction todo as [|x todo IH]; intros self Hknown Htr.
  - exists self. split; [ done | ]. split; [ | done ].
    intros s g' Hs. by apply elem_of_nil in Hs.
  - destruct (Htr x) as [gx Hgx]; [ by left | ].
    destruct (Stop_set_point_body_ok self g gx x)
      as (self1 & Hrun1 & Hx1 & Hother1 & Hi1 & Hn1 & Hsl1 & Hsid1 & Hst1);
      [ apply Hknown; by left | done | done | ].
    destruct (IH self1)
      as (self' & Hrun & Hset & Hother & Hi & Hn & Hsl & Hsid & Hst);
      [ intros s Hs; apply Hknown; by right
      | intros s Hs; apply Htr; by right | ].
    exists self'. split; [ cbn [for_]; unfold bind; by rewrite Hrun1 | ].
    split; [ | split; [ | by rewrite Hi, Hn, Hsl, Hsid, Hst ] ].
    + intros s g' Hs Hg'. destruct (decide (s ∈ todo)) as [Hin | Hnin];
        [ by apply Hset | ].
      apply elem_of_cons in Hs as [-> | Hs]; [ | done ].
      rewrite Hother by (done || (apply Hknown; by left)).
      rewrite Hx1. by rewrite (transform_again _ _ _ _ Hgx Hg').
    + intros s Hs Hnin. apply not_elem_of_cons in Hnin as [Hne Hnin].
      rewrite Hother by done. by apply Hother1.
Qed.

(** X21.  Sync is not all or nothing.  The non-canonical fields are written
    one by one, in the order of the SRIDs, and there is no handler around
    the transform: when the transform into one SRID raises, the earlier
    ones having returned, the exception leaves the method and the object
    stays as the loop left it.  The fields of the earlier SRIDs hold the
    transformed geometry; the canonical field, the field of the failing
    SRID and the fields of the SRIDs after it hold what they held before the
    call; no other attribute has changed. *)
Theorem sync_stops_at_failed_transform :
  (∀ (self : Line) (c : Z) (g : geometry) srids pre post s e,
     Line_get_srid_list = Ok srids → c ∈ srids →
     Line_linestring c self = Ok (Some g) →
     list_remove c srids = Ok (pre ++ s :: post) →
     (∀ s', s' ∈ pre → ∃ g', transform s' g = Ok g') →
     transform s g = Raise e →
     ∃ self', Line_set_linestrings c self = (Raise e, self') ∧
       (∀ s' g', s' ∈ pre → transform s' g = Ok g' →
          Line_linestring s' self' = Ok (Some g')) ∧
       (∀ s', s' ∈ c :: s :: post →
          Line_linestring s' self' = Line_linestring s' self) ∧
       (∀ s', s' ∈ srids →
          Line_simple_linestring s' self' = Line_simple_linestring s' self) ∧
       Line_id self' = Line_id self ∧ Line_name self' = Line_name self ∧
       Line_slug self' = Line_slug self) ∧
  (∀ (self : Stop) (c : Z) (g : geometry) srids pre post s e,
     Stop_get_srid_list = Ok srids → c ∈ srids →
     Stop_point c self = Ok (Some g) →
     list_remove c srids = Ok (pre ++ s :: post) →
     (∀ s', s' ∈ pre → ∃ g', transform s' g = Ok g') →
     transform s g = Raise e →
     ∃ self', Stop_set_point c self = (Raise e, self') ∧
       (∀ s' g', s' ∈ pre → transform s' g = Ok g' →
          Stop_point s' self' = Ok (Some g')) ∧
       (∀ s', s' ∈ c :: s :: post →
          Stop_point s' self' = Stop_point s' self) ∧
       Stop_id self' = Stop_id self ∧ Stop_name self' = Stop_name self ∧
       Stop_slug self' = Stop_slug self ∧
       Stop_stop_id self' = Stop_stop_id self ∧
       Stop_station self' = Stop_station self).
Proof.
  split.
  - intros self c g srids pre post s e Hl Hc Hg Hrest Hpre Hfail.
    rewrite (Line_set_linestrings_loop self c g srids _ Hl Hc Hg Hrest).
    rewrite Line_get_srid_list_eq in Hl. injection Hl as <-.
    assert (Hnd : NoDup [2229; 4269; 4326; 900913]) by compute_done.
    destruct (list_remove_spec c _ _ Hnd Hrest) as (Hcrest & Hnd' & Hsub).
    clear Hnd. rename Hnd' into Hnd.
    apply Line_getattr_Ok in Hg as (_ & Hacc & _).
    destruct (Line_set_linestrings_turns pre self g Hacc)
      as (self' & Hrun & Hset & Hother & Hsimple & Hi & Hn & Hsl);
      [ intros s' Hs'; apply Hsub, elem_of_app; by left | done | ].
    rewrite for_app, Hrun. cbn [for_]. unfold bind.
    rewrite (Line_set_linestrings_body_raise self' g s e Hfail).
    exists self'. split; [ done | ]. split; [ done | ].
    split; [ | done ].
    apply NoDup_app in Hnd as (_ & Hdisj & _).
    intros s' Hs'. apply Hother.
    + apply elem_of_cons in Hs' as [-> | Hs']; [ done | ].
      apply Hsub, elem_of_app. by right.
    + intros Hin. apply elem_of_cons in Hs' as [-> | Hs'].
      * apply Hcrest, elem_of_app. by left.
      * by apply (Hdisj s').
  - intros self c g srids pre post s e Hl Hc Hg Hrest Hpre Hfail.
    rewrite (Stop_set_point_loop self c g srids _ Hl Hc Hg Hrest).
    rewrite Stop_get_srid_list_eq in Hl. injection Hl as <-.
    assert (Hnd : NoDup [4269; 4326; 900913]) by compute_done.
    destruct (list_remove_spec c _ _ Hnd Hrest) as (Hcrest & Hnd' & Hsub).
    clear Hnd. rename Hnd' into Hnd.
    apply Stop_getattr_Ok in Hg as (_ & Hacc & _).
    destruct (Stop_set_point_turns pre self g Hacc)
      as (self' & Hrun & Hset & Hother & Hi & Hn & Hsl & Hsid & Hst);
      [ intros s' Hs'; apply Hsub, elem_of_app; by left | done | ].
    rewrite for_app, Hrun. cbn [for_]. unfold bind.
    rewrite (Stop_set_point_body_raise self' g s e Hfail).
    exists self'. split; [ done | ]. split; [ done | ].
    split; [ | done ].
    apply NoDup_app in Hnd as (_ & Hdisj & _).
    intros s' Hs'. apply Hother.
    + apply elem_of_cons in Hs' as [-> | Hs']; [ done | ].
      apply Hsub, elem_of_app. by right.
    + intros Hin. apply elem_of_cons in Hs' as [-> | Hs'].
      * apply Hcrest, elem_of_app. by left.
      * by apply (Hdisj s').
Qed.

End LAMetroRail.

Arguments Point {coord} _.
Arguments MultiPoint {coord} _.
Arguments LineString {coord} _.
Arguments MultiLineString {coord} _.
Arguments GEOSGeometry {coord} _ _.
Arguments wkt {coord} _.
Arguments srid {coord} _.
Arguments mkLine {coord}.
Arguments mkStop {coord}.
Arguments mkDB {coord}.
Arguments created_line {coord} _ _ _.
Arguments db_lines {coord} _.
Arguments db_stops {coord} _.
Arguments db_stations {coord} _.
Arguments db_stop_lines {coord} _.
Arguments db_station_lines {coord} _.

(** * A worked instance

    Vertices with integer coordinates and stand-ins for the external
    primitives, to run the model on.  The stand-ins fail where the library
    fails: the transform at the pole, the vertex reduction for a negative
    tolerance, the union on an invalid line. *)

Definition vertex : Type := (Z * Z)%type.

(** A reprojection that moves the first coordinate by the difference of the
    two SRIDs. *)
Definition shift (s t : Z) (c : vertex) : vertex := (c.1 + (t - s), c.2).

(** The vertices of a shape. *)
Definition vertices (w : shape vertex) : list vertex :=
  match w with
  | Point p => match p with Some c => [c] | None => [] end
  | MultiPoint ps => ps
  | LineString l => l
  | MultiLineString ls => concat ls
  end.

(** The projection of SRID 900913 has no image for a pole, a vertex whose
    second coordinate is 90 or more either way: the transform into it
    raises. *)
Definition pole_error (s t : Z) (w : shape vertex) : option exn :=
  if (t =? 900913) &&
     existsb (λ c : vertex, 90 <=? Z.abs c.2) (vertices w)
  then Some (GDALException "OGR failure.")
  else None.

(** A vertex reduction that keeps the two ends of every part, and returns a
    single-part line when only one part is left.  A negative tolerance is
    an error. *)
Definition ends (l : list vertex) : list vertex :=
  match l with
  | x :: y :: l' => [x; List.last l' y]
  | _ => l
  end.
Definition keep_ends (tolerance : Z) (preserve_topology : bool)
    (w : shape vertex) : result (shape vertex) :=
  if tolerance <? 0
  then Raise (GEOSException "Error encountered in GEOS C function.")
  else Ok match w with
          | MultiLineString [l] => LineString (ends l)
          | MultiLineString ls => MultiLineString (ends <$> ls)
          | LineString l => LineString (ends l)
          | _ => w
          end.

(** A union aggregate that collects the parts of its arguments (null
    geometries do not count).  Like the real one it fails on an invalid
    line, one with a single vertex, and returns a single-part line when the
    parts coincide. *)
Fixpoint collect_parts (gs : list (geom_value vertex))
  : result (list (list vertex)) :=
  match gs with
  | [] => Ok []
  | None :: gs' => collect_parts gs'
  | Some g :: gs' =>
      match wkt g with
      | MultiLineString ls =>
          if bool_decide (Exists (λ l, length l = 1%nat) ls)
          then Raise (DatabaseError
                        "point array must contain 0 or >1 elements")
          else match collect_parts gs' with
               | Ok rest => Ok (ls ++ rest)
               | Raise e => Raise e
               end
      | _ => Raise (DatabaseError "geometry type mismatch")
      end
  end.
Definition union_parts (gs : list (geom_value vertex))
  : result (geom_value vertex) :=
  match collect_parts gs with
  | Ok [] => Ok None
  | Ok ls =>
      match remove_dups ls with
      | [l] => Ok (Some (GEOSGeometry (LineString l) 2229))
      | _ => Ok (Some (GEOSGeometry (MultiLineString ls) 2229))
      end
  | Raise e => Raise e
  end.

Definition red_west : geometry vertex :=
  GEOSGeometry (MultiLineString [[(0, 0); (5, 1); (10, 0)]]) 2229.
Definition red_east : geometry vertex :=
  GEOSGeometry (MultiLineString [[(10, 0); (20, 0)]]) 2229.
Definition blue_north : geometry vertex :=
  GEOSGeometry (MultiLineString [[(0, 0); (0, 10)]]) 2229.
Definition blue_broken : geometry vertex :=
  GEOSGeometry (MultiLineString [[(0, 10)]]) 2229.
Definition gold_branches : geometry vertex :=
  GEOSGeometry (MultiLineString [[(0, 0); (3, 3)]; [(3, 3); (9, 3)]]) 2229.

(** A line as the shapefile import leaves it: name and canonical geometry. *)
Definition imported_line (i : Z) (n : string) (g : geom_value vertex)
  : Line vertex := created_line i n g.

(** A stop as the shapefile import leaves it. *)
Definition imported_stop (i : Z) (n : string) (stop_id : Z) : Stop vertex :=
  mkStop i (Some n) None (Some stop_id) None None None None.

Definition red_line : Line vertex := imported_line 1 "Red" (Some red_west).
Definition gold_line : Line vertex :=
  imported_line 2 "Gold" (Some gold_branches).
Definition unset_line : Line vertex := imported_line 3 "Expo" None.

(** A line whose canonical geometry is there, with no part in it, and a
    stop at the pole. *)
Definition empty_line : Line vertex :=
  imported_line 4 "Crenshaw" (Some (GEOSGeometry (MultiLineString []) 2229)).
Definition pole_point : geometry vertex :=
  GEOSGeometry (Point (Some (-118, 90))) 4269.
Definition pole_stop : Stop vertex :=
  mkStop 2 (Some "NORTH POLE") None (Some 80999)
         None (Some pole_point) None None.
Definition union_station_point : geometry vertex :=
  GEOSGeometry (Point (Some (7, 7))) 4269.
Definition union_station_stop : Stop vertex :=
  mkStop 1 (Some "UNION STATION") None (Some 80214)
         None (Some union_station_point) None None.

Definition known_line_srids : list Z := [2229; 4269; 4326; 900913].
Definition known_stop_srids : list Z := [4269; 4326; 900913].

(** Stand-in for [slugify]: spaces become dashes. *)
Fixpoint dashes (s : string) : string :=
  match s with
  | EmptyString => EmptyString
  | String c s' =>
      String (if Ascii.eqb c " "%char then "-"%char else c) (dashes s')
  end.

(** The line table after an import that split Red in two. *)
Definition fragments_db : DB vertex :=
  mkDB [ imported_line 1 "Red" (Some red_west);
         imported_line 2 "Gold" (Some gold_branches);
         imported_line 3 "Red" (Some red_east) ]
       [] [] ∅ ∅ 4 1.

(** The same with three split lines, the second of which has an invalid
    fragment. *)
Definition broken_db : DB vertex :=
  mkDB [ imported_line 1 "Blue" (Some blue_north);
         imported_line 2 "Blue" (Some red_east);
         imported_line 3 "Green" (Some blue_north);
         imported_line 4 "Green" (Some blue_broken);
         imported_line 5 "Red" (Some red_west);
         imported_line 6 "Red" (Some red_east) ]
       [] [] ∅ ∅ 7 1.

(** A line table in which the import doubled the Expo line: two rows with
    the same single part. *)
Definition twin_db : DB vertex :=
  mkDB [ imported_line 1 "Expo" (Some blue_north);
         imported_line 2 "Expo" (Some blue_north);
         imported_line 3 "Red" (Some red_west);
         imported_line 4 "Red" (Some red_east) ]
       [] [] ∅ ∅ 5 1.

(** A line table in which the Gold line reaches the pole. *)
Definition polar_db : DB vertex :=
  mkDB [ imported_line 1 "Blue" (Some blue_north);
         imported_line 2 "Gold"
           (Some (GEOSGeometry (MultiLineString [[(0, 0); (0, 90)]]) 2229));
         imported_line 3 "Red" (Some red_west) ]
       [] [] ∅ ∅ 4 1.

(** Lines and stops before the rollup, and two crosswalk files: a full one,
    and one that has no row for stop 80409. *)
Definition rollup_db : DB vertex :=
  mkDB [ imported_line 1 "Red" (Some red_west);
         imported_line 2 "Gold" (Some gold_branches) ]
       [ imported_stop 1 "UNION STATION" 80214;
         imported_stop 2 "7TH ST METRO CTR" 80122;
         imported_stop 3 "UNION STATION GOLD" 80409 ]
       [] ∅ ∅ 3 1.

Definition crosswalk_row (stop_id name line1 line2 : string)
  : gmap string string :=
  {[ "stop_id" := stop_id; "clean_station_name" := name;
     "Line1" := line1; "Line2" := line2 ]}.

Definition short_crosswalk : list (gmap string string) :=
  [ crosswalk_row "80214" "Union Station" "Red" EmptyString;
    crosswalk_row "80122" "7th Street / Metro Center" "Red" EmptyString ].

Definition full_crosswalk : list (gmap string string) :=
  short_crosswalk ++
  [ crosswalk_row "80409" "Union Station" "Gold" EmptyString ].

(** The lookups [stations] builds from the two files. *)
Definition short_lookup : gmap string (gmap string string) :=
  dict [ ("80214", crosswalk_row "80214" "Union Station" "Red" EmptyString);
         ("80122", crosswalk_row "80122" "7th Street / Metro Center"
                     "Red" EmptyString) ].
Definition full_lookup : gmap string (gmap string string) :=
  dict [ ("80214", crosswalk_row "80214" "Union Station" "Red" EmptyString);
         ("80122", crosswalk_row "80122" "7th Street / Metro Center"
                     "Red" EmptyString);
         ("80409", crosswalk_row "80409" "Union Station" "Gold" EmptyString) ].

(** The table with the split Red line after stops have been attached to
    the lines: two stops to the two Red rows, one to Gold. *)
Definition linked_fragments_db : DB vertex :=
  mkDB [ imported_line 1 "Red" (Some red_west);
         imported_line 2 "Gold" (Some gold_branches);
         imported_line 3 "Red" (Some red_east) ]
       [ imported_stop 1 "UNION STATION" 80214;
         imported_stop 2 "7TH ST METRO CTR" 80122;
         imported_stop 3 "UNION STATION GOLD" 80409 ]
       [] {[ (1, 1); (2, 3); (3, 2) ]} ∅ 4 1.

(** A line table in which the Expo line has no geometry. *)
Definition unset_db : DB vertex :=
  mkDB [ imported_line 1 "Red" (Some red_west);
         imported_line 2 "Expo" None;
         imported_line 3 "Blue" (Some blue_north) ]
       [] [] ∅ ∅ 4 1.

(** A crosswalk whose row for stop 80122 names a Purple line, which the
    line table does not have. *)
Definition purple_row : gmap string string :=
  crosswalk_row "80122" "7th Street / Metro Center" "Red" "Purple".
Definition purple_crosswalk : list (gmap string string) := [ purple_row ].
Definition purple_lookup : gmap string (gmap string string) :=
  dict [ ("80122", purple_row) ].

(** A crosswalk with two rows for stop 80214, and a row read from a file
    without a [stop_id] column. *)
Definition doubled_crosswalk : list (gmap string string) :=
  [ crosswalk_row "80214" "Union Station" "Red" EmptyString;
    crosswalk_row "80214" "Union Station East" "Gold" EmptyString ].
Definition headless_row : gmap string string :=
  {[ "clean_station_name" := "Union Station" ]}.

(** Stand-ins for the two shapefile imports: the lines come as two Red
    fragments and Gold, the stops as the three stops of [rollup_db]. *)
Definition import_lines : M (DB vertex) unit := λ db,
  let i := db_next_line_id vertex db in
  (Ok (),
   mkDB (db_lines db ++
           [ imported_line i "Red" (Some red_west);
             imported_line (i + 1) "Gold" (Some gold_branches);
             imported_line (i + 2) "Red" (Some red_east) ])
        (db_stops db) (db_stations db)
        (db_stop_lines db) (db_station_lines db)
        (i + 3) (db_next_station_id vertex db)).
Definition import_stops : M (DB vertex) unit := λ db,
  (Ok (),
   mkDB (db_lines db)
        (db_stops db ++
           [ imported_stop 1 "UNION STATION" 80214;
             imported_stop 2 "7TH ST METRO CTR" 80122;
             imported_stop 3 "UNION STATION GOLD" 80409 ])
        (db_stations db)
        (db_stop_lines db) (db_station_lines db)
        (db_next_line_id vertex db) (db_next_station_id vertex db)).

(** ** The claims on the instance *)

Ltac in_list H :=
  repeat (apply elem_of_cons in H as [-> | H]);
  [ .. | by apply elem_of_nil in H ].

(** The stand-in transforms the Red line, the Gold line and the point of
    Union Station into every SRID. *)
Lemma red_west_transforms (s : Z) :
  ∃ g', transform vertex shift pole_error s red_west = Ok g'.
Proof.
  unfold transform, pole_error. cbn. rewrite andb_false_r. by eexists.
Qed.
Lemma gold_branches_transforms (s : Z) :
  ∃ g', transform vertex shift pole_error s gold_branches = Ok g'.
Proof.
  unfold transform, pole_error. cbn. rewrite andb_false_r. by eexists.
Qed.
Lemma union_station_point_transforms (s : Z) :
  ∃ g', transform vertex shift pole_error s union_station_point = Ok g'.
Proof.
  unfold transform, pole_error. cbn. rewrite andb_false_r. by eexists.
Qed.

(** Sync of the Red line from SRID 2229 fills the 4326 field; sync of the
    Union Station stop from SRID 4269 fills the 900913 field. *)
Lemma sync_reprojects_canonical_witness :
  (∃ self', Line_set_linestrings vertex shift pole_error 2229 red_line
              = (Ok true, self') ∧
     (∃ g', transform vertex shift pole_error 4326 red_west = Ok g' ∧
            Line_linestring vertex 4326 self' = Ok (Some g')) ∧
     Line_linestring vertex 2229 self' = Ok (Some red_west)) ∧
  (∃ self', Stop_set_point vertex shift pole_error 4269 union_station_stop
              = (Ok true, self') ∧
     (∃ g', transform vertex shift pole_error 900913 union_station_point
              = Ok g' ∧
            Stop_point vertex 900913 self' = Ok (Some g'))).
Proof.
  split.
  - destruct (proj1 (sync_reprojects_canonical vertex shift pole_error)
                red_line 2229 red_west known_line_srids)
      as (self' & Hrun & Hother & Hcan & _).
    + reflexivity.
    + by left.
    + reflexivity.
    + intros s _ _. apply red_west_transforms.
    + exists self'. split; [ exact Hrun | ]. split; [ | exact Hcan ].
      apply Hother; [ by do 2 right; left | lia ].
  - destruct (proj2 (sync_reprojects_canonical vertex shift pole_error)
                union_station_stop 4269 union_station_point known_stop_srids)
      as (self' & Hrun & Hother & _).
    + reflexivity.
    + by left.
    + reflexivity.
    + intros s _ _. apply union_station_point_transforms.
    + exists self'. split; [ exact Hrun | ].
      apply Hother; [ by do 2 right; left | lia ].
Defined.

(** SRID 27700 is not a field of either model. *)
Lemma sync_rejects_unknown_srid_witness :
  Line_set_linestrings vertex shift pole_error 27700 red_line =
    (Raise (ValueError "canonical_srid must exist on the model."), red_line) ∧
  Stop_set_point vertex shift pole_error 27700 union_station_stop =
    (Raise (ValueError "canonical_srid must exist on the model."),
     union_station_stop).
Proof.
  split.
  - apply (proj1 (sync_rejects_unknown_srid vertex shift pole_error)
             red_line 27700 known_line_srids); [ reflexivity | ].
    unfold known_line_srids. rewrite !not_elem_of_cons.
    repeat (split; [ lia | ]). apply not_elem_of_nil.
  - apply (proj2 (sync_rejects_unknown_srid vertex shift pole_error)
             union_station_stop 27700 known_stop_srids); [ reflexivity | ].
    unfold known_stop_srids. rewrite !not_elem_of_cons.
    repeat (split; [ lia | ]). apply not_elem_of_nil.
Defined.

(** A second sync of the Gold line changes nothing. *)
Lemma sync_idempotent_witness :
  ∃ self', Line_set_linestrings vertex shift pole_error 2229 gold_line
             = (Ok true, self') ∧
           Line_set_linestrings vertex shift pole_error 2229 self'
             = (Ok true, self').
Proof.
  apply (proj1 (sync_idempotent vertex shift pole_error)
           gold_line 2229 gold_branches known_line_srids).
  - reflexivity.
  - by left.
  - reflexivity.
  - intros s _ _. apply gold_branches_transforms.
Defined.

(** C10 fails on the code.  The canonical field of [empty_line] is empty: a
    multi-part line without parts.  Sync raises nothing: it returns [True]
    and the three other fields are set, each to an empty geometry. *)
Lemma sync_raises_on_empty_canonical_counterexample :
  let out := Line_set_linestrings vertex shift pole_error 2229 empty_line in
  Line_linestring vertex 2229 empty_line =
    Ok (Some (GEOSGeometry (MultiLineString []) 2229)) ∧
  truthy vertex (linestring_2229 vertex empty_line) = false ∧
  out.1 = Ok true ∧
  Line_linestring vertex 4269 out.2 =
    Ok (Some (GEOSGeometry (MultiLineString []) 4269)) ∧
  Line_linestring vertex 4326 out.2 =
    Ok (Some (GEOSGeometry (MultiLineString []) 4326)) ∧
  Line_linestring vertex 900913 out.2 =
    Ok (Some (GEOSGeometry (MultiLineString []) 900913)).
Proof. cbv zeta. repeat split; vm_compute; reflexivity. Qed.

(** Sync of a line that has no canonical geometry raises; sync of a line
    whose canonical geometry has no part returns. *)
Lemma sync_without_canonical_geometry_witness :
  Line_set_linestrings vertex shift pole_error 2229 unset_line =
    (Raise (AttributeError "'NoneType' object has no attribute 'transform'"),
     unset_line) ∧
  ∃ self', Line_set_linestrings vertex shift pole_error 2229 empty_line
             = (Ok true, self') ∧
    ∀ s, s ∈ known_line_srids → s ≠ 2229 →
      ∃ g', Line_linestring vertex s self' = Ok (Some g') ∧
            truthy vertex (Some g') = false.
Proof.
  split.
  - apply (proj1 (sync_without_canonical_geometry vertex shift pole_error)
             unset_line 2229 known_line_srids).
    + reflexivity.
    + by left.
    + reflexivity.
  - apply (proj2 (proj1 (sync_without_canonical_geometry vertex shift
                           pole_error)
                    empty_line 2229 known_line_srids eq_refl
                    ltac:(by left))
             (GEOSGeometry (MultiLineString []) 2229)).
    + reflexivity.
    + reflexivity.
    + intros s _ _. unfold transform, pole_error. cbn.
      rewrite andb_false_r. by eexists.
Defined.

(** The Red line has one part: the reduction returns a single-part line,
    which is stored wrapped, by the turn of SRID 2229 and by the whole
    method. *)
Lemma simplify_rewraps_collapsed_line_witness :
  let g' := GEOSGeometry (MultiLineString [[(0, 0); (10, 0)]]) 2229 in
  (∃ self1,
     Line_set_simple_linestrings_body vertex shift pole_error keep_ends
       500 2229 red_line = (Ok (), self1) ∧
     Line_simple_linestring vertex 2229 self1 = Ok (Some g')) ∧
  (∃ self',
     Line_set_simple_linestrings vertex shift pole_error keep_ends 500
       red_line = (Ok true, self') ∧
     Line_simple_linestring vertex 2229 self' = Ok (Some g')).
Proof.
  destruct (simplify_rewraps_collapsed_line vertex shift pole_error keep_ends
              500 red_line 2229 red_west
              (GEOSGeometry
                 (MultiLineString [[(898684, 0); (898689, 1); (898694, 0)]])
                 900913)
              (GEOSGeometry (LineString [(898684, 0); (898694, 0)]) 900913)
              (GEOSGeometry (LineString [(0, 0); (10, 0)]) 2229)
              known_line_srids)
    as (l & g' & Hl & Hg' & _ & Hturn & Hrun).
  - reflexivity.
  - by left.
  - reflexivity.
  - reflexivity.
  - reflexivity.
  - reflexivity.
  - reflexivity.
  - reflexivity.
  - cbn in Hl. injection Hl as <-. subst g'. cbv zeta.
    split; [ exact Hturn | ]. apply Hrun.
    intros s' Hs' _. in_list Hs'; reflexivity.
Defined.

(** The Red line has no geometry in SRID 4269 yet: its simplified field is
    set to [None], and the run goes on to the other SRIDs. *)
Lemma simplify_empty_input_witness :
  ∃ self',
    Line_set_simple_linestrings vertex shift pole_error keep_ends 500 red_line
      = (Ok true, self') ∧
    Line_simple_linestring vertex 4269 self' = Ok None ∧
    (∀ s', s' ∈ known_line_srids →
       Line_simple_linestring vertex s' self' =
         Line_simple_linestring vertex s'
           (Line_set_simple_linestrings_body vertex shift pole_error
              keep_ends 500 s' red_line).2) ∧
    (∀ s', s' ∈ known_line_srids →
       Line_linestring vertex s' self' = Line_linestring vertex s' red_line).
Proof.
  apply (proj1 (proj2 (simplify_empty_input vertex shift pole_error keep_ends
                         500 red_line 4269 None known_line_srids
                         eq_refl ltac:(right; by left) eq_refl eq_refl))).
  intros s' Hs' _. in_list Hs'; reflexivity.
Defined.

Lemma fragments_db_wf : lines_wf vertex fragments_db.
Proof.
  split; [ compute_done | ].
  intros l Hl. cbn in Hl. in_list Hl; cbn; lia.
Defined.

Lemma broken_db_wf : lines_wf vertex broken_db.
Proof.
  split; [ compute_done | ].
  intros l Hl. cbn in Hl. in_list Hl; cbn; lia.
Defined.



(** C6 fails on the code.  On [broken_db] the union fails for Green and
    would succeed for Red; [fix_line_dupes] raises, and Red, which comes
    after Green, still has its two rows: it has not been consolidated. *)
Lemma consolidate_skips_failed_group_counterexample :
  let out := fix_line_dupes vertex union_parts broken_db in
  union_parts (canonical_geoms vertex "Green" broken_db) =
    Raise (DatabaseError "point array must contain 0 or >1 elements") ∧
  (∃ u, union_parts (canonical_geoms vertex "Red" broken_db) = Ok u) ∧
  out.1 = Raise (DatabaseError "point array must contain 0 or >1 elements") ∧
  group_size vertex "Red" out.2 = 2%nat ∧
  ¬ consolidated vertex union_parts broken_db out.2 "Red".
Proof.
  cbv zeta. split; [ vm_compute; reflexivity | ].
  split; [ eexists; vm_compute; reflexivity | ].
  split; [ vm_compute; reflexivity | ]. split; [ vm_compute; reflexivity | ].
  intros (r & u & Hr & _). vm_compute in Hr. discriminate Hr.
Qed.

(** On [broken_db]: Blue is consolidated, the run stops at Green, and Green
    and Red keep their rows. *)
Lemma consolidate_aborts_on_failed_union_witness :
  ∃ db', fix_line_dupes vertex union_parts broken_db =
           (Raise (DatabaseError "point array must contain 0 or >1 elements"),
            db') ∧
    named vertex "Green" db' = named vertex "Green" broken_db ∧
    (∀ d', d' ∈ [("Blue", 2%nat)] →
       consolidated vertex union_parts broken_db db' d'.1) ∧
    (∀ d', d' ∈ [("Red", 2%nat)] →
       named vertex d'.1 db' = named vertex d'.1 broken_db) ∧
    (∀ n, (group_size vertex n broken_db ≤ 1)%nat →
       named vertex n db' = named vertex n broken_db).
Proof.
  apply (consolidate_aborts_on_failed_union vertex union_parts broken_db
           [("Blue", 2%nat)] [("Red", 2%nat)] ("Green", 2%nat)).
  - exact broken_db_wf.
  - vm_compute. reflexivity.
  - intros d' Hd'. in_list Hd'. eexists. split; vm_compute; reflexivity.
  - vm_compute. reflexivity.
Defined.

Lemma crosswalk_row_lookup (a b c d : string) :
  crosswalk_row a b c d !! "stop_id" = Some a ∧
  crosswalk_row a b c d !! "clean_station_name" = Some b ∧
  crosswalk_row a b c d !! "Line1" = Some c ∧
  crosswalk_row a b c d !! "Line2" = Some d.
Proof. unfold crosswalk_row. repeat split; by simplify_map_eq. Qed.

Lemma make_short_lookup : make_stop_lookup short_crosswalk = Ok short_lookup.
Proof.
  unfold make_stop_lookup, short_crosswalk, getitem. cbn [map_result].
  rewrite !(proj1 (crosswalk_row_lookup _ _ _ _)). reflexivity.
Qed.

Lemma make_full_lookup : make_stop_lookup full_crosswalk = Ok full_lookup.
Proof.
  unfold make_stop_lookup, full_crosswalk, short_crosswalk, getitem.
  cbn [map_result app].
  rewrite !(proj1 (crosswalk_row_lookup _ _ _ _)). reflexivity.
Qed.

Lemma rollup_db_stations_wf : stations_wf vertex rollup_db.
Proof.
  split; [ apply NoDup_nil_2 | ]. split; [ | apply NoDup_nil_2 ].
  intros st Hst. by apply elem_of_nil in Hst.
Qed.

(** A stop of [rollup_db] whose row in the lookup names one line of the
    table has a usable entry. *)
Lemma rollup_db_resolvable (stop_lookup : gmap string (gmap string string))
    (i sid : Z) (raw key name line : string) :
  str_opt (Some sid) = key →
  stop_lookup !! key = Some (crosswalk_row key name line EmptyString) →
  line = "Red" ∨ line = "Gold" →
  resolvable vertex stop_lookup (db_lines rollup_db) (imported_stop i raw sid).
Proof.
  intros Hkey Hrow Hline.
  exists (crosswalk_row key name line EmptyString), name.
  split.
  { change (stop_lookup !! str_opt (Some sid) =
              Some (crosswalk_row key name line EmptyString)).
    by rewrite Hkey. }
  split; [ apply crosswalk_row_lookup | ].
  intros k Hk Ht. in_list Hk.
  - rewrite (proj1 (proj2 (proj2 (crosswalk_row_lookup _ _ _ _)))).
    destruct Hline as [-> | ->]; eexists; vm_compute; reflexivity.
  - rewrite (proj2 (proj2 (proj2 (crosswalk_row_lookup _ _ _ _)))) in Ht.
    discriminate Ht.
Qed.

(** The rollup of the three stops with the full crosswalk. *)
Lemma rollup_complete_witness :
  ∃ db', stations vertex dashes full_crosswalk rollup_db = (Ok (), db') ∧
    (∀ stop, stop ∈ db_stops db' →
       ∃ k, Stop_station vertex stop = Some k ∧
            k ∈ Station_id <$> db_stations db') ∧
    (∀ st l, st ∈ db_stations db' →
       (Station_id st, l) ∈ db_station_lines db' ↔
       ∃ stop, stop ∈ db_stops db' ∧
               Stop_station vertex stop = Some (Station_id st) ∧
               (Stop_id vertex stop, l) ∈ db_stop_lines db').
Proof.
  apply (rollup_complete vertex dashes full_crosswalk full_lookup rollup_db).
  - exact make_full_lookup.
  - exact rollup_db_stations_wf.
  - reflexivity.
  - compute_done.
  - intros p Hp. by apply not_elem_of_empty in Hp.
  - intros stop Hstop. cbn [db_stops rollup_db] in Hstop. in_list Hstop.
    + apply (rollup_db_resolvable _ _ _ _ "80214" "Union Station" "Red");
        [ vm_compute; reflexivity | | by left ].
      unfold full_lookup, dict. cbn [foldl fst snd]. by simplify_map_eq.
    + apply (rollup_db_resolvable _ _ _ _ "80122"
               "7th Street / Metro Center" "Red");
        [ vm_compute; reflexivity | | by left ].
      unfold full_lookup, dict. cbn [foldl fst snd]. by simplify_map_eq.
    + apply (rollup_db_resolvable _ _ _ _ "80409" "Union Station" "Gold");
        [ vm_compute; reflexivity | | by right ].
      unfold full_lookup, dict. cbn [foldl fst snd]. by simplify_map_eq.
Defined.

(** The rollup with the crosswalk that has no row for stop 80409, the last
    in the order of [stop_id]. *)
Lemma rollup_missing_crosswalk_entry_witness :
  ∃ db1,
    stations vertex dashes short_crosswalk rollup_db =
      (Raise (KeyError "80409"), db1) ∧
    imported_stop 3 "UNION STATION GOLD" 80409 ∈ db_stops db1 ∧
    (∀ l, (3, l) ∈ db_stop_lines db1 → (3, l) ∈ db_stop_lines rollup_db).
Proof.
  destruct (rollup_missing_crosswalk_entry vertex dashes short_crosswalk
              short_lookup rollup_db
              [ imported_stop 2 "7TH ST METRO CTR" 80122;
                imported_stop 1 "UNION STATION" 80214 ] []
              (imported_stop 3 "UNION STATION GOLD" 80409))
    as (db1 & Hrun & _ & _ & Hrow & Hlines & _).
  - exact make_short_lookup.
  - exact rollup_db_stations_wf.
  - reflexivity.
  - compute_done.
  - intros p Hp. by apply not_elem_of_empty in Hp.
  - vm_compute. reflexivity.
  - intros stop Hstop. in_list Hstop.
    + apply (rollup_db_resolvable _ _ _ _ "80122"
               "7th Street / Metro Center" "Red");
        [ vm_compute; reflexivity | | by left ].
      unfold short_lookup, dict. cbn [foldl fst snd]. by simplify_map_eq.
    + apply (rollup_db_resolvable _ _ _ _ "80214" "Union Station" "Red");
        [ vm_compute; reflexivity | | by left ].
      unfold short_lookup, dict. cbn [foldl fst snd]. by simplify_map_eq.
  - change (str_opt _) with "80409".
    unfold short_lookup, dict. cbn [foldl fst snd]. by simplify_map_eq.
  - exists db1. split; [ exact Hrun | ]. split; [ exact Hrow | exact Hlines ].
Defined.

(** ** Further properties on the instance *)

(** The Gold line has two parts: the reduction returns a multi-part line,
    which is stored as it is and can be read back. *)
Lemma simplify_stores_other_types_unwrapped_witness :
  ∃ self1,
    Line_set_simple_linestrings_body vertex shift pole_error keep_ends
      500 2229 gold_line = (Ok (), self1) ∧
    Line_simple_linestring vertex 2229 self1 = Ok (Some gold_branches).
Proof.
  destruct (simplify_stores_other_types_unwrapped vertex shift pole_error
              keep_ends 500 gold_line 2229 gold_branches
              (GEOSGeometry
                 (MultiLineString [[(898684, 0); (898687, 3)];
                                   [(898687, 3); (898693, 3)]]) 900913)
              (GEOSGeometry
                 (MultiLineString [[(898684, 0); (898687, 3)];
                                   [(898687, 3); (898693, 3)]]) 900913)
              gold_branches known_line_srids)
    as (self1 & Hrun & _ & Hread).
  - reflexivity.
  - by left.
  - reflexivity.
  - reflexivity.
  - reflexivity.
  - reflexivity.
  - intros H. vm_compute in H. discriminate H.
  - reflexivity.
  - exists self1. split; [ exact Hrun | exact Hread ].
Defined.

(** The lines of [rollup_db] have two names: nothing to consolidate. *)
Lemma consolidate_noop_without_duplicates_witness :
  fix_line_dupes vertex union_parts rollup_db = (Ok (), rollup_db).
Proof.
  apply (consolidate_noop_without_duplicates vertex union_parts rollup_db).
  compute_done.
Defined.

Lemma fragments_db_unions (db : DB vertex) :
  db_lines db = db_lines fragments_db →
  ∀ n, (1 < group_size vertex n db)%nat →
    union_storable vertex union_parts n db.
Proof.
  intros Hlines n Hn.
  unfold union_storable, canonical_geoms, group_size, named in *.
  rewrite Hlines in *. destruct (decide (n = "Red")) as [-> | Hne].
  - eexists. split; reflexivity.
  - exfalso. revert Hn. cbn.
    repeat case_decide; subst; cbn; try lia; done.
Qed.

(** After the consolidation of the table with the split Red line. *)
Lemma consolidate_leaves_unique_names_witness :
  ∃ db', fix_line_dupes vertex union_parts fragments_db = (Ok (), db') ∧
    (∀ n, group_size vertex n db' =
            Nat.min 1 (group_size vertex n fragments_db)) ∧
    NoDup (Line_name vertex <$> db_lines db') ∧
    (∀ n, (0 < group_size vertex n fragments_db)%nat →
       ∃ r, Line_objects_get vertex (Some n) db' = (Ok r, db') ∧
            Line_name vertex r = n) ∧
    fix_line_dupes vertex union_parts db' = (Ok (), db').
Proof.
  apply (consolidate_leaves_unique_names vertex union_parts fragments_db).
  - exact fragments_db_wf.
  - by apply fragments_db_unions.
Defined.

Lemma linked_fragments_db_wf : lines_wf vertex linked_fragments_db.
Proof.
  split; [ compute_done | ].
  intros l Hl. cbn in Hl. in_list Hl; cbn; lia.
Defined.

Lemma linked_fragments_db_refs : line_refs_ok vertex linked_fragments_db.
Proof.
  split; intros p Hp; cbn in Hp.
  - set_unfold in Hp. destruct Hp as [[-> | ->] | ->]; compute_done.
  - by apply not_elem_of_empty in Hp.
Defined.

(** Consolidation of the table with the split Red line and attached stops:
    the stops are untouched and the line sets still refer to lines of the
    table. *)
Lemma consolidate_changes_lines_only_witness :
  let db' := (fix_line_dupes vertex union_parts linked_fragments_db).2 in
  db_stops db' = db_stops linked_fragments_db ∧
  db_stop_lines db' ⊆ db_stop_lines linked_fragments_db ∧
  line_refs_ok vertex db'.
Proof.
  destruct (consolidate_changes_lines_only vertex union_parts
              linked_fragments_db) as (H1 & _ & H3 & _ & H5).
  split; [ exact H1 | ]. split; [ exact H3 | ].
  apply H5. exact linked_fragments_db_refs.
Defined.

(** In that table the new Red row has no stop, although each of the two
    rows it replaces had one. *)
Lemma consolidate_drops_memberships_witness :
  ∃ db', fix_line_dupes vertex union_parts linked_fragments_db
           = (Ok (), db') ∧
    ∃ r, named vertex "Red" db' = [r] ∧
      (∀ i, (i, Line_id vertex r) ∉ db_stop_lines db') ∧
      (Line_get_stop_count vertex r db').1 = Ok 0%nat.
Proof.
  destruct (consolidate_drops_memberships vertex union_parts
              linked_fragments_db) as (db' & Hrun & Hall).
  - exact linked_fragments_db_wf.
  - exact linked_fragments_db_refs.
  - by apply fragments_db_unions.
  - exists db'. split; [ exact Hrun | ].
    destruct (Hall "Red") as (r & Hr & Hs & _ & Hc); [ vm_compute; lia | ].
    exists r. split; [ exact Hr | ]. split; [ exact Hs | exact Hc ].
Defined.

(** The extras of the lines of [rollup_db] can be computed. *)
Lemma rollup_db_extras (l : Line vertex) :
  l ∈ db_lines rollup_db →
  ∃ r, with_extras vertex shift pole_error keep_ends dashes l = Ok r.
Proof.
  intros Hl. cbn in Hl. in_list Hl; eexists; vm_compute; reflexivity.
Qed.

(** The extras of the two lines of [rollup_db]. *)
Lemma line_extras_completes_every_line_witness :
  ∃ db', line_extras vertex shift pole_error keep_ends dashes rollup_db
           = (Ok (), db') ∧
    Ok <$> db_lines db' =
      with_extras vertex shift pole_error keep_ends dashes <$>
        db_lines rollup_db ∧
    db_stops db' = db_stops rollup_db ∧
    ∃ r, r ∈ db_lines db' ∧ Line_name vertex r = "Red" ∧
      Line_slug vertex r = Some "Red" ∧
      (∃ g', transform vertex shift pole_error 4326 red_west = Ok g' ∧
             Line_linestring vertex 4326 r = Ok (Some g')) ∧
      ∃ g', Line_simple_linestring vertex 4326 r = Ok (Some g') ∧
            srid g' = 4326.
Proof.
  destruct (line_extras_completes_every_line vertex shift pole_error
              keep_ends dashes rollup_db)
    as (db' & Hrun & Hlines & Hstops & _ & _ & _ & Hrow).
  - compute_done.
  - exact rollup_db_extras.
  - exists db'. split; [ exact Hrun | ]. split; [ exact Hlines | ].
    split; [ exact Hstops | ].
    destruct (Hrow (imported_line 1 "Red" (Some red_west)))
      as (r & g & Hr & Hg & _ & Hname & Hslug & _ & Hfull & _ & Hsimple);
      [ by left | ].
    cbn in Hg. injection Hg as <-.
    exists r. split; [ exact Hr | ]. split; [ exact Hname | ].
    split; [ exact Hslug | ].
    split; [ apply Hfull; right; by left | ].
    apply Hsimple; [ reflexivity | do 2 right; by left ].
Defined.

(** The extras of [unset_db]: Blue is completed, the run stops at Expo, and
    Expo and Red are left as they were. *)
Lemma line_extras_aborts_on_missing_geometry_witness :
  ∃ db',
    line_extras vertex shift pole_error keep_ends dashes unset_db =
      (Raise (AttributeError
                "'NoneType' object has no attribute 'transform'"), db') ∧
    Line_id vertex <$> db_lines db' = Line_id vertex <$> db_lines unset_db ∧
    (∀ x r, x ∈ [ imported_line 3 "Blue" (Some blue_north) ] →
       with_extras vertex shift pole_error keep_ends dashes x = Ok r →
       r ∈ db_lines db') ∧
    (∀ x, x ∈ [ imported_line 2 "Expo" None;
                imported_line 1 "Red" (Some red_west) ] →
       x ∈ db_lines db').
Proof.
  apply (line_extras_aborts_on_missing_geometry vertex shift pole_error
           keep_ends dashes
           unset_db [ imported_line 3 "Blue" (Some blue_north) ]
           [ imported_line 1 "Red" (Some red_west) ]
           (imported_line 2 "Expo" None)).
  - compute_done.
  - vm_compute. reflexivity.
  - intros x Hx. in_list Hx. eexists. vm_compute. reflexivity.
  - reflexivity.
Defined.

(** The extras of [polar_db]: Blue is completed, the transform of Gold into
    SRID 900913 raises, and Gold and Red are left as they were. *)
Lemma line_extras_stops_at_failing_line_witness :
  ∃ db',
    line_extras vertex shift pole_error keep_ends dashes polar_db =
      (Raise (GDALException "OGR failure."), db') ∧
    Line_id vertex <$> db_lines db' = Line_id vertex <$> db_lines polar_db ∧
    (∀ x r, x ∈ [ imported_line 1 "Blue" (Some blue_north) ] →
       with_extras vertex shift pole_error keep_ends dashes x = Ok r →
       r ∈ db_lines db') ∧
    (∀ x, x ∈ [ imported_line 2 "Gold"
                  (Some (GEOSGeometry
                           (MultiLineString [[(0, 0); (0, 90)]]) 2229));
                imported_line 3 "Red" (Some red_west) ] →
       x ∈ db_lines db') ∧
    db_stops db' = db_stops polar_db ∧
    db_stations db' = db_stations polar_db ∧
    db_stop_lines db' = db_stop_lines polar_db ∧
    db_station_lines db' = db_station_lines polar_db.
Proof.
  apply (line_extras_stops_at_failing_line vertex shift pole_error
           keep_ends dashes
           polar_db [ imported_line 1 "Blue" (Some blue_north) ]
           [ imported_line 3 "Red" (Some red_west) ]
           (imported_line 2 "Gold"
              (Some (GEOSGeometry
                       (MultiLineString [[(0, 0); (0, 90)]]) 2229)))).
  - compute_done.
  - vm_compute. reflexivity.
  - intros x Hx. in_list Hx. eexists. vm_compute. reflexivity.
  - vm_compute. reflexivity.
Defined.

Lemma twin_db_wf : lines_wf vertex twin_db.
Proof.
  split; [ compute_done | ].
  intros l Hl. cbn in Hl. in_list Hl; cbn; lia.
Defined.

(** Consolidation of [twin_db]: the union of the two Expo rows is a
    single-part line, [create] refuses it, and Expo and Red keep their
    rows. *)
Lemma consolidate_refuses_other_union_types_witness :
  ∃ db', fix_line_dupes vertex union_parts twin_db =
           (Raise (TypeError
                     "cannot set Line GeometryProxy with value of that type"),
            db') ∧
    named vertex "Expo" db' = named vertex "Expo" twin_db ∧
    (∀ d', d' ∈ [("Red", 2%nat)] →
       named vertex d'.1 db' = named vertex d'.1 twin_db).
Proof.
  destruct (consolidate_refuses_other_union_types vertex union_parts twin_db
              [] [("Red", 2%nat)] ("Expo", 2%nat)
              (Some (GEOSGeometry (LineString [(0, 0); (0, 10)]) 2229)))
    as (db' & Hrun & Hsame & _ & Hpost & _).
  - exact twin_db_wf.
  - vm_compute. reflexivity.
  - intros d' Hd'. by apply elem_of_nil in Hd'.
  - vm_compute. reflexivity.
  - reflexivity.
  - exists db'. split; [ exact Hrun | ]. split; [ exact Hsame | exact Hpost ].
Defined.

Lemma rollup_db_full_resolvable (stop : Stop vertex) :
  stop ∈ db_stops rollup_db →
  resolvable vertex full_lookup (db_lines rollup_db) stop.
Proof.
  intros Hstop. cbn [db_stops rollup_db] in Hstop. in_list Hstop.
  - apply (rollup_db_resolvable _ _ _ _ "80214" "Union Station" "Red");
      [ vm_compute; reflexivity | | by left ].
    unfold full_lookup, dict. cbn [foldl fst snd]. by simplify_map_eq.
  - apply (rollup_db_resolvable _ _ _ _ "80122"
             "7th Street / Metro Center" "Red");
      [ vm_compute; reflexivity | | by left ].
    unfold full_lookup, dict. cbn [foldl fst snd]. by simplify_map_eq.
  - apply (rollup_db_resolvable _ _ _ _ "80409" "Union Station" "Gold");
      [ vm_compute; reflexivity | | by right ].
    unfold full_lookup, dict. cbn [foldl fst snd]. by simplify_map_eq.
Qed.

(** The rows of the three stops after the rollup with the full
    crosswalk. *)
Lemma rollup_renames_stops_witness :
  ∃ db', stations vertex dashes full_crosswalk rollup_db = (Ok (), db') ∧
    length (db_stops db') = 3%nat ∧
    ∀ r, r ∈ db_stops db' →
      ∃ r0 nm st,
        r0 ∈ db_stops rollup_db ∧ st ∈ db_stations db' ∧
        Stop_id vertex r = Stop_id vertex r0 ∧
        Stop_name vertex r = Some nm ∧
        Stop_slug vertex r =
          Some (dashes nm +:+ "-" +:+ str_opt (Stop_stop_id vertex r0)) ∧
        Stop_station vertex r = Some (Station_id st) ∧
        Station_name st = nm.
Proof.
  destruct (rollup_renames_stops vertex dashes full_crosswalk full_lookup
              rollup_db) as (db' & Hrun & Hlen & Hrows).
  - exact make_full_lookup.
  - exact rollup_db_stations_wf.
  - reflexivity.
  - compute_done.
  - intros p Hp. by apply not_elem_of_empty in Hp.
  - exact rollup_db_full_resolvable.
  - exists db'. split; [ exact Hrun | ]. split; [ exact Hlen | ].
    intros r Hr.
    destruct (Hrows r Hr)
      as (r0 & cw & nm & st & H1 & _ & _ & H4 & H5 & _ & _ & _ & _ & H10
          & H11 & H12 & H13 & _).
    exists r0, nm, st. repeat (split; [ assumption | ]). assumption.
Defined.

(** The two Union Station stops share a station. *)
Lemma rollup_shares_stations_by_name_witness :
  ∃ db', stations vertex dashes full_crosswalk rollup_db = (Ok (), db') ∧
    ∀ r1 r2, r1 ∈ db_stops db' → r2 ∈ db_stops db' →
      (Stop_station vertex r1 = Stop_station vertex r2 ↔
       Stop_name vertex r1 = Stop_name vertex r2).
Proof.
  apply (rollup_shares_stations_by_name vertex dashes full_crosswalk
           full_lookup rollup_db).
  - exact make_full_lookup.
  - exact rollup_db_stations_wf.
  - reflexivity.
  - compute_done.
  - intros p Hp. by apply not_elem_of_empty in Hp.
  - exact rollup_db_full_resolvable.
Defined.

Lemma full_lookup_gold_row :
  full_lookup !! "80409" =
    Some (crosswalk_row "80409" "Union Station" "Gold" EmptyString).
Proof.
  unfold full_lookup, dict. cbn [foldl fst snd]. by simplify_map_eq.
Qed.

(** The Gold stop of Union Station is attached to the Gold line only. *)
Lemma rollup_links_named_lines_witness :
  ∃ db', stations vertex dashes full_crosswalk rollup_db = (Ok (), db') ∧
    ∀ l, (3, l) ∈ db_stop_lines db' ↔
         ∃ ln, ln ∈ db_lines rollup_db ∧
               names_line vertex
                 (crosswalk_row "80409" "Union Station" "Gold" EmptyString)
                 ln ∧
               l = Line_id vertex ln.
Proof.
  destruct (rollup_links_named_lines vertex dashes full_crosswalk full_lookup
              rollup_db) as (db' & Hrun & _ & Hlinks).
  - exact make_full_lookup.
  - exact rollup_db_stations_wf.
  - reflexivity.
  - compute_done.
  - intros p Hp. by apply not_elem_of_empty in Hp.
  - exact rollup_db_full_resolvable.
  - exists db'. split; [ exact Hrun | ]. intros l.
    rewrite (Hlinks (imported_stop 3 "UNION STATION GOLD" 80409)
               (crosswalk_row "80409" "Union Station" "Gold" EmptyString) l).
    + split; [ | by right ].
      intros [Hp | Hln]; [ | exact Hln ].
      exfalso. revert Hp. apply not_elem_of_empty.
    + cbn. do 2 right. by left.
    + exact full_lookup_gold_row.
Defined.

(** Stop counts after the rollup of the three stops. *)
Lemma rollup_stop_counts_witness :
  ∃ db', stations vertex dashes full_crosswalk rollup_db = (Ok (), db') ∧
    (∀ st, st ∈ db_stations db' →
       ∃ n, (Station_get_stop_count vertex st db').1 = Ok n ∧ (1 ≤ n)%nat) ∧
    sum_list ((λ st, match (Station_get_stop_count vertex st db').1 with
                     | Ok n => n
                     | Raise _ => 0%nat
                     end) <$> db_stations db') = 3%nat.
Proof.
  apply (rollup_stop_counts vertex dashes full_crosswalk full_lookup
           rollup_db).
  - exact make_full_lookup.
  - reflexivity.
  - reflexivity.
  - compute_done.
  - intros p Hp. by apply not_elem_of_empty in Hp.
  - exact rollup_db_full_resolvable.
Defined.

(** Of the two rows for stop 80214 the second is the one in the lookup; a
    row without [stop_id] makes the construction fail. *)
Lemma stop_lookup_last_row_wins_witness :
  (∃ stop_lookup, make_stop_lookup doubled_crosswalk = Ok stop_lookup ∧
     stop_lookup !! "80214" =
       Some (crosswalk_row "80214" "Union Station East" "Gold" EmptyString)) ∧
  make_stop_lookup (doubled_crosswalk ++ [headless_row]) =
    Raise (KeyError "stop_id").
Proof.
  split.
  - destruct (proj1 (stop_lookup_last_row_wins doubled_crosswalk))
      as (stop_lookup & Hmake & Hlast).
    + intros row Hrow. unfold doubled_crosswalk in Hrow. in_list Hrow.
      all: rewrite (proj1 (crosswalk_row_lookup _ _ _ _)); by eexists.
    + exists stop_lookup. split; [ exact Hmake | ].
      rewrite Hlast. unfold doubled_crosswalk.
      rewrite !filter_cons, !(proj1 (crosswalk_row_lookup _ _ _ _)).
      rewrite decide_True by done. reflexivity.
  - apply (proj2 (stop_lookup_last_row_wins
                    (doubled_crosswalk ++ [headless_row]))).
    exists headless_row. split.
    + apply elem_of_app. right. by left.
    + unfold headless_row. by simplify_map_eq.
Defined.

Lemma make_purple_lookup :
  make_stop_lookup purple_crosswalk = Ok purple_lookup.
Proof.
  unfold make_stop_lookup, purple_crosswalk, purple_row, getitem.
  cbn [map_result].
  rewrite !(proj1 (crosswalk_row_lookup _ _ _ _)). reflexivity.
Qed.

Lemma purple_lookup_row : purple_lookup !! "80122" = Some purple_row.
Proof.
  unfold purple_lookup, dict. cbn [foldl fst snd]. by simplify_map_eq.
Qed.

Lemma no_purple_line (l : Line vertex) :
  l ∈ db_lines rollup_db → Some (Line_name vertex l) ≠ purple_row !! "Line2".
Proof.
  intros Hl. unfold purple_row.
  rewrite (proj2 (proj2 (proj2 (crosswalk_row_lookup _ _ _ _)))).
  cbn in Hl. in_list Hl; discriminate.
Qed.

(** The rollup with a crosswalk that names a Purple line does not
    complete. *)
Lemma rollup_fails_on_unknown_line_witness :
  ∃ e db', stations vertex dashes purple_crosswalk rollup_db = (Raise e, db').
Proof.
  apply (rollup_fails_on_unknown_line vertex dashes purple_crosswalk
           purple_lookup rollup_db
           (imported_stop 2 "7TH ST METRO CTR" 80122) purple_row "Line2").
  - exact make_purple_lookup.
  - cbn. right. by left.
  - exact purple_lookup_row.
  - right. by left.
  - unfold purple_row.
    by rewrite (proj2 (proj2 (proj2 (crosswalk_row_lookup _ _ _ _)))).
  - exact no_purple_line.
Defined.

(** It stops at stop 80122, the first in the order of [stop_id]: the stop
    has been attached to the Red line, and its row still has the name of the
    import and no station. *)
Lemma rollup_unknown_second_line_witness :
  ∃ db2,
    stations vertex dashes purple_crosswalk rollup_db =
      (Raise (DoesNotExist "Line"), db2) ∧
    imported_stop 2 "7TH ST METRO CTR" 80122 ∈ db_stops db2 ∧
    (∀ l, (2, l) ∈ db_stop_lines db2 ↔ l = 1) ∧
    db_stations db2 = [].
Proof.
  destruct (rollup_unknown_second_line vertex dashes purple_crosswalk
              purple_lookup rollup_db []
              [ imported_stop 1 "UNION STATION" 80214;
                imported_stop 3 "UNION STATION GOLD" 80409 ]
              (imported_stop 2 "7TH ST METRO CTR" 80122) purple_row
              (imported_line 1 "Red" (Some red_west)))
    as (db2 & Hrun & Hrow & Hlinks & Hstations).
  - exact make_purple_lookup.
  - exact rollup_db_stations_wf.
  - reflexivity.
  - compute_done.
  - intros p Hp. by apply not_elem_of_empty in Hp.
  - vm_compute. reflexivity.
  - intros s Hs. by apply elem_of_nil in Hs.
  - exact purple_lookup_row.
  - unfold purple_row.
    by rewrite (proj1 (proj2 (proj2 (crosswalk_row_lookup _ _ _ _)))).
  - unfold purple_row.
    rewrite (proj1 (proj2 (proj2 (crosswalk_row_lookup _ _ _ _)))).
    vm_compute. reflexivity.
  - unfold purple_row.
    by rewrite (proj2 (proj2 (proj2 (crosswalk_row_lookup _ _ _ _)))).
  - exact no_purple_line.
  - exists db2. split; [ exact Hrun | ]. split; [ exact Hrow | ].
    split.
    + intros l. rewrite (Hlinks l). split; [ | by right ].
      intros [Hp | Hl]; [ | exact Hl ].
      exfalso. revert Hp. apply not_elem_of_empty.
    + destruct (db_stations db2) as [|x rest]; [ done | ].
      destruct (Hstations x) as [Hx | (s & _ & Hs & _)]; [ by left | | ].
      * by apply elem_of_nil in Hx.
      * by apply elem_of_nil in Hs.
Defined.

(** A reload over the tables of [linked_fragments_db]. *)
Lemma all_reloads_from_empty_tables_witness :
  all vertex shift pole_error keep_ends union_parts dashes import_lines import_stops
      full_crosswalk linked_fragments_db =
    load_pipeline vertex shift pole_error keep_ends union_parts dashes
      import_lines import_stops full_crosswalk
      (mkDB [] [] [] ∅ ∅ 4 1).
Proof.
  apply (all_reloads_from_empty_tables vertex shift pole_error keep_ends union_parts
           dashes import_lines import_stops full_crosswalk
           linked_fragments_db).
  exact linked_fragments_db_refs.
Defined.

(** Consolidation and extras of the table with the split Red line: one Red
    row, with the union of the two fragments in four reference systems. *)
Lemma consolidated_lines_get_extras_witness :
  ∃ db2,
    bind (fix_line_dupes vertex union_parts)
         (λ _, line_extras vertex shift pole_error keep_ends dashes)
         fragments_db
      = (Ok (), db2) ∧
    ∃ r g b, named vertex "Red" db2 = [r] ∧
      Line_slug vertex r = Some "Red" ∧
      linestring_2229 vertex r = Some g ∧
      transform vertex shift pole_error 4326 g = Ok b ∧
      linestring_4326 vertex r = Some b ∧
      union_parts (canonical_geoms vertex "Red" fragments_db) = Ok (Some g).
Proof.
  destruct (consolidated_lines_get_extras vertex shift pole_error keep_ends
              union_parts dashes fragments_db) as (db2 & Hrun & Hall).
  - exact fragments_db_wf.
  - intros l Hl _. cbn in Hl. in_list Hl; eexists; vm_compute; reflexivity.
  - intros n Hn. destruct (decide (n = "Red")) as [-> | Hne].
    + do 2 eexists. split; [ vm_compute; reflexivity | ].
      vm_compute. reflexivity.
    + exfalso. revert Hn. unfold group_size, named. cbn.
      repeat case_decide; subst; cbn; try lia; done.
  - exists db2. split; [ exact Hrun | ].
    destruct (Hall "Red")
      as (r & g & a & b & c & Hr & Hslug & Hg & _ & _ & Hb & H4326 & _ & _ &
          Hu);
      [ vm_compute; lia | ].
    exists r, g, b. split; [ exact Hr | ]. split; [ exact Hslug | ].
    split; [ exact Hg | ]. split; [ exact Hb | ]. split; [ exact H4326 | ].
    rewrite decide_True in Hu by (vm_compute; lia). exact Hu.
Defined.

(** A second run of the extras over the lines of [rollup_db]. *)
Lemma line_extras_idempotent_witness :
  ∃ db', line_extras vertex shift pole_error keep_ends dashes rollup_db
           = (Ok (), db') ∧
         line_extras vertex shift pole_error keep_ends dashes db'
           = (Ok (), db').
Proof.
  apply (line_extras_idempotent vertex shift pole_error keep_ends dashes
           rollup_db).
  - compute_done.
  - exact rollup_db_extras.
Defined.

(** A second rollup of the three stops with the full crosswalk. *)
Lemma rollup_idempotent_witness :
  ∃ db', stations vertex dashes full_crosswalk rollup_db = (Ok (), db') ∧
         stations vertex dashes full_crosswalk db' = (Ok (), db').
Proof.
  apply (rollup_idempotent vertex dashes full_crosswalk full_lookup
           rollup_db).
  - exact make_full_lookup.
  - exact rollup_db_stations_wf.
  - reflexivity.
  - compute_done.
  - intros p Hp. by apply not_elem_of_empty in Hp.
  - exact rollup_db_full_resolvable.
Defined.

(** Sync of the stop at the pole from SRID 4269: the transform into SRID
    4326 returns and the field is written, the transform into SRID 900913
    raises, and the stop is left with the first field set and the second
    unset. *)
Lemma sync_stops_at_failed_transform_witness :
  ∃ self', Stop_set_point vertex shift pole_error 4269 pole_stop =
             (Raise (GDALException "OGR failure."), self') ∧
    Stop_point vertex 4326 self' =
      Ok (Some (GEOSGeometry (Point (Some (-61, 90))) 4326)) ∧
    Stop_point vertex 900913 self' = Ok None ∧
    Stop_point vertex 4269 self' = Ok (Some pole_point).
Proof.
  destruct (proj2 (sync_stops_at_failed_transform vertex shift pole_error)
              pole_stop 4269 pole_point known_stop_srids [4326] [] 900913
              (GDALException "OGR failure."))
    as (self' & Hrun & Hset & Hkept & _).
  - reflexivity.
  - by left.
  - reflexivity.
  - reflexivity.
  - intros s' Hs'. in_list Hs'. eexists. reflexivity.
  - reflexivity.
  - exists self'. split; [ exact Hrun | ].
    split; [ apply Hset; [ by left | reflexivity ] | ].
    split.
    + rewrite (Hkept 900913) by (right; by left). reflexivity.
    + rewrite (Hkept 4269) by (by left). reflexivity.
Defined.
